(** * ReaRec / LETTER data pipeline: shallow embedding and verified properties

    The development follows the two source files

    - [src/helpers/LETTERReader.py]  (module [LETTERReader] below): the
      leave-one-out sample generator and the auxiliary lookups;
    - [src/helpers/preprocess_letter_data.py] (module
      [preprocess_letter_data] below): the builder of the canonical artifact.

    Python values are modelled as follows: [int] is [Z]; a [list] is a Rocq
    [list]; a [dict] whose iteration order matters is an insertion-ordered
    association list ([PyDict]); a [dict] that is only looked up is a stdpp
    [gmap]; a [set] is a [gset]; an exception is the [Raise] branch of the
    [result] monad; a binary64 [float] is a [spec_float].

    What the libraries do where the source does not determine it is a
    parameter of the embedding: what numpy and torch make of an integer
    that an int64 tensor or a double does not hold exactly, and how pandas
    converts a column of dates. The order in which pandas' default sort
    leaves rows with equal keys is not determined either; the properties
    stated below hold for every such order. *)

From Stdlib Require Import ZArith QArith List Lia SpecFloat.
From stdpp Require Import gmap strings list fin_maps pretty sorting.

Open Scope Z_scope.

(** ** Exceptions and the error monad *)

Inductive exn : Type :=
| ValueError
| IndexError
| KeyError (key : string)
| TypeError
| AttributeError
| JSONDecodeError.

Inductive result (A : Type) : Type :=
| Ok (a : A)
| Raise (e : exn).
Arguments Ok {A} a.
Arguments Raise {A} e.

#[global] Instance result_ret : MRet result := λ A a, Ok a.
#[global] Instance result_bind : MBind result := λ A B f m,
  match m with
  | Ok a => f a
  | Raise e => Raise e
  end.
#[global] Instance result_fmap : FMap result := λ A B f m,
  match m with
  | Ok a => Ok (f a)
  | Raise e => Raise e
  end.

(** [mapM] of stdpp specialised to [result]: a list comprehension or a
    [for] loop whose body may raise. *)
Fixpoint for_each {A B} (f : A → result B) (l : list A) : result (list B) :=
  match l with
  | [] => Ok []
  | x :: l' => y ← f x; ys ← for_each f l'; mret (y :: ys)
  end.

(** ** Python built-ins on lists *)

Module Py.

Definition len {A} (l : list A) : Z := Z.of_nat (length l).

(** A negative index or slice bound counts from the end. *)
Definition from_end {A} (l : list A) (k : Z) : Z :=
  if k <? 0 then len l + k else k.

(** [l[k]]: raises [IndexError] out of range. *)
Definition getitem {A} (l : list A) (k : Z) : result A :=
  let j := from_end l k in
  if j <? 0 then Raise IndexError
  else match l !! Z.to_nat j with
       | Some x => Ok x
       | None => Raise IndexError
       end.

(** [l[:k]]: bounds are clamped, never raises. *)
Definition slice_to {A} (l : list A) (k : Z) : list A :=
  take (Z.to_nat (from_end l k)) l.

(** [l[k:]]: bounds are clamped, never raises. *)
Definition slice_from {A} (l : list A) (k : Z) : list A :=
  drop (Z.to_nat (from_end l k)) l.

(** [range(a, b)]. *)
Definition range (a b : Z) : list Z := seqZ a (b - a).

(** [max(xs)] of an iterable of ints: [ValueError] when it is empty. *)
Definition max (xs : list Z) : result Z :=
  match xs with
  | [] => Raise ValueError
  | x :: xs' => Ok (foldl Z.max x xs')
  end.

(** [str(n)] for an int. *)
Definition str (n : Z) : string := pretty n.

End Py.

(** ** Insertion-ordered dictionaries

    A Python [dict] iterates in insertion order; assigning to a key that is
    already present replaces the value and keeps the key's position. *)

Module PyDict.

Definition t (K V : Type) : Type := list (K * V).

Fixpoint set `{EqDecision K} {V} (k : K) (v : V) (d : t K V) : t K V :=
  match d with
  | [] => [(k, v)]
  | (k', v') :: d' =>
      if decide (k' = k) then (k, v) :: d' else (k', v') :: set k v d'
  end.

Definition keys {K V} (d : t K V) : list K := d.*1.
Definition values {K V} (d : t K V) : list V := d.*2.

(** [dict(pairs)]: later pairs overwrite earlier ones. *)
Definition of_items `{EqDecision K} {V} (kvs : list (K * V)) : t K V :=
  foldl (λ d kv, set kv.1 kv.2 d) [] kvs.

End PyDict.

(** ** The leave-one-out sample generator: [src/helpers/LETTERReader.py] *)

Module LETTERReader.

(** The column names [USER_ID], [ITEM_ID], [ITEM_SEQ], [ITEM_SEQ_LEN] of
    [utils.constants]: four distinct keys. *)
Inductive field : Type := USER_ID | ITEM_ID | ITEM_SEQ | ITEM_SEQ_LEN.

#[global] Instance field_eq_dec : EqDecision field.
Proof. solve_decision. Defined.

#[global] Instance field_countable : Countable field.
Proof.
  refine (inj_countable'
            (λ f, match f with
                  | USER_ID => 0%nat | ITEM_ID => 1%nat
                  | ITEM_SEQ => 2%nat | ITEM_SEQ_LEN => 3%nat
                  end)
            (λ n, match n with
                  | 0%nat => USER_ID | 1%nat => ITEM_ID
                  | 2%nat => ITEM_SEQ | _ => ITEM_SEQ_LEN
                  end) _).
  by intros [].
Defined.

(** A [torch] tensor of ints, of rank one or two. *)
Inductive tensor : Type :=
| Tensor1 (v : list Z)
| Tensor2 (m : list (list Z)).

(** One element of [train_data], [valid_data] or [test_data]: the dict
    [{USER_ID: .., ITEM_ID: .., ITEM_SEQ: ..}]. *)
Record row : Type := Row {
  row_USER_ID : Z;
  row_ITEM_ID : Z;
  row_ITEM_SEQ : list Z
}.

(** [pd.DataFrame], column by column. *)
Record DataFrame : Type := Frame {
  df_USER_ID : list Z;
  df_ITEM_ID : list Z;
  df_ITEM_SEQ : list (list Z);
  df_ITEM_SEQ_LEN : list Z
}.

Record item_feature : Type := Feature {
  title : string;
  description : string
}.

(** The three files of the canonical artifact as [json.load] returns
    them. An entry of [inter_json] is given by the integers its key and
    its items denote ([int(uid)], [int(item)]). *)
Record artifact : Type := Artifact {
  inter_json : list (Z * list Z);
  index_json : gmap string (list string);
  item_json : gmap string item_feature
}.

(** The attributes of a [LETTERReader] object. [item_features] is set
    only when [use_item_features] is. *)
Record reader : Type := Reader {
  use_item_features : bool;
  inters : list (Z * list Z);
  indices : gmap string (list string);
  item_features : option (gmap string item_feature);
  n_users : Z;
  n_items : Z;
  data_dict : gmap string (gmap field tensor)
}.

(** [.long()]: an int64 tensor holds the integers from [-2^63] to
    [2^63 - 1] as they are. *)
Definition int64 (x : Z) : bool := (- 2 ^ 63 <=? x) && (x <? 2 ^ 63).

(** [pad] takes its [value] as a double: an integer of magnitude at most
    [2^53] passes through a double unchanged. *)
Definition exact_double (x : Z) : bool := (- 2 ^ 53 <=? x) && (x <=? 2 ^ 53).

(** The integers that [_dataframe_to_tensors] converts: the three integer
    columns, the contexts and the pad value [n_items - 1]. *)
Definition exact (self_n_items : Z) (df : DataFrame) : bool :=
  forallb (forallb int64) (df_ITEM_SEQ df)
  && exact_double (self_n_items - 1)
  && forallb int64 (df_USER_ID df)
  && forallb int64 (df_ITEM_ID df)
  && forallb int64 (df_ITEM_SEQ_LEN df).

(** [torch.nn.functional.pad(seq, (left, 0), value=value)] for a [value]
    that the double holds exactly: a negative amount crops instead. *)
Definition pad (seq : list Z) (left : Z) (value : Z) : list Z :=
  if left <? 0 then drop (Z.to_nat (- left)) seq
  else replicate (Z.to_nat left) value ++ seq.

Section Generator.

(** [MAX_ITEM_SEQ_LEN] of [utils.constants]. *)
Variable MAX_ITEM_SEQ_LEN : nat.

(** What [_dataframe_to_tensors] gives for a table that holds an integer
    outside the int64 range, or when the pad value is not held exactly by
    a double: numpy and torch then wrap, round or raise, which the source
    does not determine. *)
Variable inexact : Z → DataFrame → result (gmap field tensor).

Definition _dataframe_to_tensors (self_n_items : Z) (df : DataFrame)
  : result (gmap field tensor) :=
  if negb (exact self_n_items df) then inexact self_n_items df
  else
    let item_seq := df_ITEM_SEQ df in
    let left_padded_seqs :=
      (λ seq, pad seq (Z.of_nat MAX_ITEM_SEQ_LEN - Py.len seq)
                  (self_n_items - 1)) <$> item_seq in
    let data_dict : gmap field tensor := ∅ in
    let data_dict := <[ITEM_SEQ := Tensor2 left_padded_seqs]> data_dict in
    let data_dict := <[USER_ID := Tensor1 (df_USER_ID df)]> data_dict in
    let data_dict := <[ITEM_ID := Tensor1 (df_ITEM_ID df)]> data_dict in
    let data_dict :=
      <[ITEM_SEQ_LEN := Tensor1 (df_ITEM_SEQ_LEN df)]> data_dict in
    mret data_dict.

(** The body of the loop over the users, lines 120-149. *)
Definition split_user (uid : Z) (items : list Z)
    (acc : list row * list row * list row)
  : result (list row * list row * list row) :=
  let '(train_data, valid_data, test_data) := acc in
  if Py.len items <? 3 then Ok acc
  else
    let train_items := Py.slice_to items (-2) in
    valid_item ← Py.getitem items (-2);
    test_item ← Py.getitem items (-1);
    new_train ← for_each
      (λ i, target ← Py.getitem train_items i;
            mret (Row uid target (Py.slice_to train_items i)))
      (Py.range 1 (Py.len train_items));
    mret (train_data ++ new_train,
          valid_data ++ [Row uid valid_item (Py.slice_to items (-2))],
          test_data ++ [Row uid test_item (Py.slice_to items (-1))]).

Fixpoint split_users (users : list (Z * list Z))
    (acc : list row * list row * list row)
  : result (list row * list row * list row) :=
  match users with
  | [] => Ok acc
  | (uid, items) :: rest =>
      acc' ← split_user uid items acc; split_users rest acc'
  end.

(** Lines 155-158: the table of a split, its contexts truncated and
    their lengths added. *)
Definition split_frame (split_data : list row) : DataFrame :=
  let df := Frame (row_USER_ID <$> split_data)
                  (row_ITEM_ID <$> split_data)
                  (row_ITEM_SEQ <$> split_data) [] in
  let truncated :=
    (λ x, Py.slice_from x (- Z.of_nat MAX_ITEM_SEQ_LEN))
      <$> df_ITEM_SEQ df in
  let df := Frame (df_USER_ID df) (df_ITEM_ID df) truncated
                  (df_ITEM_SEQ_LEN df) in
  let df := Frame (df_USER_ID df) (df_ITEM_ID df) (df_ITEM_SEQ df)
                  (Py.len <$> df_ITEM_SEQ df) in
  df.

(** Lines 152-163 for one split. *)
Definition split_table (self_n_items : Z) (split_data : list row)
  : result (gmap field tensor) :=
  match split_data with
  | _ :: _ => _dataframe_to_tensors self_n_items (split_frame split_data)
  | [] => mret ∅
  end.

Definition _convert_to_rearec_format (self_n_items : Z)
    (processed_inters : PyDict.t Z (list Z))
  : result (gmap string (gmap field tensor)) :=
  '(train_data, valid_data, test_data) ←
    split_users processed_inters ([], [], []);
  let data_dict : gmap string (gmap field tensor) := ∅ in
  train ← split_table self_n_items train_data;
  let data_dict := <["train" := train]> data_dict in
  valid ← split_table self_n_items valid_data;
  let data_dict := <["valid" := valid]> data_dict in
  test ← split_table self_n_items test_data;
  let data_dict := <["test" := test]> data_dict in
  mret data_dict.

(** [processed_inters] of [_process_letter_data], lines 91-93. *)
Definition processed (self_inters : list (Z * list Z))
  : PyDict.t Z (list Z) :=
  PyDict.of_items self_inters.

(** [all_items], lines 96-98. *)
Definition all_items (processed_inters : PyDict.t Z (list Z)) : gset Z :=
  foldl (λ s items, s ∪ list_to_set items) ∅
        (PyDict.values processed_inters).

(** [_process_letter_data]: the statistics and the splits computed from
    [self.inters]. *)
Definition _process_letter_data (self_inters : list (Z * list Z))
  : result (Z * Z * gmap string (gmap field tensor)) :=
  let processed_inters := processed self_inters in
  let all_items := all_items processed_inters in
  let n_users := Py.len processed_inters + 1 in
  m ← Py.max (elements all_items);
  let n_items := m + 2 in
  data_dict ← _convert_to_rearec_format n_items processed_inters;
  mret (n_users, n_items, data_dict).

(** [__init__] and [_read_data]: the reader built from the flag and the
    files. *)
Definition __init__ (args_use_item_features : bool) (files : artifact)
  : result reader :=
  let self_inters := inter_json files in
  let self_indices := index_json files in
  let self_item_features :=
    if args_use_item_features then Some (item_json files) else None in
  '(n_users, n_items, data_dict) ← _process_letter_data self_inters;
  mret (Reader args_use_item_features self_inters self_indices
               self_item_features n_users n_items data_dict).

End Generator.

(** [get_item_features]: [Ok None] is Python's [None]. *)
Definition get_item_features (self : reader) (item_ids : list Z)
  : result (option (gmap Z item_feature)) :=
  if negb (use_item_features self) then Ok None
  else
    match item_features self with
    | None => Raise AttributeError
    | Some self_item_features =>
        Ok (Some (foldl (λ (features : gmap Z item_feature) item_id,
                           match self_item_features !! Py.str item_id with
                           | Some f => <[item_id := f]> features
                           | None => features
                           end) ∅ item_ids))
    end.

(** [get_item_tokens]. *)
Definition get_item_tokens (self : reader) (item_ids : list Z)
  : gmap Z (list string) :=
  foldl (λ (tokens : gmap Z (list string)) item_id,
           match indices self !! Py.str item_id with
           | Some t => <[item_id := t]> tokens
           | None => tokens
           end) ∅ item_ids.

(** *** Reading a split table back, row by row *)

(** One sample of a split as the consumer of [data_dict] sees it. *)
Record sample : Type := Sample {
  user_id : Z;
  target_item_id : Z;
  padded_context : list Z;
  context_length : Z
}.

Fixpoint zip_rows (us ts : list Z) (cs : list (list Z)) (ls : list Z)
  : list sample :=
  match us, ts, cs, ls with
  | u :: us', t :: ts', c :: cs', l :: ls' =>
      Sample u t c l :: zip_rows us' ts' cs' ls'
  | _, _, _, _ => []
  end.

(** The rows of a table; a table that lacks a column has none. *)
Definition table_rows (t : gmap field tensor) : list sample :=
  match t !! USER_ID, t !! ITEM_ID, t !! ITEM_SEQ, t !! ITEM_SEQ_LEN with
  | Some (Tensor1 us), Some (Tensor1 ts), Some (Tensor2 cs),
    Some (Tensor1 ls) => zip_rows us ts cs ls
  | _, _, _, _ => []
  end.

(** The rows of split [name] of a [data_dict]. *)
Definition split_rows (d : gmap string (gmap field tensor)) (name : string)
  : list sample :=
  match d !! name with
  | Some t => table_rows t
  | None => []
  end.

End LETTERReader.

(** ** The canonical interaction builder:
       [src/helpers/preprocess_letter_data.py] *)

Module preprocess_letter_data.

(** A decoded JSON scalar (the review records hold no nested value in
    the fields read here). *)
Inductive json : Type :=
| JNull
| JBool (b : bool)
| JNum (q : Q)
| JStr (s : string).

(** One element of [interactions] in [load_yelp_data]: the dict with the
    keys ['user_id'], ['item_id'], ['rating'], ['timestamp']. *)
Record raw_interaction : Type := RawInteraction {
  raw_user_id : json;
  raw_item_id : json;
  raw_rating : json;
  raw_timestamp : json
}.

(** [data[key]] on a decoded object: [KeyError] when the key is absent. *)
Definition subscript (data : gmap string json) (key : string)
  : result json :=
  match data !! key with
  | Some v => Ok v
  | None => Raise (KeyError key)
  end.

(** Lines 80-90 of [load_yelp_data]: the loop over the lines of the
    review file. An element of [lines] is what [json.loads(line)] yields:
    a decoded object, or the exception it raises. *)
Fixpoint yelp_interactions (lines : list (result (gmap string json)))
  : result (list raw_interaction) :=
  match lines with
  | [] => Ok []
  | line :: rest =>
      data ← line;
      u ← subscript data "user_id";
      i ← subscript data "business_id";
      r ← subscript data "stars";
      t ← subscript data "date";
      interactions ← yelp_interactions rest;
      mret (RawInteraction u i r t :: interactions)
  end.

Section Loader.

(** [pd.to_datetime(col).astype(int) // 10**9] on the whole ['timestamp']
    column: pandas parses the dates, or raises, and gives one integer per
    row; how it parses and the unit of the integers (seconds only when the
    datetimes are in nanoseconds) depend on pandas, not on the source. *)
Variable to_unix_seconds : list json → result (list Z).
Variable args_rating_threshold : Q.

(** Line 95 on one row: the converted timestamp replaces the date. *)
Definition with_unix_timestamp (r : raw_interaction) (t : Z)
  : raw_interaction :=
  RawInteraction (raw_user_id r) (raw_item_id r) (raw_rating r)
                 (JNum (inject_Z t)).

(** [cell > args.rating_threshold] on one cell of the ['rating'] column:
    a comparison of numbers; a missing value ([None], [NaN]) compares as
    [False]; a string raises [TypeError]. *)
Definition above_threshold (cell : json) : result bool :=
  match cell with
  | JNum q => Ok (negb (Qle_bool q args_rating_threshold))
  | JBool b => Ok (negb (Qle_bool (if b then 1 else 0) args_rating_threshold))
  | JNull => Ok false
  | JStr _ => Raise TypeError
  end.

(** Line 98: [df[df['rating'] > args.rating_threshold]]. *)
Fixpoint rating_filter (df : list raw_interaction)
  : result (list raw_interaction) :=
  match df with
  | [] => Ok []
  | r :: df' =>
      keep ← above_threshold (raw_rating r);
      rest ← rating_filter df';
      mret (if keep : bool then r :: rest else rest)
  end.

(** [load_yelp_data] from the decoded lines on: the table is built only
    after the loop has read every line. [pd.DataFrame([])] has no column,
    so for a file without lines [df['timestamp']] raises [KeyError]. *)
Definition load_yelp_data (lines : list (result (gmap string json)))
  : result (list raw_interaction) :=
  interactions ← yelp_interactions lines;
  timestamp ← match interactions with
              | [] => Raise (KeyError "timestamp")
              | _ :: _ => to_unix_seconds (raw_timestamp <$> interactions)
              end;
  let df := zip_with with_unix_timestamp interactions timestamp in
  rating_filter df.

End Loader.

(** A row of the interaction table from [filter_data] on. Identifiers are
    taken as integers (the code only compares them and sorts them), and
    so is the timestamp. *)
Record interaction : Type := Interaction {
  user_id : Z;
  item_id : Z;
  rating : Q;
  timestamp : Z
}.

(** [df[col].value_counts()[x]]. *)
Definition value_count (col : interaction → Z) (df : list interaction)
    (x : Z) : Z :=
  Py.len (filter (λ r, col r = x) df).

Definition filter_data (df : list interaction)
    (min_interactions min_items : Z) : list interaction :=
  let df := filter (λ r, min_interactions ≤ value_count user_id df (user_id r))
                   df in
  let df := filter (λ r, min_items ≤ value_count item_id df (item_id r))
                   df in
  df.

(** [sorted(col.unique())]. *)
Definition sorted_unique (xs : list Z) : list Z :=
  merge_sort Z.le (remove_dups xs).

(** [{x: idx for idx, x in enumerate(xs)}]. *)
Definition enumerate_map (xs : list Z) : gmap Z Z :=
  list_to_map (zip xs (seqZ 0 (Py.len xs))).

(** [create_remapped_data]; every identifier of [df] is a key of its
    map, so [Series.map] never meets a missing key. *)
Definition create_remapped_data (df : list interaction)
  : list interaction * gmap Z Z * gmap Z Z :=
  let unique_users := sorted_unique (user_id <$> df) in
  let unique_items := sorted_unique (item_id <$> df) in
  let user_id_map := enumerate_map unique_users in
  let item_id_map := enumerate_map unique_items in
  let df := (λ r, Interaction (user_id_map !!! user_id r)
                              (item_id_map !!! item_id r)
                              (rating r) (timestamp r)) <$> df in
  (df, user_id_map, item_id_map).

(** [df.sort_values('timestamp')]: the rows in ascending order of their
    timestamps. pandas sorts with its default [quicksort], which is not
    stable, so the source does not determine the order of rows with equal
    timestamps; this definition leaves them in their input order, which
    is one of the orders that the sort may give. The properties stated
    for the builder use only that the result is sorted and holds the
    same rows: they hold for every order of the ties. *)
Fixpoint insert_by_timestamp (r : interaction) (df : list interaction)
  : list interaction :=
  match df with
  | [] => [r]
  | r' :: df' =>
      if timestamp r <=? timestamp r' then r :: r' :: df'
      else r' :: insert_by_timestamp r df'
  end.

Definition sort_values_timestamp (df : list interaction)
  : list interaction :=
  foldr insert_by_timestamp [] df.

(** *** binary64 arithmetic of the split points *)

Definition float_mul : spec_float → spec_float → spec_float :=
  SFmul 53 1024.
Definition float_add : spec_float → spec_float → spec_float :=
  SFadd 53 1024.

(** [float(n)] for an int. *)
Definition float_of_int (n : Z) : spec_float :=
  binary_normalize 53 1024 n 0 false.

(** [int(x)]: truncation towards zero (infinities and NaN raise in
    Python; no product of a length and a ratio is one). *)
Definition int_of_float (x : spec_float) : Z :=
  match x with
  | S754_finite s m e =>
      let a := Z.shiftl (Z.pos m) e in if s then - a else a
  | _ => 0
  end.

(** The literals [0.7] and [0.1]. *)
Definition float_0_7 : spec_float := S754_finite false 6305039478318694 (-53).
Definition float_0_1 : spec_float := S754_finite false 7205759403792794 (-56).

(** [df.iloc[a:b]] for [0 <= a]. *)
Definition iloc (df : list interaction) (a b : Z) : list interaction :=
  take (Z.to_nat (b - a)) (drop (Z.to_nat a) df).

Definition create_absolute_timestamp_split (df : list interaction)
    (train_ratio valid_ratio : spec_float)
  : list interaction * list interaction * list interaction :=
  let df := sort_values_timestamp df in
  let total_interactions := Py.len df in
  let train_end :=
    int_of_float (float_mul (float_of_int total_interactions) train_ratio) in
  let valid_end :=
    int_of_float (float_mul (float_of_int total_interactions)
                            (float_add train_ratio valid_ratio)) in
  let train_df := iloc df 0 train_end in
  let valid_df := iloc df train_end valid_end in
  let test_df := Py.slice_from df valid_end in
  (train_df, valid_df, test_df).

(** [create_user_sequences]: one entry per user of [df], holding the
    item ids of the user's rows in timestamp order. *)
Definition create_user_sequences (df : list interaction)
  : gmap Z (list Z) :=
  foldl (λ (user_sequences : gmap Z (list Z)) u,
           let group := filter (λ r, user_id r = u) df in
           let sorted_group := sort_values_timestamp group in
           <[u := item_id <$> sorted_group]> user_sequences)
        ∅ (sorted_unique (user_id <$> df)).

(** [d.update(other)]: the entries of [other] replace those of [d]. *)
Definition update {V} (d other : gmap Z V) : gmap Z V := other ∪ d.

(** [main] from the loaded table to [all_sequences], lines 243-260. *)
Definition main (df : list interaction) (args_min_interactions
    args_min_items : Z) : gmap Z (list Z) :=
  let df := filter_data df args_min_interactions args_min_items in
  let '(df, user_id_map, item_id_map) := create_remapped_data df in
  let '(train_df, valid_df, test_df) :=
    create_absolute_timestamp_split df float_0_7 float_0_1 in
  let train_sequences := create_user_sequences train_df in
  let valid_sequences := create_user_sequences valid_df in
  let test_sequences := create_user_sequences test_df in
  let all_sequences : gmap Z (list Z) := ∅ in
  foldl update all_sequences
        [train_sequences; valid_sequences; test_sequences].

(** The mapping dumped to [<dataset>.inter.json] by
    [save_letter_format]: [{str(uid): items}]. *)
Definition inter_json (user_sequences : gmap Z (list Z))
  : gmap string (list Z) :=
  kmap Py.str user_sequences.

(** *** The split points

    [train_end] and [valid_end] of [create_absolute_timestamp_split],
    lines 158-160, as a function of the number of rows. *)
Definition split_points (total_interactions : Z)
    (train_ratio valid_ratio : spec_float) : Z * Z :=
  (int_of_float (float_mul (float_of_int total_interactions) train_ratio),
   int_of_float (float_mul (float_of_int total_interactions)
                           (float_add train_ratio valid_ratio))).

(** *** [save_letter_format] *)

(** A file that [save_letter_format] writes, with the mapping dumped to
    it. *)
Inductive written : Type :=
| InterFile (m : gmap string (list Z))
| IndexFile (m : gmap string (list string))
| ItemFile (m : gmap string LETTERReader.item_feature).

(** Line 205: [max(max(items) for items in user_sequences.values()) if
    user_sequences else 0]. The inner [max] raises on an empty sequence;
    neither the value nor the exception depends on the order in which the
    sequences are visited. *)
Definition max_item_id (user_sequences : gmap Z (list Z)) : result Z :=
  if decide (user_sequences = ∅) then Ok 0
  else maxes ← for_each Py.max (map_to_list user_sequences).*2;
       Py.max maxes.

Section Tokens.

(** [randint k] is the value of the [k]-th call of
    [np.random.randint(0, 256)], counted from 0. *)
Variable randint : nat → Z.

(** Lines 211-215 for item [i]: four draws, in the order a, b, c, d. *)
Definition item_tokens (i : Z) : list string :=
  let k := (4 * Z.to_nat i)%nat in
  ["<a_" +:+ Py.str (randint k) +:+ ">";
   "<b_" +:+ Py.str (randint (k + 1)) +:+ ">";
   "<c_" +:+ Py.str (randint (k + 2)) +:+ ">";
   "<d_" +:+ Py.str (randint (k + 3)) +:+ ">"].

(** Lines 208-215. *)
Definition tokenized_indices (max_item_id : Z) : gmap string (list string) :=
  foldl (λ (tokenized_indices : gmap string (list string)) i,
           <[Py.str i := item_tokens i]> tokenized_indices)
        ∅ (Py.range 0 (max_item_id + 1)).

(** Lines 222-223. *)
Definition item_features (max_item_id : Z)
  : gmap string LETTERReader.item_feature :=
  foldl (λ (item_features : gmap string LETTERReader.item_feature) i,
           <[Py.str i := LETTERReader.Feature
                           ("Item " +:+ Py.str i)
                           ("Description for item " +:+ Py.str i)]>
             item_features)
        ∅ (Py.range 0 (max_item_id + 1)).

(** [save_letter_format]: the files written, in the order of the writes,
    and how the call ends. [inter.json] is written before the greatest item
    id is computed. *)
Definition save_letter_format (user_sequences : gmap Z (list Z))
  : list written * result unit :=
  let inter := InterFile (inter_json user_sequences) in
  match max_item_id user_sequences with
  | Raise e => ([inter], Raise e)
  | Ok max_item_id =>
      ([inter; IndexFile (tokenized_indices max_item_id);
        ItemFile (item_features max_item_id)], Ok ())
  end.

End Tokens.

(** *** [load_amazon_data] *)

(** The outcome of a step that may raise [FileNotFoundError]. *)
Inductive located (A : Type) : Type :=
| Located (a : A)
| FileNotFoundError (message : string).
Arguments Located {A} a.
Arguments FileNotFoundError {A} message.

(** The dict [column_mapping], in its order. *)
Definition column_mapping : list (string * string) :=
  [("user_id", "user_id"); ("item_id", "item_id"); ("rating", "rating");
   ("timestamp", "timestamp"); ("reviewerID", "user_id");
   ("asin", "item_id"); ("overall", "rating");
   ("unixReviewTime", "timestamp")].

(** Lines 57-59: one turn of the loop over [column_mapping]. A table read
    from a CSV file is given by its columns. *)
Definition rename_step (df : gmap string (list json))
    (names : string * string) : gmap string (list json) :=
  let '(old_col, new_col) := names in
  match df !! old_col, df !! new_col with
  | Some col, None => <[new_col := col]> df
  | _, _ => df
  end.

Definition standardize_columns (df : gmap string (list json))
  : gmap string (list json) :=
  foldl rename_step df column_mapping.

(** [df[mask]] on one column. *)
Fixpoint select_rows (mask : list bool) (col : list json) : list json :=
  match mask, col with
  | keep :: mask', cell :: col' =>
      if keep then cell :: select_rows mask' col' else select_rows mask' col'
  | _, _ => []
  end.

Section Amazon.

(** [os.path.exists], [os.path.join] and [pd.read_csv]. *)
Variable path_exists : string → bool.
Variable path_join : string → string → string.
Variable read_csv : string → result (gmap string (list json)).
Variable args_rating_threshold : Q.

(** Lines 34-40: the [for ... else] over the alternative file names. *)
Fixpoint first_existing (input_path dataset : string)
    (alt_names : list string) : located string :=
  match alt_names with
  | [] => FileNotFoundError
            ("Could not find interaction file for " +:+ dataset)
  | alt_name :: rest =>
      let alt_file := path_join input_path alt_name in
      if path_exists alt_file then Located alt_file
      else first_existing input_path dataset rest
  end.

(** Lines 30-40: the file that is read. *)
Definition amazon_inter_file (input_path dataset : string)
  : located string :=
  let inter_file := path_join input_path (dataset +:+ ".csv") in
  if negb (path_exists inter_file) then
    first_existing input_path dataset
      [dataset +:+ "_5.csv"; dataset +:+ "_interactions.csv"]
  else Located inter_file.

(** Lines 43-66 on the table that was read. *)
Definition amazon_table (df : gmap string (list json))
  : result (gmap string (list json)) :=
  let df := standardize_columns df in
  rating ← match df !! "rating" with
           | Some col => Ok col
           | None => Raise (KeyError "rating")
           end;
  mask ← for_each (above_threshold args_rating_threshold) rating;
  mret (select_rows mask <$> df).

Definition load_amazon_data (input_path dataset : string)
  : located (result (gmap string (list json))) :=
  match amazon_inter_file input_path dataset with
  | FileNotFoundError message => FileNotFoundError message
  | Located inter_file => Located (read_csv inter_file ≫= amazon_table)
  end.

End Amazon.

End preprocess_letter_data.

(** ** Sample inputs *)

Module Examples.

(** A behaviour of numpy and torch on integers they do not hold exactly:
    they raise. The sample inputs below hold no such integer. *)
Definition raising (self_n_items : Z) (df : LETTERReader.DataFrame)
  : result (gmap LETTERReader.field LETTERReader.tensor) :=
  Raise TypeError.

(** The first user of the test data of [test_letter_reader.py]. *)
Definition six_items : list (Z * list Z) := [(0, [0; 1; 2; 3; 4; 5])].

(** An artifact whose only user has two interactions. *)
Definition two_items : list (Z * list Z) := [(0, [1; 2])].

(** An artifact whose only user has no interaction. *)
Definition no_item : list (Z * list Z) := [(0, [])].

(** An artifact of two users without interactions. *)
Definition users_without_items : list (Z * list Z) := [(0, []); (1, [])].

(** The three users of the test data of [test_letter_reader.py]. *)
Definition three_users : list (Z * list Z) :=
  [(0, [0; 1; 2; 3; 4; 5]);
   (1, [1; 2; 3; 4; 5; 6; 7]);
   (2, [2; 3; 4; 5; 6; 7; 8; 9])].

(** An artifact with token lists and feature records for items 0 and 1. *)
Definition files : LETTERReader.artifact :=
  LETTERReader.Artifact
    three_users
    (<["0" := ["<a_123>"; "<b_45>"; "<c_67>"; "<d_89>"]]>
       (<["1" := ["<a_234>"; "<b_56>"; "<c_78>"; "<d_90>"]]> ∅))
    (<["0" := LETTERReader.Feature "Test Item 0" "Description for test item 0"]>
       (<["1" := LETTERReader.Feature "Test Item 1"
                   "Description for test item 1"]> ∅)).

(** A review record with its four fields, and one without ['stars']. *)
Definition review (user business date : string)
  : gmap string preprocess_letter_data.json :=
  <["user_id" := preprocess_letter_data.JStr user]>
    (<["business_id" := preprocess_letter_data.JStr business]>
       (<["stars" := preprocess_letter_data.JNum 5]>
          (<["date" := preprocess_letter_data.JStr date]> ∅))).

Definition review_without_stars (user business date : string)
  : gmap string preprocess_letter_data.json :=
  <["user_id" := preprocess_letter_data.JStr user]>
    (<["business_id" := preprocess_letter_data.JStr business]>
       (<["date" := preprocess_letter_data.JStr date]> ∅)).

Definition review_lines
  : list (result (gmap string preprocess_letter_data.json)) :=
  [Ok (review "u1" "b1" "2019-01-01");
   Ok (review_without_stars "u2" "b1" "2019-01-02");
   Ok (review "u3" "b2" "2019-01-03")].

(** Five users with raw ids 100, 110, .., 140 who each rate the five items
    0, 7, .., 28 above the threshold, one interaction per second: the rows
    of user [100 + 10 u] have timestamps [5 u + 1 .. 5 u + 5]. *)
Definition table25 : list preprocess_letter_data.interaction :=
  u ← seqZ 0 5;
  i ← seqZ 0 5;
  [preprocess_letter_data.Interaction (100 + 10 * u) (7 * i) 5
     (5 * u + i + 1)].

End Examples.

(** ** Closed forms used to state the properties

    Each of them is proved equal to what the code computes before it is
    used. *)

Module LeaveOneOut.

Import LETTERReader.

(** The train rows of one user: window indices [1 .. L-3]. *)
Definition train_of (uid : Z) (S : list Z) : list row :=
  if Py.len S <? 3 then []
  else
    let P := take (length S - 2) S in
    (λ i : Z, Row uid (P !!! Z.to_nat i) (take (Z.to_nat i) P))
      <$> seqZ 1 (Py.len P - 1).

Definition valid_of (uid : Z) (S : list Z) : list row :=
  if Py.len S <? 3 then []
  else [Row uid (S !!! (length S - 2)%nat) (take (length S - 2) S)].

Definition test_of (uid : Z) (S : list Z) : list row :=
  if Py.len S <? 3 then []
  else [Row uid (S !!! (length S - 1)%nat) (take (length S - 1) S)].

(** The three lists of rows over all the users. *)
Definition all_of (f : Z → list Z → list row) (users : list (Z * list Z))
  : list row :=
  users ≫= (λ us, f us.1 us.2).

(** Truncation, padding and length of one row, lines 157-158 and
    176-188. *)
Definition encode (MAX_ITEM_SEQ_LEN : nat) (self_n_items : Z) (r : row)
  : sample :=
  let x := Py.slice_from (row_ITEM_SEQ r) (- Z.of_nat MAX_ITEM_SEQ_LEN) in
  Sample (row_USER_ID r) (row_ITEM_ID r)
         (pad x (Z.of_nat MAX_ITEM_SEQ_LEN - Py.len x) (self_n_items - 1))
         (Py.len x).

(** The table of a split whose integers are all held exactly: the empty
    dict for no row, else the four columns. *)
Definition table_of (MAX_ITEM_SEQ_LEN : nat) (self_n_items : Z)
    (rows : list row) : gmap field tensor :=
  match rows with
  | _ :: _ =>
      let df := split_frame MAX_ITEM_SEQ_LEN rows in
      <[ITEM_SEQ_LEN := Tensor1 (df_ITEM_SEQ_LEN df)]>
        (<[ITEM_ID := Tensor1 (df_ITEM_ID df)]>
           (<[USER_ID := Tensor1 (df_USER_ID df)]>
              (<[ITEM_SEQ :=
                   Tensor2 ((λ seq, pad seq (Z.of_nat MAX_ITEM_SEQ_LEN
                                             - Py.len seq)
                                        (self_n_items - 1))
                              <$> df_ITEM_SEQ df)]> ∅)))
  | [] => ∅
  end.

(** The ids that the tensors hold exactly: a user id of the int64 range,
    item ids from [-2^53] to [2^53 - 1] (so that the pad value, the
    greatest item id plus 1, passes through a double unchanged), and a
    sequence of fewer than [2^63] items. *)
Definition exact_user (us : Z * list Z) : bool :=
  int64 us.1
  && forallb (λ x, (- 2 ^ 53 <=? x) && (x <? 2 ^ 53)) us.2
  && (Py.len us.2 <? 2 ^ 63).

Definition exact_ids (users : list (Z * list Z)) : bool :=
  forallb exact_user users.

(** A row whose integers an int64 tensor holds as they are. *)
Definition exact_row (r : row) : Prop :=
  int64 (row_USER_ID r) = true
  ∧ int64 (row_ITEM_ID r) = true
  ∧ forallb int64 (row_ITEM_SEQ r) = true
  ∧ Py.len (row_ITEM_SEQ r) < 2 ^ 63.

(** The rows of one user in a list of rows, before and after
    encoding. *)
Definition rows_of (uid : Z) (rows : list row) : list row :=
  filter (λ r, row_USER_ID r = uid) rows.

Definition samples_of (uid : Z) (rows : list sample) : list sample :=
  filter (λ s, user_id s = uid) rows.

(** The three splits by name, as [_convert_to_rearec_format] pairs them. *)
Definition splits (train_data valid_data test_data : list row)
  : list (string * list row) :=
  [("train", train_data); ("valid", valid_data); ("test", test_data)].

End LeaveOneOut.

Module ReviewRecords.

Import preprocess_letter_data.

(** The fields that the loop of [load_yelp_data] reads from a record, in
    the order in which it reads them. *)
Definition required_fields : list string :=
  ["user_id"; "business_id"; "stars"; "date"].

(** The first of [keys] that [data] lacks. *)
Fixpoint first_absent (data : gmap string json) (keys : list string)
  : option string :=
  match keys with
  | [] => None
  | k :: keys' =>
      match data !! k with
      | Some _ => first_absent data keys'
      | None => Some k
      end
  end.

Definition missing_field (data : gmap string json) : option string :=
  first_absent data required_fields.

(** The table row of a record that has the four fields. *)
Definition row_of (data : gmap string json) : raw_interaction :=
  RawInteraction (default JNull (data !! "user_id"))
                 (default JNull (data !! "business_id"))
                 (default JNull (data !! "stars"))
                 (default JNull (data !! "date")).

End ReviewRecords.

Module TableColumns.

(** The alias that [column_mapping] gives a canonical column name. *)
Definition alias_of (name : string) : option string :=
  if decide (name = "user_id") then Some "reviewerID"
  else if decide (name = "item_id") then Some "asin"
  else if decide (name = "rating") then Some "overall"
  else if decide (name = "timestamp") then Some "unixReviewTime"
  else None.

(** A column of numbers. *)
Definition numeric (col : list preprocess_letter_data.json) : Prop :=
  Forall (λ cell, ∃ q, cell = preprocess_letter_data.JNum q) col.

(** The value of a cell that holds a number. *)
Definition number_of (cell : preprocess_letter_data.json) : Q :=
  match cell with
  | preprocess_letter_data.JNum q => q
  | _ => 0%Q
  end.

(** [cell > threshold] on numbers, as a decidable predicate. *)
Definition above (threshold : Q) (q : Q) : Prop :=
  Qle_bool q threshold = false.

#[global] Instance above_dec threshold q : Decision (above threshold q) :=
  decide (Qle_bool q threshold = false).

End TableColumns.

(** * Properties of the generator *)

Import LETTERReader LeaveOneOut.

(** ** Lists, slices and loops *)

Section PyFacts.

Context {A : Type}.
Implicit Types l pre : list A.

Lemma getitem_lookup l (k : Z) x :
  0 ≤ k → l !! Z.to_nat k = Some x → Py.getitem l k = Ok x.
Proof.
  intros Hk Hx. unfold Py.getitem, Py.from_end.
  destruct (k <? 0) eqn:E; [apply Z.ltb_lt in E; lia|].
  rewrite E. by rewrite Hx.
Qed.

Lemma getitem_last_but_one pre (v t : A) :
  Py.getitem (pre ++ [v; t]) (-2) = Ok v.
Proof.
  unfold Py.getitem, Py.from_end, Py.len. simpl.
  rewrite length_app. simpl.
  destruct (_ <? 0) eqn:E; [apply Z.ltb_lt in E; lia|].
  by rewrite list_lookup_middle by lia.
Qed.

Lemma getitem_last pre (v t : A) :
  Py.getitem (pre ++ [v; t]) (-1) = Ok t.
Proof.
  unfold Py.getitem, Py.from_end, Py.len. simpl.
  rewrite length_app. simpl.
  destruct (_ <? 0) eqn:E; [apply Z.ltb_lt in E; lia|].
  rewrite (assoc_L (++) pre [v] [t] : pre ++ [v; t] = (pre ++ [v]) ++ [t]).
  by rewrite list_lookup_middle by (rewrite length_app; simpl; lia).
Qed.

Lemma slice_to_minus_two pre (v t : A) :
  Py.slice_to (pre ++ [v; t]) (-2) = pre.
Proof.
  unfold Py.slice_to, Py.from_end, Py.len. simpl.
  rewrite length_app. simpl.
  replace (Z.to_nat _) with (length pre) by lia.
  by rewrite take_app_length.
Qed.

Lemma slice_to_minus_one pre (v t : A) :
  Py.slice_to (pre ++ [v; t]) (-1) = pre ++ [v].
Proof.
  unfold Py.slice_to, Py.from_end, Py.len. simpl.
  rewrite length_app. simpl.
  replace (Z.to_nat _) with (length (pre ++ [v])) by (rewrite length_app; simpl; lia).
  by rewrite (assoc_L (++) pre [v] [t] : pre ++ [v; t] = (pre ++ [v]) ++ [t]), take_app_length.
Qed.

Lemma slice_to_nonneg l (k : Z) :
  0 ≤ k → Py.slice_to l k = take (Z.to_nat k) l.
Proof.
  intros Hk. unfold Py.slice_to, Py.from_end.
  destruct (k <? 0) eqn:E; [apply Z.ltb_lt in E; lia | done].
Qed.

(** A list of at least three elements ends in two elements that follow a
    non-empty prefix. *)
Lemma split_last_two l :
  (3 ≤ length l)%nat →
  ∃ pre v t, l = pre ++ [v; t] ∧ (1 ≤ length pre)%nat.
Proof.
  intros Hl.
  exists (take (length l - 2) l).
  destruct (drop (length l - 2) l) as [|v [|t [|]]] eqn:E;
    pose proof (f_equal length E) as HE;
    rewrite length_drop in HE; simpl in HE; try lia.
  exists v, t. split.
  - by rewrite <- E, take_drop.
  - rewrite length_take. lia.
Qed.

Lemma for_each_fmap {B} (f : A → result B) (g : A → B) l :
  (∀ x, x ∈ l → f x = Ok (g x)) → for_each f l = Ok (g <$> l).
Proof.
  induction l as [|x l IH]; intros Hf; [done|].
  simpl. rewrite Hf by apply list_elem_of_here. simpl.
  rewrite IH; [done|]. intros y Hy. apply Hf. by apply list_elem_of_further.
Qed.

End PyFacts.

(** ** The loop over the users *)

Section Loop.

Implicit Types (uid : Z) (S : list Z) (users : list (Z * list Z)).

Lemma short_len S : (Py.len S <? 3) = false → (3 ≤ length S)%nat.
Proof. unfold Py.len. intros H%Z.ltb_ge. lia. Qed.

Lemma split_user_spec uid S (tr va te : list row) :
  split_user uid S (tr, va, te)
  = Ok (tr ++ train_of uid S, va ++ valid_of uid S, te ++ test_of uid S).
Proof.
  unfold split_user, train_of, valid_of, test_of.
  destruct (Py.len S <? 3) eqn:E.
  { by rewrite !app_nil_r. }
  destruct (split_last_two S (short_len S E)) as (pre & v & t & -> & Hpre).
  rewrite getitem_last_but_one, getitem_last,
    slice_to_minus_two, slice_to_minus_one.
  assert (length (pre ++ [v; t]) - 2 = length pre)%nat as ->
    by (rewrite length_app; simpl; lia).
  assert (length (pre ++ [v; t]) - 1 = S (length pre))%nat as ->
    by (rewrite length_app; simpl; lia).
  rewrite take_app_length.
  rewrite (list_lookup_total_middle pre [t] v) by done.
  rewrite (assoc_L (++) pre [v] [t] : pre ++ [v; t] = (pre ++ [v]) ++ [t]).
  assert (S (length pre) = length (pre ++ [v])) as ->
    by (rewrite length_app; simpl; lia).
  rewrite take_app_length.
  rewrite (list_lookup_total_middle (pre ++ [v]) [] t) by done.
  simpl. unfold Py.range.
  rewrite (for_each_fmap _
    (λ i : Z, Row uid (pre !!! Z.to_nat i) (take (Z.to_nat i) pre))).
  { done. }
  intros i [Hi1 Hi2]%elem_of_seqZ. unfold Py.len in Hi2.
  rewrite (getitem_lookup pre i (pre !!! Z.to_nat i)) by
    (try lia; apply list_lookup_lookup_total_lt; lia).
  simpl. by rewrite slice_to_nonneg by lia.
Qed.

Lemma split_users_spec users (tr va te : list row) :
  split_users users (tr, va, te)
  = Ok (tr ++ all_of train_of users, va ++ all_of valid_of users,
        te ++ all_of test_of users).
Proof.
  revert tr va te. induction users as [|[uid S] users IH]; intros tr va te.
  { simpl. by rewrite !app_nil_r. }
  change (split_users ((uid, S) :: users) (tr, va, te))
    with (split_user uid S (tr, va, te) ≫= split_users users).
  rewrite split_user_spec. simpl. rewrite IH.
  unfold all_of. simpl. by rewrite !(assoc_L (++)).
Qed.

End Loop.

(** ** Insertion-ordered dictionaries: every key occurs once *)

Section DictFacts.

Context `{EqDecision K} {V : Type}.
Implicit Types (d : PyDict.t K V) (kvs : list (K * V)).

Lemma set_fresh d k v :
  k ∉ PyDict.keys d → PyDict.set k v d = d ++ [(k, v)].
Proof.
  unfold PyDict.keys. induction d as [|[k' v'] d IH]; intros Hk; [done|].
  csimpl in *. apply not_elem_of_cons in Hk as [Hne Hk].
  destruct (decide (k' = k)); [congruence|]. by rewrite IH.
Qed.

Lemma keys_set_present d k v :
  k ∈ PyDict.keys d → PyDict.keys (PyDict.set k v d) = PyDict.keys d.
Proof.
  unfold PyDict.keys. induction d as [|[k' v'] d IH]; intros Hk.
  { by apply elem_of_nil in Hk. }
  csimpl in *. destruct (decide (k' = k)) as [->|Hne]; [done|].
  apply elem_of_cons in Hk as [?|Hk]; [congruence|].
  csimpl. by rewrite IH.
Qed.

Lemma keys_set d k v :
  PyDict.keys (PyDict.set k v d)
  = if decide (k ∈ PyDict.keys d) then PyDict.keys d
    else PyDict.keys d ++ [k].
Proof.
  destruct (decide (k ∈ PyDict.keys d)) as [Hk|Hk].
  - by apply keys_set_present.
  - rewrite set_fresh by done. unfold PyDict.keys. by rewrite fmap_app.
Qed.

Lemma keys_fold d kvs :
  NoDup (PyDict.keys d) →
  NoDup (PyDict.keys (foldl (λ d kv, PyDict.set kv.1 kv.2 d) d kvs))
  ∧ ∀ k, k ∈ PyDict.keys (foldl (λ d kv, PyDict.set kv.1 kv.2 d) d kvs)
         ↔ k ∈ PyDict.keys d ∨ k ∈ kvs.*1.
Proof.
  revert d. induction kvs as [|[k v] kvs IH]; intros d Hd.
  { simpl. split; [done|]. intros k. rewrite elem_of_nil. tauto. }
  csimpl. destruct (IH (PyDict.set k v d)) as [IH1 IH2].
  { rewrite keys_set. case_decide; [done|].
    apply NoDup_app. split_and!; [done| |apply NoDup_singleton].
    intros x Hx ->%list_elem_of_singleton. done. }
  split; [done|]. intros k'. rewrite IH2, keys_set, elem_of_cons.
  case_decide as Hk.
  - split; [tauto|]. intros [?|[->|?]]; tauto.
  - rewrite elem_of_app, list_elem_of_singleton. tauto.
Qed.

Lemma NoDup_keys_of_items kvs : NoDup (PyDict.keys (PyDict.of_items kvs)).
Proof. apply keys_fold. unfold PyDict.keys. simpl. apply NoDup_nil_2. Qed.

Lemma elem_of_keys_of_items kvs k :
  k ∈ PyDict.keys (PyDict.of_items kvs) ↔ k ∈ kvs.*1.
Proof.
  unfold PyDict.of_items.
  destruct (keys_fold [] kvs) as [_ H]; [apply NoDup_nil_2|].
  rewrite H. unfold PyDict.keys. simpl. rewrite elem_of_nil. tauto.
Qed.

(** Keys that are already distinct are kept as they come. *)
Lemma of_items_NoDup kvs : NoDup kvs.*1 → PyDict.of_items kvs = kvs.
Proof.
  unfold PyDict.of_items.
  enough (∀ d, NoDup (d.*1 ++ kvs.*1) →
               foldl (λ d kv, PyDict.set kv.1 kv.2 d) d kvs = d ++ kvs)
    as H by (intros; by apply (H [])).
  induction kvs as [|[k v] kvs IH]; intros d Hd.
  { by rewrite app_nil_r. }
  csimpl in *. apply NoDup_app in Hd as (Hd1 & Hd2 & Hd3).
  rewrite set_fresh.
  2:{ intros Hk. apply (Hd2 k Hk), list_elem_of_here. }
  rewrite IH.
  { by rewrite <- (assoc_L (++)). }
  rewrite fmap_app. csimpl. rewrite <- (assoc_L (++)). csimpl.
  apply NoDup_app. split_and!; [done| |done].
  intros x Hx. by apply Hd2.
Qed.

(** The number of keys is the number of distinct keys of the items. *)
Lemma length_of_items kvs :
  length (PyDict.of_items kvs) = length (remove_dups kvs.*1).
Proof.
  rewrite <- (length_fmap fst (PyDict.of_items kvs)).
  apply Permutation_length, NoDup_Permutation.
  - apply NoDup_keys_of_items.
  - apply NoDup_remove_dups.
  - intros k. rewrite elem_of_remove_dups. apply elem_of_keys_of_items.
Qed.

End DictFacts.

(** ** The rows of one user *)

Section Owner.

Implicit Types (uid : Z) (S : list Z) (users : list (Z * list Z)).

Lemma filter_keep {A} (P : A → Prop) `{∀ x, Decision (P x)} (l : list A) :
  (∀ x, x ∈ l → P x) → filter P l = l.
Proof.
  induction l as [|x l IH]; intros Hl; [done|].
  rewrite filter_cons_True by apply Hl, list_elem_of_here.
  rewrite IH; [done|]. intros y Hy. by apply Hl, list_elem_of_further.
Qed.

Lemma filter_drop {A} (P : A → Prop) `{∀ x, Decision (P x)} (l : list A) :
  (∀ x, x ∈ l → ¬ P x) → filter P l = [].
Proof.
  induction l as [|x l IH]; intros Hl; [done|].
  rewrite filter_cons_False by apply Hl, list_elem_of_here.
  apply IH. intros y Hy. by apply Hl, list_elem_of_further.
Qed.

Lemma train_of_owner uid S r : r ∈ train_of uid S → row_USER_ID r = uid.
Proof.
  unfold train_of. case_match; [by intros ?%elem_of_nil|].
  by intros (i & -> & _)%list_elem_of_fmap.
Qed.

Lemma valid_of_owner uid S r : r ∈ valid_of uid S → row_USER_ID r = uid.
Proof.
  unfold valid_of. case_match; [by intros ?%elem_of_nil|].
  by intros ->%list_elem_of_singleton.
Qed.

Lemma test_of_owner uid S r : r ∈ test_of uid S → row_USER_ID r = uid.
Proof.
  unfold test_of. case_match; [by intros ?%elem_of_nil|].
  by intros ->%list_elem_of_singleton.
Qed.

(** In the rows of all users, those of one user are the ones computed
    from that user's sequence. *)
Lemma rows_of_all_of (f : Z → list Z → list row) users uid S :
  (∀ u S' r, r ∈ f u S' → row_USER_ID r = u) →
  NoDup users.*1 → (uid, S) ∈ users →
  rows_of uid (all_of f users) = f uid S.
Proof.
  intros Hf. unfold rows_of, all_of.
  induction users as [|[u S'] users IH]; intros Hnd Hin.
  { by apply elem_of_nil in Hin. }
  csimpl in *. apply NoDup_cons in Hnd as [Hu Hnd].
  rewrite filter_app. apply elem_of_cons in Hin as [Heq|Hin].
  - injection Heq as <- <-.
    rewrite filter_keep by (intros r Hr; by apply Hf in Hr).
    rewrite filter_drop; [by rewrite app_nil_r|].
    intros r ([u' S''] & Hr & Hin)%list_elem_of_bind Huid.
    apply Hf in Hr. simpl in Hr. apply Hu.
    apply list_elem_of_fmap. exists (u', S''). split; [|done].
    simpl. congruence.
  - rewrite filter_drop; [by apply IH|].
    intros r Hr Huid. apply Hf in Hr. apply Hu.
    apply list_elem_of_fmap. exists (uid, S). split; [|done].
    simpl. congruence.
Qed.

Lemma samples_of_encode MAX n uid (rows : list row) :
  samples_of uid (encode MAX n <$> rows) = encode MAX n <$> rows_of uid rows.
Proof.
  unfold samples_of, rows_of.
  induction rows as [|r rows IH]; [done|]. csimpl.
  destruct (decide (row_USER_ID r = uid)) as [Hr|Hr].
  - rewrite !filter_cons_True by done. csimpl. by rewrite IH.
  - by rewrite !filter_cons_False by done.
Qed.

End Owner.

(** ** From the rows to the tables and back *)

Section Tables.

Variable MAX : nat.
Implicit Types (n : Z) (rows : list row).

Lemma zip_rows_encode n rows :
  zip_rows (row_USER_ID <$> rows) (row_ITEM_ID <$> rows)
    ((λ seq, pad seq (Z.of_nat MAX - Py.len seq) (n - 1))
       <$> ((λ x, Py.slice_from x (- Z.of_nat MAX))
              <$> (row_ITEM_SEQ <$> rows)))
    (Py.len <$> ((λ x, Py.slice_from x (- Z.of_nat MAX))
                   <$> (row_ITEM_SEQ <$> rows)))
  = encode MAX n <$> rows.
Proof. induction rows as [|r rows IH]; [done|]. csimpl. by rewrite IH. Qed.

Lemma table_rows_split_table n rows :
  table_rows (table_of MAX n rows) = encode MAX n <$> rows.
Proof.
  destruct rows as [|r rows]; [done|].
  unfold table_of, split_frame, table_rows.
  cbn [df_USER_ID df_ITEM_ID df_ITEM_SEQ df_ITEM_SEQ_LEN].
  rewrite !lookup_insert. repeat (case_decide; try done).
  apply zip_rows_encode.
Qed.

(** An empty split is the empty dict: none of the four columns. *)
Lemma split_table_nil n : table_of MAX n [] = ∅.
Proof. done. Qed.

Lemma split_table_cons_field n r rows (f : field) :
  is_Some (table_of MAX n (r :: rows) !! f).
Proof.
  unfold table_of, split_frame.
  rewrite !lookup_insert. destruct f; repeat (case_decide; try done); eauto.
Qed.

End Tables.

(** ** The statistics *)

Section Statistics.

Lemma foldl_max_spec (a : Z) (xs : list Z) :
  let m := foldl Z.max a xs in
  m ∈ a :: xs ∧ ∀ x, x ∈ a :: xs → x ≤ m.
Proof.
  revert a. induction xs as [|y xs IH]; intros a; simpl.
  { split; [apply list_elem_of_here|].
    intros x ->%list_elem_of_singleton. lia. }
  destruct (IH (Z.max a y)) as [Hin Hle]. split.
  - apply elem_of_cons in Hin as [Hm|Hin].
    + rewrite Hm. destruct (Z.max_spec a y) as [[_ ->]|[_ ->]].
      * apply list_elem_of_further, list_elem_of_here.
      * apply list_elem_of_here.
    + by do 2 apply list_elem_of_further.
  - intros x Hx.
    assert (Z.max a y ≤ foldl Z.max (Z.max a y) xs) as Hm
      by apply Hle, list_elem_of_here.
    apply elem_of_cons in Hx as [->|Hx]; [lia|].
    apply elem_of_cons in Hx as [->|Hx]; [lia|].
    by apply Hle, list_elem_of_further.
Qed.

Lemma max_spec (xs : list Z) (x0 : Z) :
  x0 ∈ xs → ∃ m, Py.max xs = Ok m ∧ m ∈ xs ∧ ∀ x, x ∈ xs → x ≤ m.
Proof.
  destruct xs as [|a xs]; [by intros ?%elem_of_nil|]. intros _.
  exists (foldl Z.max a xs). split; [done|]. apply foldl_max_spec.
Qed.

Lemma max_empty : Py.max [] = Raise ValueError.
Proof. done. Qed.

Lemma elem_of_all_items (d : PyDict.t Z (list Z)) (x : Z) :
  x ∈ all_items d ↔ ∃ u S, (u, S) ∈ d ∧ x ∈ S.
Proof.
  unfold all_items, PyDict.values.
  enough (∀ (s : gset Z),
    x ∈ foldl (λ s items, s ∪ list_to_set items) s d.*2
    ↔ x ∈ s ∨ ∃ u S, (u, S) ∈ d ∧ x ∈ S) as H.
  { rewrite H. split; [intros [?%elem_of_empty|?]; done | by right]. }
  induction d as [|[u S] d IH]; intros s; csimpl.
  { split; [by left|]. intros [?|(? & ? & ?%elem_of_nil & _)]; done. }
  rewrite IH, elem_of_union, elem_of_list_to_set. split.
  - intros [[?|?]|(u' & S' & ? & ?)]; [by left| |].
    + right. exists u, S. split; [apply list_elem_of_here|done].
    + right. exists u', S'. split; [by apply list_elem_of_further|done].
  - intros [?|(u' & S' & [Heq|?]%elem_of_cons & ?)]; [by left; left| |].
    + injection Heq as -> ->. by left; right.
    + right. by exists u', S'.
Qed.

End Statistics.

(** ** What the rows of one user hold *)

Section Windows.

Implicit Types (uid : Z) (S : list Z).

Lemma train_of_short uid S : (length S < 3)%nat → train_of uid S = [].
Proof.
  intros H. unfold train_of, Py.len.
  destruct (_ <? 3) eqn:E; [done|]. apply Z.ltb_ge in E. lia.
Qed.

Lemma long_len S : (3 ≤ length S)%nat → (Py.len S <? 3) = false.
Proof. intros H. apply Z.ltb_ge. unfold Py.len. lia. Qed.

Lemma length_train_of uid S :
  length (train_of uid S) = (length S - 3)%nat.
Proof.
  destruct (decide (length S < 3)%nat) as [H|H].
  { rewrite train_of_short by done. simpl. lia. }
  unfold train_of. rewrite long_len by lia.
  rewrite length_fmap, length_seqZ. unfold Py.len.
  rewrite length_take. lia.
Qed.

Lemma lookup_train_of uid S (i : nat) x :
  (1 ≤ i ≤ length S - 3)%nat → S !! i = Some x →
  train_of uid S !! (i - 1)%nat = Some (Row uid x (take i S)).
Proof.
  intros Hi Hx. unfold train_of. rewrite long_len by lia.
  rewrite list_lookup_fmap.
  rewrite (lookup_seqZ_lt 1 _ (i - 1)).
  2:{ unfold Py.len. rewrite length_take. lia. }
  simpl. replace (Z.to_nat (1 + Z.of_nat (i - 1))) with i by lia.
  rewrite lookup_total_take_lt by lia.
  rewrite (list_lookup_total_correct S i x Hx).
  rewrite take_take. do 3 f_equal. lia.
Qed.

Lemma valid_of_long uid S :
  (3 ≤ length S)%nat →
  ∃ ctx v t, S = ctx ++ [v; t] ∧ (1 ≤ length ctx)%nat
             ∧ valid_of uid S = [Row uid v ctx]
             ∧ test_of uid S = [Row uid t (ctx ++ [v])]
             ∧ take (length S - 2) S = ctx
             ∧ take (length S - 1) S = ctx ++ [v]
             ∧ S !! (length S - 2)%nat = Some v
             ∧ S !! (length S - 1)%nat = Some t.
Proof.
  intros HL. destruct (split_last_two S HL) as (ctx & v & t & -> & Hctx).
  exists ctx, v, t. unfold valid_of, test_of. rewrite long_len by done.
  assert (length (ctx ++ [v; t]) - 2 = length ctx)%nat as ->
    by (rewrite length_app; simpl; lia).
  assert (length (ctx ++ [v; t]) - 1 = S (length ctx))%nat as ->
    by (rewrite length_app; simpl; lia).
  rewrite take_app_length.
  rewrite (list_lookup_total_middle ctx [t] v) by done.
  rewrite (list_lookup_middle ctx [t] v) by done.
  rewrite (assoc_L (++) ctx [v] [t] : ctx ++ [v; t] = (ctx ++ [v]) ++ [t]).
  assert (S (length ctx) = length (ctx ++ [v])) as ->
    by (rewrite length_app; simpl; lia).
  rewrite take_app_length.
  rewrite (list_lookup_total_middle (ctx ++ [v]) [] t) by done.
  rewrite (list_lookup_middle (ctx ++ [v]) [] t) by done.
  done.
Qed.

Lemma valid_of_short uid S :
  (length S < 3)%nat → valid_of uid S = [] ∧ test_of uid S = [].
Proof.
  intros H. unfold valid_of, test_of, Py.len.
  destruct (_ <? 3) eqn:E; [done|]. apply Z.ltb_ge in E. lia.
Qed.

(** Every target is an item of the user's sequence, and every context is
    a non-empty prefix of it. *)
Lemma train_of_row uid S r :
  r ∈ train_of uid S → row_ITEM_ID r ∈ S ∧ (1 ≤ length (row_ITEM_SEQ r))%nat.
Proof.
  unfold train_of. case_match eqn:E; [by intros ?%elem_of_nil|].
  apply short_len in E.
  intros (i & -> & [Hi1 Hi2]%elem_of_seqZ)%list_elem_of_fmap.
  unfold Py.len in Hi2. rewrite length_take in Hi2. simpl. split.
  - apply (subseteq_take (length S - 2) S).
    apply list_elem_of_lookup_total_2. rewrite length_take. lia.
  - rewrite !length_take. lia.
Qed.

Lemma valid_of_row uid S r :
  r ∈ valid_of uid S → row_ITEM_ID r ∈ S ∧ (1 ≤ length (row_ITEM_SEQ r))%nat.
Proof.
  destruct (decide (length S < 3)%nat) as [H|H].
  { destruct (valid_of_short uid S H) as [-> _]. by intros ?%elem_of_nil. }
  destruct (valid_of_long uid S) as (ctx & v & t & -> & Hc & -> & _);
    [lia|].
  intros ->%list_elem_of_singleton. simpl. split; [|done].
  apply elem_of_app. right. apply list_elem_of_here.
Qed.

Lemma test_of_row uid S r :
  r ∈ test_of uid S → row_ITEM_ID r ∈ S ∧ (1 ≤ length (row_ITEM_SEQ r))%nat.
Proof.
  destruct (decide (length S < 3)%nat) as [H|H].
  { destruct (valid_of_short uid S H) as [_ ->]. by intros ?%elem_of_nil. }
  destruct (valid_of_long uid S) as (ctx & v & t & -> & Hc & _ & -> & _);
    [lia|].
  intros ->%list_elem_of_singleton. simpl. split.
  - apply elem_of_app. right. apply list_elem_of_further, list_elem_of_here.
  - rewrite length_app. simpl. lia.
Qed.

Lemma all_of_row (f : Z → list Z → list row) (users : list (Z * list Z)) r :
  (∀ u S r, r ∈ f u S →
            row_ITEM_ID r ∈ S ∧ (1 ≤ length (row_ITEM_SEQ r))%nat) →
  r ∈ all_of f users →
  (∃ u S, (u, S) ∈ users ∧ row_ITEM_ID r ∈ S)
  ∧ (1 ≤ length (row_ITEM_SEQ r))%nat.
Proof.
  intros Hf ([u S] & Hr & Hin)%list_elem_of_bind.
  apply Hf in Hr as [H1 H2]. split; [|done]. by exists u, S.
Qed.

Lemma train_of_prefix uid S r :
  r ∈ train_of uid S → (row_ITEM_SEQ r ++ [row_ITEM_ID r]) `prefix_of` S.
Proof.
  unfold train_of. case_match eqn:E; [by intros ?%elem_of_nil|].
  apply short_len in E.
  intros (i & -> & [Hi1 Hi2]%elem_of_seqZ)%list_elem_of_fmap.
  unfold Py.len in Hi2. rewrite length_take in Hi2. simpl.
  set (P := take (length S - 2) S).
  assert (P !! Z.to_nat i = Some (P !!! Z.to_nat i)) as Hlook.
  { apply list_lookup_lookup_total_lt. unfold P. rewrite length_take. lia. }
  rewrite <- (take_S_r P (Z.to_nat i) _ Hlook).
  unfold P. rewrite take_take. apply prefix_take.
Qed.

Lemma held_out_prefix uid S r :
  r ∈ valid_of uid S ++ test_of uid S →
  (row_ITEM_SEQ r ++ [row_ITEM_ID r]) `prefix_of` S.
Proof.
  destruct (decide (length S < 3)%nat) as [H|H].
  { destruct (valid_of_short uid S H) as [-> ->]. by intros ?%elem_of_nil. }
  destruct (valid_of_long uid S) as (ctx & v & t & -> & _ & -> & -> & _);
    [lia|].
  intros [->%list_elem_of_singleton| ->%list_elem_of_singleton]%elem_of_app;
    simpl.
  - exists [t]. by rewrite <- (assoc_L (++)).
  - exists []. by rewrite app_nil_r, <- (assoc_L (++)).
Qed.

Lemma train_of_context uid S r x :
  r ∈ train_of uid S → x ∈ row_ITEM_SEQ r → x ∈ S.
Proof.
  unfold train_of. case_match; [by intros ?%elem_of_nil|].
  intros (i & -> & _)%list_elem_of_fmap. simpl.
  intros Hx. by do 2 apply subseteq_take in Hx.
Qed.

Lemma valid_of_context uid S r x :
  r ∈ valid_of uid S → x ∈ row_ITEM_SEQ r → x ∈ S.
Proof.
  unfold valid_of. case_match; [by intros ?%elem_of_nil|].
  intros ->%list_elem_of_singleton. simpl. apply subseteq_take.
Qed.

Lemma test_of_context uid S r x :
  r ∈ test_of uid S → x ∈ row_ITEM_SEQ r → x ∈ S.
Proof.
  unfold test_of. case_match; [by intros ?%elem_of_nil|].
  intros ->%list_elem_of_singleton. simpl. apply subseteq_take.
Qed.

Lemma all_of_context (f : Z → list Z → list row)
    (users : list (Z * list Z)) r x :
  (∀ u S r x, r ∈ f u S → x ∈ row_ITEM_SEQ r → x ∈ S) →
  r ∈ all_of f users → x ∈ row_ITEM_SEQ r →
  ∃ u S, (u, S) ∈ users ∧ x ∈ S.
Proof.
  intros Hf ([u S] & Hr & Hin)%list_elem_of_bind Hx.
  exists u, S. split; [done|]. by apply (Hf u S r x).
Qed.

End Windows.

(** ** Truncation and left padding of one context *)

Section Encoding.

Variable MAX : nat.
Implicit Types (ctx : list Z) (r : row).

Lemma slice_from_last ctx :
  (0 < MAX)%nat →
  Py.slice_from ctx (- Z.of_nat MAX) = drop (length ctx - MAX) ctx.
Proof.
  intros HM. unfold Py.slice_from, Py.from_end, Py.len.
  destruct (_ <? 0) eqn:E; [|apply Z.ltb_ge in E; lia].
  f_equal. lia.
Qed.

Lemma slice_from_zero ctx : Py.slice_from ctx (- Z.of_nat 0) = ctx.
Proof. done. Qed.

Lemma encode_positive n r :
  (0 < MAX)%nat →
  let ctx := row_ITEM_SEQ r in
  let kept := (length ctx `min` MAX)%nat in
  encode MAX n r
  = Sample (row_USER_ID r) (row_ITEM_ID r)
           (replicate (MAX - kept) (n - 1) ++ drop (length ctx - kept) ctx)
           (Z.of_nat kept).
Proof.
  intros HM ctx kept. unfold encode. fold ctx.
  rewrite slice_from_last by done. unfold pad, Py.len.
  rewrite length_drop.
  destruct (_ <? 0) eqn:E; [apply Z.ltb_lt in E; lia|].
  f_equal.
  - f_equal; [f_equal; lia|f_equal; lia].
  - lia.
Qed.

Lemma encode_length_nonempty n r :
  (1 ≤ length (row_ITEM_SEQ r))%nat → 1 ≤ context_length (encode MAX n r).
Proof.
  intros Hr. destruct (decide (0 < MAX)%nat) as [HM|HM].
  - rewrite encode_positive by done. simpl. lia.
  - assert (MAX = 0%nat) as HM0 by lia. unfold encode. simpl. revert Hr.
    generalize (row_ITEM_SEQ r). rewrite HM0. intros ctx Hctx.
    rewrite slice_from_zero. unfold Py.len. lia.
Qed.

End Encoding.

(** ** The integers that the tensors hold exactly *)

Section Exact.

Variable MAX : nat.
Variable inexact : Z → DataFrame → result (gmap field tensor).
Implicit Types (n : Z) (rows : list row) (r : row)
  (users : list (Z * list Z)).

Lemma int64_spec (x : Z) : int64 x = true ↔ - 2 ^ 63 ≤ x < 2 ^ 63.
Proof. unfold int64. rewrite andb_true_iff, Z.leb_le, Z.ltb_lt. done. Qed.

Lemma exact_double_spec (x : Z) :
  exact_double x = true ↔ - 2 ^ 53 ≤ x ≤ 2 ^ 53.
Proof.
  unfold exact_double. rewrite andb_true_iff, !Z.leb_le. done.
Qed.

Lemma forallb_Forall {A} (f : A → bool) (l : list A) :
  forallb f l = true ↔ Forall (λ x, f x = true) l.
Proof.
  induction l as [|x l IH]; simpl.
  - split; [constructor|done].
  - rewrite andb_true_iff, IH, Forall_cons. done.
Qed.

Lemma slice_from_suffix {A} (l : list A) (k : Z) :
  Py.slice_from l k `suffix_of` l.
Proof. unfold Py.slice_from. apply suffix_drop. Qed.

Lemma split_frame_exact n rows :
  Forall exact_row rows → exact_double (n - 1) = true →
  exact n (split_frame MAX rows) = true.
Proof.
  intros Hrows Hpad. unfold exact, split_frame.
  cbn [df_USER_ID df_ITEM_ID df_ITEM_SEQ df_ITEM_SEQ_LEN].
  rewrite Hpad, !andb_true_iff, !forallb_Forall.
  split_and!; try done.
  - apply Forall_fmap, Forall_fmap, Forall_forall. intros r Hr. simpl.
    apply (proj1 (Forall_forall _ _) Hrows) in Hr as (_ & _ & Hctx & _).
    apply forallb_Forall. apply forallb_Forall in Hctx.
    apply Forall_forall. intros x Hx.
    apply (proj1 (Forall_forall _ _) Hctx).
    destruct (slice_from_suffix (row_ITEM_SEQ r) (- Z.of_nat MAX))
      as [pre Hpre].
    rewrite Hpre. apply elem_of_app. by right.
  - apply Forall_fmap, Forall_forall. intros r Hr. simpl.
    by apply (proj1 (Forall_forall _ _) Hrows) in Hr as (? & _).
  - apply Forall_fmap, Forall_forall. intros r Hr. simpl.
    by apply (proj1 (Forall_forall _ _) Hrows) in Hr as (_ & ? & _).
  - apply Forall_fmap, Forall_fmap, Forall_fmap, Forall_forall.
    intros r Hr. simpl.
    apply (proj1 (Forall_forall _ _) Hrows) in Hr as (_ & _ & _ & Hlen).
    apply int64_spec. unfold Py.len in *.
    destruct (slice_from_suffix (row_ITEM_SEQ r) (- Z.of_nat MAX))
      as [pre Hpre].
    rewrite Hpre, length_app in Hlen. lia.
Qed.

(** On exact integers a split is converted as it is. *)
Lemma split_table_exact n rows :
  Forall exact_row rows → exact_double (n - 1) = true →
  split_table MAX inexact n rows = Ok (table_of MAX n rows).
Proof.
  intros Hrows Hpad. destruct rows as [|r rows]; [done|].
  unfold split_table, _dataframe_to_tensors, table_of.
  by rewrite split_frame_exact.
Qed.

Lemma exact_user_spec (u : Z) (S : list Z) :
  exact_user (u, S) = true
  ↔ int64 u = true ∧ (∀ x, x ∈ S → - 2 ^ 53 ≤ x < 2 ^ 53)
    ∧ Py.len S < 2 ^ 63.
Proof.
  unfold exact_user. cbn [fst snd].
  rewrite !andb_true_iff, forallb_Forall, Forall_forall, Z.ltb_lt.
  split.
  - intros [[Hu HS] HL]. split_and!; [done| |done].
    intros x Hx. apply HS in Hx.
    apply andb_true_iff in Hx as [?%Z.leb_le ?%Z.ltb_lt]. lia.
  - intros (Hu & HS & HL). split_and!; [done| |done].
    intros x Hx. apply HS in Hx.
    apply andb_true_iff. rewrite Z.leb_le, Z.ltb_lt. lia.
Qed.

Lemma exact_ids_spec users (u : Z) (S : list Z) :
  exact_ids users = true → (u, S) ∈ users →
  int64 u = true ∧ (∀ x, x ∈ S → - 2 ^ 53 ≤ x < 2 ^ 53)
  ∧ Py.len S < 2 ^ 63.
Proof.
  unfold exact_ids. rewrite forallb_Forall, Forall_forall.
  intros Hall Hin. by apply exact_user_spec, Hall.
Qed.

(** The rows of exact users are exact. *)
Lemma all_of_exact (f : Z → list Z → list row) users :
  (∀ u S r, r ∈ f u S →
            row_USER_ID r = u
            ∧ (row_ITEM_SEQ r ++ [row_ITEM_ID r]) `prefix_of` S) →
  exact_ids users = true → Forall exact_row (all_of f users).
Proof.
  intros Hf Hex. apply Forall_forall.
  intros r ([u S] & Hr & Hin)%list_elem_of_bind. cbn [fst snd] in Hr.
  destruct (Hf u S r Hr) as [Hu [rest Hpre]].
  destruct (exact_ids_spec users u S Hex Hin) as (Hint & Hitems & Hlen).
  assert (∀ x, x ∈ row_ITEM_SEQ r ++ [row_ITEM_ID r] → int64 x = true)
    as Hrow.
  { intros x Hx. apply int64_spec.
    assert (x ∈ S) as HxS by (rewrite Hpre; apply elem_of_app; by left).
    apply Hitems in HxS. lia. }
  unfold exact_row. split_and!.
  - by rewrite Hu.
  - apply Hrow, elem_of_app. right. apply list_elem_of_here.
  - apply forallb_Forall, Forall_forall. intros x Hx.
    apply Hrow, elem_of_app. by left.
  - unfold Py.len in *. rewrite Hpre, !length_app in Hlen. lia.
Qed.

Lemma train_of_exact users :
  exact_ids users = true → Forall exact_row (all_of train_of users).
Proof.
  apply all_of_exact. intros u S r Hr.
  split; [by apply (train_of_owner u S)|by apply (train_of_prefix u)].
Qed.

Lemma valid_of_exact users :
  exact_ids users = true → Forall exact_row (all_of valid_of users).
Proof.
  apply all_of_exact. intros u S r Hr.
  split; [by apply (valid_of_owner u S)|].
  apply (held_out_prefix u). apply elem_of_app. by left.
Qed.

Lemma test_of_exact users :
  exact_ids users = true → Forall exact_row (all_of test_of users).
Proof.
  apply all_of_exact. intros u S r Hr.
  split; [by apply (test_of_owner u S)|].
  apply (held_out_prefix u). apply elem_of_app. by right.
Qed.

Lemma max_elem (xs : list Z) (m : Z) : Py.max xs = Ok m → m ∈ xs.
Proof.
  destruct xs as [|a xs]; [done|]. intros [= <-].
  apply (foldl_max_spec a xs).
Qed.

(** On exact ids [_process_letter_data] fails only in [max], and
    otherwise returns the statistics and the three tables of the rows
    of all users. *)
Lemma process_unfold (self_inters : list (Z * list Z)) :
  exact_ids (processed self_inters) = true →
  _process_letter_data MAX inexact self_inters
  = m ← Py.max (elements (all_items (processed self_inters)));
    Ok (Py.len (processed self_inters) + 1, m + 2,
        <["test" := table_of MAX (m + 2)
                      (all_of test_of (processed self_inters))]>
        (<["valid" := table_of MAX (m + 2)
                        (all_of valid_of (processed self_inters))]>
        (<["train" := table_of MAX (m + 2)
                        (all_of train_of (processed self_inters))]> ∅))).
Proof.
  intros Hex. unfold _process_letter_data.
  destruct (Py.max _) as [m|e] eqn:Emax; [|done]. simpl.
  assert (exact_double (m + 2 - 1) = true) as Hpad.
  { apply max_elem, elem_of_elements, elem_of_all_items in Emax
      as (u & S & HuS & Hm).
    destruct (exact_ids_spec _ u S Hex HuS) as (_ & Hitems & _).
    apply Hitems in Hm. apply exact_double_spec. lia. }
  unfold _convert_to_rearec_format. rewrite split_users_spec. simpl.
  rewrite (split_table_exact _ _ (train_of_exact _ Hex) Hpad). simpl.
  rewrite (split_table_exact _ _ (valid_of_exact _ Hex) Hpad). simpl.
  by rewrite (split_table_exact _ _ (test_of_exact _ Hex) Hpad).
Qed.

Lemma all_items_no_item self_inters :
  (∀ u S, (u, S) ∈ processed self_inters → S = []) →
  elements (all_items (processed self_inters)) = [].
Proof.
  intros Hempty. apply elements_empty_iff, set_equiv. intros x.
  rewrite elem_of_all_items. split; [|by intros ?%elem_of_empty].
  intros (u & S & HuS & Hx). rewrite (Hempty u S HuS) in Hx.
  by apply elem_of_nil in Hx.
Qed.

(** Without any item the generator raises in [max], whatever the ids. *)
Lemma process_no_item (self_inters : list (Z * list Z)) :
  (∀ u S, (u, S) ∈ processed self_inters → S = []) →
  _process_letter_data MAX inexact self_inters = Raise ValueError.
Proof.
  intros Hno. unfold _process_letter_data.
  by rewrite (all_items_no_item self_inters Hno).
Qed.

(** When some user has some item and the ids are exact, the generator
    returns. *)
Lemma process_ok (self_inters : list (Z * list Z)) u0 S0 x0 :
  exact_ids (processed self_inters) = true →
  (u0, S0) ∈ processed self_inters → x0 ∈ S0 →
  ∃ m d,
    _process_letter_data MAX inexact self_inters
    = Ok (Py.len (processed self_inters) + 1, m + 2, d)
    ∧ (∃ u S, (u, S) ∈ processed self_inters ∧ m ∈ S)
    ∧ (∀ u S x, (u, S) ∈ processed self_inters → x ∈ S → x ≤ m)
    ∧ d !! "train" = Some (table_of MAX (m + 2)
                             (all_of train_of (processed self_inters)))
    ∧ d !! "valid" = Some (table_of MAX (m + 2)
                             (all_of valid_of (processed self_inters)))
    ∧ d !! "test" = Some (table_of MAX (m + 2)
                            (all_of test_of (processed self_inters))).
Proof.
  intros Hex Hu Hx. rewrite process_unfold by done.
  destruct (max_spec (elements (all_items (processed self_inters))) x0)
    as (m & -> & Hm & Hle).
  { apply elem_of_elements, elem_of_all_items. eauto. }
  eexists m, _. split; [done|].
  apply elem_of_elements, elem_of_all_items in Hm.
  split_and!; [done| |done..].
  intros u S x HS HxS. apply Hle, elem_of_elements, elem_of_all_items. eauto.
Qed.

Lemma split_rows_lookup n rows
    (d : gmap string (gmap field tensor)) name :
  d !! name = Some (table_of MAX n rows) →
  split_rows d name = encode MAX n <$> rows.
Proof.
  intros H. unfold split_rows. rewrite H. apply table_rows_split_table.
Qed.

End Exact.

(** * The claims about the generator *)

Section GeneratorClaims.

Variable MAX : nat.
Variable inexact : Z → DataFrame → result (gmap field tensor).
Implicit Types (self_inters : list (Z * list Z)) (uid : Z) (S : list Z).

Lemma processed_NoDup self_inters : NoDup (processed self_inters).*1.
Proof. apply (NoDup_keys_of_items self_inters). Qed.

(** A user with a non-empty sequence makes the generator return on exact
    ids, and the rows of that user in a split are the encoded rows of the
    loop. *)
Lemma generator_user self_inters uid S x :
  exact_ids (processed self_inters) = true →
  (uid, S) ∈ processed self_inters → x ∈ S →
  ∃ nu ni d,
    _process_letter_data MAX inexact self_inters = Ok (nu, ni, d)
    ∧ samples_of uid (split_rows d "train")
      = encode MAX ni <$> train_of uid S
    ∧ samples_of uid (split_rows d "valid")
      = encode MAX ni <$> valid_of uid S
    ∧ samples_of uid (split_rows d "test")
      = encode MAX ni <$> test_of uid S.
Proof.
  intros Hex Hin Hx.
  destruct (process_ok MAX inexact self_inters uid S x Hex Hin Hx)
    as (m & d & Hd & _ & _ & Htr & Hva & Hte).
  exists (Py.len (processed self_inters) + 1), (m + 2), d.
  split; [done|].
  rewrite (split_rows_lookup MAX _ _ d "train" Htr),
    (split_rows_lookup MAX _ _ d "valid" Hva),
    (split_rows_lookup MAX _ _ d "test" Hte), !samples_of_encode.
  pose proof (processed_NoDup self_inters) as Hnd.
  rewrite (rows_of_all_of train_of _ uid S train_of_owner Hnd Hin),
    (rows_of_all_of valid_of _ uid S valid_of_owner Hnd Hin),
    (rows_of_all_of test_of _ uid S test_of_owner Hnd Hin).
  done.
Qed.

Lemma users_rows self_inters uid S :
  (uid, S) ∈ processed self_inters →
  ∃ train valid test,
    split_users (processed self_inters) ([], [], [])
    = Ok (train, valid, test)
    ∧ rows_of uid train = train_of uid S
    ∧ rows_of uid valid = valid_of uid S
    ∧ rows_of uid test = test_of uid S.
Proof.
  intros Hin. rewrite split_users_spec. eexists _, _, _. split; [done|].
  pose proof (processed_NoDup self_inters) as Hnd. simpl.
  rewrite (rows_of_all_of train_of _ uid S train_of_owner Hnd Hin),
    (rows_of_all_of valid_of _ uid S valid_of_owner Hnd Hin),
    (rows_of_all_of test_of _ uid S test_of_owner Hnd Hin).
  done.
Qed.

Lemma three_items S : (3 ≤ length S)%nat → ∃ x, x ∈ S.
Proof.
  destruct S as [|x S]; simpl; [lia|]. intros _. exists x.
  apply list_elem_of_here.
Qed.

(** C2, as the code has it: for a user whose sequence [S] has length
    [L >= 3], the train rows are exactly the rows with target [S[i]] and
    context [S[0:i]] for [i] from 1 to [L-3] inclusive (0-based), in this
    order; when the ids of the artifact are held exactly by the tensors,
    the generator returns and the train table of the reader holds the
    encodings of these rows; for the sequence [0,1,2,3,4,5] the train
    targets are 1, 2 and 3 with contexts [0], [0,1] and [0,1,2]. *)
Theorem train_rows_window self_inters uid S :
  (uid, S) ∈ processed self_inters → (3 ≤ length S)%nat →
  (∃ train valid test,
      split_users (processed self_inters) ([], [], [])
      = Ok (train, valid, test)
      ∧ length (rows_of uid train) = (length S - 3)%nat
      ∧ (∀ (i : nat) x,
            (1 ≤ i ≤ length S - 3)%nat → S !! i = Some x →
            rows_of uid train !! (i - 1)%nat
            = Some (Row uid x (take i S)))
      ∧ (exact_ids (processed self_inters) = true →
         ∃ nu ni d,
           _process_letter_data MAX inexact self_inters = Ok (nu, ni, d)
           ∧ samples_of uid (split_rows d "train")
             = encode MAX ni <$> rows_of uid train))
  ∧ split_user 0 [0; 1; 2; 3; 4; 5] ([], [], [])
    = Ok ([Row 0 1 [0]; Row 0 2 [0; 1]; Row 0 3 [0; 1; 2]],
          [Row 0 4 [0; 1; 2; 3]], [Row 0 5 [0; 1; 2; 3; 4]]).
Proof.
  intros Hin HL. split; [|done].
  destruct (users_rows self_inters uid S Hin)
    as (train & valid & test & Hrun & Htr & _).
  exists train, valid, test. rewrite Htr.
  split_and!; [done|apply length_train_of| |].
  - intros i x Hi Hx. by apply lookup_train_of.
  - intros Hex. destruct (three_items S HL) as [x Hx].
    destruct (generator_user self_inters uid S x Hex Hin Hx)
      as (nu & ni & d & Hd & Hs & _).
    by exists nu, ni, d.
Qed.

(** C5, as the code has it: when the artifact holds at least one item
    (else [max] raises [ValueError] and no split is built) and its ids
    are held exactly by the tensors, a user with a sequence of length [L]
    gets exactly [max(0, L-3)] train rows, one valid row and one test row
    when [L >= 3], and no row in any split when [L < 3]. *)
Theorem rows_per_user self_inters uid S u0 S0 x0 :
  exact_ids (processed self_inters) = true →
  (uid, S) ∈ processed self_inters →
  (u0, S0) ∈ processed self_inters → x0 ∈ S0 →
  ∃ nu ni d,
    _process_letter_data MAX inexact self_inters = Ok (nu, ni, d)
    ∧ Py.len (samples_of uid (split_rows d "train"))
      = (if Py.len S <? 3 then 0 else Z.max 0 (Py.len S - 3))
    ∧ Py.len (samples_of uid (split_rows d "valid"))
      = (if Py.len S <? 3 then 0 else 1)
    ∧ Py.len (samples_of uid (split_rows d "test"))
      = (if Py.len S <? 3 then 0 else 1).
Proof.
  intros Hex Hin Hin0 Hx0.
  destruct (process_ok MAX inexact self_inters u0 S0 x0 Hex Hin0 Hx0)
    as (m & d & Hd & _ & _ & Htr & Hva & Hte).
  exists (Py.len (processed self_inters) + 1), (m + 2), d.
  split; [done|].
  rewrite (split_rows_lookup MAX _ _ d "train" Htr),
    (split_rows_lookup MAX _ _ d "valid" Hva),
    (split_rows_lookup MAX _ _ d "test" Hte), !samples_of_encode.
  pose proof (processed_NoDup self_inters) as Hnd.
  rewrite (rows_of_all_of train_of _ uid S train_of_owner Hnd Hin),
    (rows_of_all_of valid_of _ uid S valid_of_owner Hnd Hin),
    (rows_of_all_of test_of _ uid S test_of_owner Hnd Hin).
  unfold Py.len. rewrite !length_fmap, length_train_of.
  destruct (Z.of_nat (length S) <? 3) eqn:E.
  - apply Z.ltb_lt in E.
    destruct (valid_of_short uid S) as [-> ->]; [lia|]. simpl. lia.
  - apply (short_len S) in E.
    destruct (valid_of_long uid S E) as (c & v & t & _ & _ & -> & -> & _).
    simpl. lia.
Qed.

(** C6: for a user whose sequence [S] has length [L >= 3], the test row
    has target [S[L-1]] and pre-truncation context [S[0:L-1]], the valid
    row has target [S[L-2]] and context [S[0:L-2]]; [S] is the test
    context followed by the test target, and the valid context followed
    by the two held-out targets, so neither held-out position lies in
    its own context. When the ids of the artifact are held exactly by the
    tensors, the generator returns and the test and valid tables hold the
    encodings of these two rows for the user. *)
Theorem held_out_rows self_inters uid S :
  (uid, S) ∈ processed self_inters → (3 ≤ length S)%nat →
  ∃ train valid test (v t : Z),
    split_users (processed self_inters) ([], [], [])
    = Ok (train, valid, test)
    ∧ S !! (length S - 1)%nat = Some t
    ∧ S !! (length S - 2)%nat = Some v
    ∧ rows_of uid test = [Row uid t (take (length S - 1) S)]
    ∧ rows_of uid valid = [Row uid v (take (length S - 2) S)]
    ∧ S = take (length S - 1) S ++ [t]
    ∧ S = take (length S - 2) S ++ [v; t]
    ∧ (exact_ids (processed self_inters) = true →
       ∃ nu ni d,
         _process_letter_data MAX inexact self_inters = Ok (nu, ni, d)
         ∧ samples_of uid (split_rows d "test")
           = [encode MAX ni (Row uid t (take (length S - 1) S))]
         ∧ samples_of uid (split_rows d "valid")
           = [encode MAX ni (Row uid v (take (length S - 2) S))]).
Proof.
  intros Hin HL.
  destruct (users_rows self_inters uid S Hin)
    as (train & valid & test & Hrun & _ & Hva & Hte).
  destruct (valid_of_long uid S HL)
    as (ctx & v & t & HS & _ & Hv & Ht & Hc2 & Hc1 & Hlv & Hlt).
  exists train, valid, test, v, t.
  rewrite Hva, Hte, Hv, Ht, Hc1, Hc2.
  split_and!; try done.
  { by rewrite <- (assoc_L (++)). }
  intros Hex. destruct (three_items S HL) as [x Hx].
  destruct (generator_user self_inters uid S x Hex Hin Hx)
    as (nu & ni & d & Hd & _ & Hsv & Hst).
  exists nu, ni, d. by rewrite Hsv, Hst, Hv, Ht.
Qed.

End GeneratorClaims.

Section TableClaims.

Variable MAX : nat.
Variable inexact : Z → DataFrame → result (gmap field tensor).
Implicit Types (self_inters : list (Z * list Z)) (uid : Z) (S : list Z).

(** The run of the generator, split by split: the statistics, the rows of
    the loop and the table of each split. *)
Lemma generator_tables self_inters u0 S0 x0 :
  exact_ids (processed self_inters) = true →
  (u0, S0) ∈ processed self_inters → x0 ∈ S0 →
  ∃ m d train valid test,
    _process_letter_data MAX inexact self_inters
    = Ok (Py.len (processed self_inters) + 1, m + 2, d)
    ∧ split_users (processed self_inters) ([], [], [])
      = Ok (train, valid, test)
    ∧ (∃ u S, (u, S) ∈ processed self_inters ∧ m ∈ S)
    ∧ (∀ u S x, (u, S) ∈ processed self_inters → x ∈ S → x ≤ m)
    ∧ ∀ name rows,
        (name, rows) ∈ splits train valid test →
        d !! name = Some (table_of MAX (m + 2) rows)
        ∧ split_rows d name = encode MAX (m + 2) <$> rows
        ∧ ∀ r, r ∈ rows →
               (∃ u S, (u, S) ∈ processed self_inters ∧ row_ITEM_ID r ∈ S)
               ∧ (1 ≤ length (row_ITEM_SEQ r))%nat.
Proof.
  intros Hex Hin Hx.
  destruct (process_ok MAX inexact self_inters u0 S0 x0 Hex Hin Hx)
    as (m & d & Hd & Hm & Hle & Htr & Hva & Hte).
  exists m, d. rewrite split_users_spec. eexists _, _, _.
  split_and!; [done..|].
  intros name rows Hsplit. unfold splits in Hsplit. simpl in Hsplit.
  apply elem_of_cons in Hsplit as [Heq|Hsplit];
    [|apply elem_of_cons in Hsplit as [Heq|Hsplit];
      [|apply list_elem_of_singleton in Hsplit as Heq]];
    injection Heq as -> ->.
  - split_and!; [done|by apply split_rows_lookup|].
    intros r. apply all_of_row, train_of_row.
  - split_and!; [done|by apply split_rows_lookup|].
    intros r. apply all_of_row, valid_of_row.
  - split_and!; [done|by apply split_rows_lookup|].
    intros r. apply all_of_row, test_of_row.
Qed.

Lemma split_name_rows (train valid test : list row) name :
  name ∈ ["train"; "valid"; "test"] →
  ∃ rows, (name, rows) ∈ splits train valid test.
Proof.
  unfold splits. intros Hname.
  apply elem_of_cons in Hname as [->|Hname];
    [|apply elem_of_cons in Hname as [->|Hname];
      [|apply list_elem_of_singleton in Hname as ->]].
  - exists train. apply list_elem_of_here.
  - exists valid. apply list_elem_of_further, list_elem_of_here.
  - exists test. do 2 apply list_elem_of_further. apply list_elem_of_here.
Qed.


(** C8, as the code has it: when the artifact holds at least one item
    (else [max] raises [ValueError] and no statistic is stored) and its
    ids are held exactly by the tensors, [n_users] is the number of users
    of the artifact plus 1, [n_items] is the greatest item id of any user
    sequence plus 2, and [PAD_ITEM = n_items - 1] is the target of no
    sample of any split. *)
Theorem statistics_and_pad self_inters u0 S0 x0 :
  exact_ids (processed self_inters) = true →
  (u0, S0) ∈ processed self_inters → x0 ∈ S0 →
  ∃ nu ni d m,
    _process_letter_data MAX inexact self_inters = Ok (nu, ni, d)
    ∧ nu = Py.len (processed self_inters) + 1
    ∧ nu = Z.of_nat (length (remove_dups self_inters.*1)) + 1
    ∧ (NoDup self_inters.*1 → nu = Py.len self_inters + 1)
    ∧ ni = m + 2
    ∧ (∃ u S, (u, S) ∈ processed self_inters ∧ m ∈ S)
    ∧ (∀ u S x, (u, S) ∈ processed self_inters → x ∈ S → x ≤ m)
    ∧ ∀ name s,
        name ∈ ["train"; "valid"; "test"] → s ∈ split_rows d name →
        target_item_id s ≠ ni - 1.
Proof.
  intros Hex Hin Hx.
  destruct (generator_tables self_inters u0 S0 x0 Hex Hin Hx)
    as (m & d & train & valid & test & Hd & Hrun & Hm & Hle & Htab).
  exists (Py.len (processed self_inters) + 1), (m + 2), d, m.
  split_and!; try done.
  - unfold Py.len, processed. by rewrite length_of_items.
  - intros Hnd. unfold processed. by rewrite of_items_NoDup.
  - intros name s Hname Hs.
    destruct (split_name_rows train valid test name Hname) as [rows Hsplit].
    destruct (Htab name rows Hsplit) as (_ & Hrows & Hr).
    rewrite Hrows in Hs.
    apply list_elem_of_fmap in Hs as (r & -> & Hin_r).
    destruct (Hr r Hin_r) as [(u & S & HuS & Hitem) _]. simpl.
    specialize (Hle u S _ HuS Hitem). lia.
Qed.

(** C10: every row of every split has a context length of at least 1.
    The length is computed on the table of the split, before the
    conversion to tensors (line 158): there it is at least 1 for every
    row, whatever the ids. When some user has an item and the ids are
    held exactly by the tensors, the generator returns and every sample
    of every split has [context_length >= 1]. *)
Theorem context_never_empty self_inters :
  ∃ train valid test,
    split_users (processed self_inters) ([], [], [])
    = Ok (train, valid, test)
    ∧ (∀ name rows,
          (name, rows) ∈ splits train valid test →
          Forall (λ r, (1 ≤ length (row_ITEM_SEQ r))%nat) rows
          ∧ Forall (λ l, 1 ≤ l) (df_ITEM_SEQ_LEN (split_frame MAX rows)))
    ∧ ∀ u0 S0 x0,
        exact_ids (processed self_inters) = true →
        (u0, S0) ∈ processed self_inters → x0 ∈ S0 →
        ∃ nu ni d,
          _process_letter_data MAX inexact self_inters = Ok (nu, ni, d)
          ∧ ∀ name s,
              name ∈ ["train"; "valid"; "test"] → s ∈ split_rows d name →
              1 ≤ context_length s.
Proof.
  rewrite split_users_spec. eexists _, _, _. split; [done|].
  cbn [app].
  assert (∀ name rows,
            (name, rows) ∈ splits (all_of train_of (processed self_inters))
                                  (all_of valid_of (processed self_inters))
                                  (all_of test_of (processed self_inters)) →
            Forall (λ r, (1 ≤ length (row_ITEM_SEQ r))%nat) rows) as Hrows.
  { intros name rows Hsplit. apply Forall_forall. intros r.
    unfold splits in Hsplit.
    apply elem_of_cons in Hsplit as [Heq|Hsplit];
      [|apply elem_of_cons in Hsplit as [Heq|Hsplit];
        [|apply list_elem_of_singleton in Hsplit as Heq]];
      injection Heq as -> ->.
    - apply all_of_row, train_of_row.
    - apply all_of_row, valid_of_row.
    - apply all_of_row, test_of_row. }
  split.
  - intros name rows Hsplit. split; [by apply (Hrows name)|].
    unfold split_frame. cbn [df_ITEM_SEQ_LEN df_ITEM_SEQ].
    apply Forall_fmap, Forall_fmap, Forall_fmap.
    apply (Forall_impl _ _ _ (Hrows name rows Hsplit)).
    intros r Hr. apply (encode_length_nonempty MAX 0 r Hr).
  - intros u0 S0 x0 Hex Hin Hx.
    destruct (generator_tables self_inters u0 S0 x0 Hex Hin Hx)
      as (m & d & train & valid & test & Hd & Hrun & _ & _ & Htab).
    exists (Py.len (processed self_inters) + 1), (m + 2), d.
    split; [done|]. intros name s Hname Hs.
    destruct (split_name_rows train valid test name Hname) as [rows Hsplit].
    destruct (Htab name rows Hsplit) as (_ & Hrows' & Hr).
    rewrite Hrows' in Hs.
    apply list_elem_of_fmap in Hs as (r & -> & Hin_r).
    apply encode_length_nonempty. by apply Hr.
Qed.

(** C3, as the code has it: when the artifact holds at least one item
    and its ids are held exactly by the tensors, the generator returns,
    and a split for which the loop produced no row is reported as the
    empty dict, which has none of the four fields. *)
Theorem empty_split_is_empty_dict self_inters u0 S0 x0 :
  exact_ids (processed self_inters) = true →
  (u0, S0) ∈ processed self_inters → x0 ∈ S0 →
  ∃ nu ni d train valid test,
    _process_letter_data MAX inexact self_inters = Ok (nu, ni, d)
    ∧ split_users (processed self_inters) ([], [], [])
      = Ok (train, valid, test)
    ∧ ∀ name rows,
        (name, rows) ∈ splits train valid test → rows = [] →
        d !! name = Some ∅
        ∧ ∀ f : field, (d !! name) ≫= (λ t, t !! f) = None.
Proof.
  intros Hex Hin Hx.
  destruct (generator_tables self_inters u0 S0 x0 Hex Hin Hx)
    as (m & d & train & valid & test & Hd & Hrun & _ & _ & Htab).
  exists (Py.len (processed self_inters) + 1), (m + 2), d, train, valid, test.
  split_and!; [done..|].
  intros name rows Hsplit ->. destruct (Htab name [] Hsplit) as (-> & _).
  rewrite split_table_nil. split; [done|]. intros f. simpl.
  apply lookup_empty.
Qed.

End TableClaims.

(** ** The auxiliary lookups *)

Section Lookups.

Context {V : Type}.

(** The loop of both lookups: the ids are visited in order and an id whose
    string is a key of the source mapping gets that entry. *)
Lemma lookup_loop (src : gmap string V) (ids : list Z) (acc : gmap Z V) i :
  foldl (λ (out : gmap Z V) item_id,
           match src !! Py.str item_id with
           | Some t => <[item_id := t]> out
           | None => out
           end) acc ids !! i
  = if decide (i ∈ ids)
    then match src !! Py.str i with
         | Some t => Some t
         | None => acc !! i
         end
    else acc !! i.
Proof.
  revert acc. induction ids as [|j ids IH]; intros acc; cbn [foldl].
  { case_decide as H; [by apply elem_of_nil in H|done]. }
  rewrite IH. destruct (decide (i = j)) as [->|Hne].
  - destruct (decide (j ∈ j :: ids)) as [_|H];
      [|by destruct H; apply list_elem_of_here].
    destruct (src !! Py.str j) eqn:E.
    + rewrite lookup_insert_eq. by destruct (decide (j ∈ ids)).
    + by destruct (decide (j ∈ ids)).
  - assert ((match src !! Py.str j with
             | Some t => <[j:=t]> acc
             | None => acc
             end) !! i = acc !! i) as ->.
    { destruct (src !! Py.str j); [by rewrite lookup_insert_ne|done]. }
    destruct (decide (i ∈ ids)) as [Hin|Hin];
      destruct (decide (i ∈ j :: ids)) as [Hin'|Hin']; try done.
    + destruct Hin'. by apply list_elem_of_further.
    + apply elem_of_cons in Hin' as [?|?]; done.
Qed.

End Lookups.

(** C9: for a reader built from the artifact, the token lookup and the
    feature lookup return the mapping that holds, for each queried id
    whose string is a key of the artifact's mapping, that entry, and
    nothing else (an absent id is omitted, nothing is raised); with the
    item-feature flag off the feature lookup returns [None], which is not
    the empty mapping, whatever the ids. *)
Theorem lookups_omit_absent_ids (MAX : nat)
    (inexact : Z → DataFrame → result (gmap field tensor))
    (flag : bool) (files : artifact) (self : reader) (item_ids : list Z) :
  __init__ MAX inexact flag files = Ok self →
  (∀ i, get_item_tokens self item_ids !! i
        = if decide (i ∈ item_ids) then index_json files !! Py.str i
          else None)
  ∧ (if flag
     then ∃ features,
         get_item_features self item_ids = Ok (Some features)
         ∧ ∀ i, features !! i
                = if decide (i ∈ item_ids) then item_json files !! Py.str i
                  else None
     else get_item_features self item_ids = Ok None)
  ∧ (Ok None : result (option (gmap Z item_feature))) ≠ Ok (Some ∅).
Proof.
  unfold __init__.
  destruct (_process_letter_data MAX inexact (inter_json files))
    as [[[nu ni] d]|e]; [|done].
  simpl. intros [= <-]. split_and!; [| |done].
  - intros i. unfold get_item_tokens. simpl. rewrite lookup_loop.
    rewrite lookup_empty. case_decide; [|done].
    by destruct (index_json files !! Py.str i).
  - unfold get_item_features. destruct flag; simpl; [|done].
    eexists. split; [done|]. intros i. rewrite lookup_loop.
    rewrite lookup_empty. case_decide; [|done].
    by destruct (item_json files !! Py.str i).
Qed.

(** * The claims at the sample inputs *)

Lemma six_items_user :
  (0, [0; 1; 2; 3; 4; 5]) ∈ processed Examples.six_items.
Proof. vm_compute. apply list_elem_of_here. Qed.

Lemma two_items_user : (0, [1; 2]) ∈ processed Examples.two_items.
Proof. vm_compute. apply list_elem_of_here. Qed.

Lemma six_items_exact : exact_ids (processed Examples.six_items) = true.
Proof. reflexivity. Qed.

Lemma two_items_exact : exact_ids (processed Examples.two_items) = true.
Proof. reflexivity. Qed.

(** C2 fails as stated: for [0,1,2,3,4,5] the train rows are three, the
    first with target 1 (position 1) and context [0]. *)
Lemma train_window_starts_at_one :
  ∃ train valid test,
    split_users (processed Examples.six_items) ([], [], [])
    = Ok (train, valid, test)
    ∧ train = [Row 0 1 [0]; Row 0 2 [0; 1]; Row 0 3 [0; 1; 2]]
    ∧ row_ITEM_ID <$> train ≠ [2; 3]
    ∧ ∃ nu ni d,
        _process_letter_data 4 Examples.raising Examples.six_items
        = Ok (nu, ni, d)
        ∧ split_rows d "train"
          = [Sample 0 1 [6; 6; 6; 0] 1; Sample 0 2 [6; 6; 0; 1] 2;
             Sample 0 3 [6; 0; 1; 2] 3].
Proof.
  eexists _, _, _. split; [vm_compute; reflexivity|].
  split; [done|]. split; [done|].
  eexists _, _, _. split; [vm_compute; reflexivity|]. by vm_compute.
Qed.

(** The window of the user of [six_items]: three train rows, and their
    encodings in the train table. *)
Lemma train_rows_window_witness :
  (0, [0; 1; 2; 3; 4; 5]) ∈ processed Examples.six_items
  ∧ (3 ≤ length [0; 1; 2; 3; 4; 5])%nat
  ∧ exact_ids (processed Examples.six_items) = true
  ∧ ∃ train valid test,
      split_users (processed Examples.six_items) ([], [], [])
      = Ok (train, valid, test)
      ∧ length (rows_of 0 train) = (length [0; 1; 2; 3; 4; 5] - 3)%nat
      ∧ ∃ nu ni d,
          _process_letter_data 4 Examples.raising Examples.six_items
          = Ok (nu, ni, d)
          ∧ samples_of 0 (split_rows d "train")
            = encode 4 ni <$> rows_of 0 train.
Proof.
  split; [apply six_items_user|]. split; [simpl; lia|].
  split; [apply six_items_exact|].
  destruct (train_rows_window 4 Examples.raising Examples.six_items 0
              [0; 1; 2; 3; 4; 5])
    as [(train & valid & test & Hrun & Hlen & _ & Hgen) _];
    [apply six_items_user|simpl; lia|].
  exists train, valid, test. split_and!; [done..|].
  apply Hgen, six_items_exact.
Defined.

(** C5 fails as stated: a user whose sequence has length 0 in an artifact
    without any item gets no split with zero rows: the generator raises
    [ValueError] (from [max] of the empty item set) before the splits are
    built, whatever [MAX_ITEM_SEQ_LEN]. *)
Lemma short_user_alone_raises :
  (0, []) ∈ processed Examples.no_item
  ∧ (Py.len ([] : list Z) <? 3) = true
  ∧ exact_ids (processed Examples.no_item) = true
  ∧ ∀ MAX inexact,
      _process_letter_data MAX inexact Examples.no_item = Raise ValueError.
Proof.
  split; [vm_compute; apply list_elem_of_here|]. split; [done|].
  split; [done|]. done.
Qed.

(** The user of [six_items], with six items: three train rows, one valid
    row, one test row. *)
Lemma rows_per_user_witness :
  exact_ids (processed Examples.six_items) = true
  ∧ (0, [0; 1; 2; 3; 4; 5]) ∈ processed Examples.six_items
  ∧ 0 ∈ [0; 1; 2; 3; 4; 5]
  ∧ ∃ nu ni d,
      _process_letter_data 4 Examples.raising Examples.six_items
      = Ok (nu, ni, d)
      ∧ Py.len (samples_of 0 (split_rows d "train")) = 3
      ∧ Py.len (samples_of 0 (split_rows d "valid")) = 1
      ∧ Py.len (samples_of 0 (split_rows d "test")) = 1.
Proof.
  split; [apply six_items_exact|].
  split; [apply six_items_user|]. split; [apply list_elem_of_here|].
  destruct (rows_per_user 4 Examples.raising Examples.six_items
              0 [0; 1; 2; 3; 4; 5] 0 [0; 1; 2; 3; 4; 5] 0)
    as (nu & ni & d & Hd & Htr & Hva & Hte);
    [apply six_items_exact|apply six_items_user|apply six_items_user
    |apply list_elem_of_here|].
  by exists nu, ni, d.
Defined.

(** The held-out rows of the user of [six_items], and their encodings in
    the test and valid tables. *)
Lemma held_out_rows_witness :
  (0, [0; 1; 2; 3; 4; 5]) ∈ processed Examples.six_items
  ∧ (3 ≤ length [0; 1; 2; 3; 4; 5])%nat
  ∧ exact_ids (processed Examples.six_items) = true
  ∧ ∃ train valid test v t,
      split_users (processed Examples.six_items) ([], [], [])
      = Ok (train, valid, test)
      ∧ [0; 1; 2; 3; 4; 5] !! 5%nat = Some t
      ∧ [0; 1; 2; 3; 4; 5] !! 4%nat = Some v
      ∧ rows_of 0 test = [Row 0 t [0; 1; 2; 3; 4]]
      ∧ rows_of 0 valid = [Row 0 v [0; 1; 2; 3]]
      ∧ ∃ nu ni d,
          _process_letter_data 4 Examples.raising Examples.six_items
          = Ok (nu, ni, d)
          ∧ samples_of 0 (split_rows d "test")
            = [encode 4 ni (Row 0 t [0; 1; 2; 3; 4])].
Proof.
  split; [apply six_items_user|]. split; [simpl; lia|].
  split; [apply six_items_exact|].
  destruct (held_out_rows 4 Examples.raising Examples.six_items 0
              [0; 1; 2; 3; 4; 5])
    as (train & valid & test & v & t & Hrun & Ht & Hv & Hte & Hva & _ & _
        & Hgen);
    [apply six_items_user|simpl; lia|].
  exists train, valid, test, v, t. split_and!; [done..|].
  destruct (Hgen six_items_exact) as (nu & ni & d & Hd & Hst & _).
  by exists nu, ni, d.
Defined.


(** C8 fails as stated: for an artifact of two users without any item
    the generator computes neither statistic: [max] of the empty item set
    raises [ValueError], and the reader is not built. *)
Lemma statistics_need_an_item :
  Py.len (processed Examples.users_without_items) = 2
  ∧ (∀ MAX inexact,
        _process_letter_data MAX inexact Examples.users_without_items
        = Raise ValueError)
  ∧ ∀ MAX inexact flag index item,
      __init__ MAX inexact flag
        (Artifact Examples.users_without_items index item)
      = Raise ValueError.
Proof. done. Qed.

(** The statistics of [six_items]. *)
Lemma statistics_and_pad_witness :
  exact_ids (processed Examples.six_items) = true
  ∧ (0, [0; 1; 2; 3; 4; 5]) ∈ processed Examples.six_items
  ∧ 0 ∈ [0; 1; 2; 3; 4; 5]
  ∧ ∃ nu ni d m,
      _process_letter_data 4 Examples.raising Examples.six_items
      = Ok (nu, ni, d)
      ∧ nu = Py.len (processed Examples.six_items) + 1
      ∧ ni = m + 2.
Proof.
  split; [apply six_items_exact|].
  split; [apply six_items_user|]. split; [apply list_elem_of_here|].
  destruct (statistics_and_pad 4 Examples.raising Examples.six_items
              0 [0; 1; 2; 3; 4; 5] 0)
    as (nu & ni & d & m & Hd & Hnu & _ & _ & Hni & _);
    [apply six_items_exact|apply six_items_user|apply list_elem_of_here|].
  by exists nu, ni, d, m.
Defined.

(** The train samples of [six_items] have a context. *)
Lemma context_never_empty_witness :
  exact_ids (processed Examples.six_items) = true
  ∧ (0, [0; 1; 2; 3; 4; 5]) ∈ processed Examples.six_items
  ∧ 0 ∈ [0; 1; 2; 3; 4; 5]
  ∧ ∃ nu ni d,
      _process_letter_data 4 Examples.raising Examples.six_items
      = Ok (nu, ni, d)
      ∧ ∀ s, s ∈ split_rows d "train" → 1 ≤ context_length s.
Proof.
  split; [apply six_items_exact|].
  split; [apply six_items_user|]. split; [apply list_elem_of_here|].
  destruct (context_never_empty 4 Examples.raising Examples.six_items)
    as (train & valid & test & _ & _ & Hgen).
  destruct (Hgen 0 [0; 1; 2; 3; 4; 5] 0 six_items_exact six_items_user)
    as (nu & ni & d & Hd & Hall); [apply list_elem_of_here|].
  exists nu, ni, d. split; [done|]. intros s. apply Hall.
  apply list_elem_of_here.
Defined.

(** C3 fails as stated: for an artifact whose only user has two items the
    generator returns, and each of the three splits is the empty dict: it
    has no [USER_ID], [ITEM_ID], [ITEM_SEQ] or [ITEM_SEQ_LEN] column at
    all, where the claim has four columns of zero rows. *)
Lemma empty_split_has_no_columns :
  ∃ d,
    _process_letter_data 4 Examples.raising Examples.two_items
    = Ok (2, 4, d)
    ∧ d !! "train" = Some ∅ ∧ d !! "valid" = Some ∅ ∧ d !! "test" = Some ∅
    ∧ (∅ : gmap field tensor) !! USER_ID = None
    ∧ (∅ : gmap field tensor) !! USER_ID ≠ Some (Tensor1 []).
Proof.
  eexists. split; [vm_compute; reflexivity|]. by vm_compute.
Qed.

(** The run on [two_items]: the test split is the empty dict. *)
Lemma empty_split_is_empty_dict_witness :
  exact_ids (processed Examples.two_items) = true
  ∧ (0, [1; 2]) ∈ processed Examples.two_items
  ∧ 1 ∈ [1; 2]
  ∧ ∃ nu ni d train valid test,
      _process_letter_data 4 Examples.raising Examples.two_items
      = Ok (nu, ni, d)
      ∧ split_users (processed Examples.two_items) ([], [], [])
        = Ok (train, valid, test)
      ∧ (test = [] → d !! "test" = Some ∅).
Proof.
  split; [apply two_items_exact|].
  split; [apply two_items_user|]. split; [apply list_elem_of_here|].
  destruct (empty_split_is_empty_dict 4 Examples.raising Examples.two_items
              0 [1; 2] 1)
    as (nu & ni & d & train & valid & test & Hd & Hrun & Hall);
    [apply two_items_exact|apply two_items_user|apply list_elem_of_here|].
  exists nu, ni, d, train, valid, test. split_and!; [done..|].
  intros Htest. apply (Hall "test" test); [|done]. unfold splits.
  do 2 apply list_elem_of_further. apply list_elem_of_here.
Defined.

(** A reader without item features: item 0 has tokens, item 7 is omitted,
    the features are unavailable. *)
Lemma lookups_omit_absent_ids_witness :
  ∃ self,
    __init__ 4 Examples.raising false Examples.files = Ok self
    ∧ get_item_tokens self [0; 7] !! 0
      = Some ["<a_123>"; "<b_45>"; "<c_67>"; "<d_89>"]
    ∧ get_item_tokens self [0; 7] !! 7 = None
    ∧ get_item_features self [0; 7] = Ok None.
Proof.
  destruct (__init__ 4 Examples.raising false Examples.files)
    as [self|e] eqn:Hinit; [|by vm_compute in Hinit].
  exists self. split; [done|].
  destruct (lookups_omit_absent_ids 4 Examples.raising false Examples.files
              self [0; 7] Hinit)
    as (Htok & Hfeat & _).
  rewrite !Htok. split_and!; [by vm_compute|by vm_compute|done].
Defined.

(** * Properties of the builder *)

Section Builder.

Import preprocess_letter_data ReviewRecords.

(** ** The loop over the review records *)

Lemma yelp_interactions_cons (data : gmap string json)
    (rest : list (result (gmap string json))) :
  yelp_interactions (Ok data :: rest)
  = match missing_field data with
    | Some key => Raise (KeyError key)
    | None => interactions ← yelp_interactions rest;
              Ok (row_of data :: interactions)
    end.
Proof.
  unfold missing_field, row_of, required_fields.
  cbn [yelp_interactions first_absent]. unfold subscript. simpl.
  destruct (data !! "user_id"); [|done].
  destruct (data !! "business_id"); [|done].
  destruct (data !! "stars"); [|done].
  destruct (data !! "date"); [|done].
  simpl. by destruct (yelp_interactions rest).
Qed.

Lemma yelp_interactions_complete (records : list (gmap string json)) :
  Forall (λ data, missing_field data = None) records →
  yelp_interactions (Ok <$> records) = Ok (row_of <$> records).
Proof.
  induction 1 as [|data records Hdata _ IH]; [done|].
  rewrite !fmap_cons. by rewrite yelp_interactions_cons, Hdata, IH.
Qed.

(** C4, as the code has it: a record that lacks a required field, after
    records that have them all, makes the reading loop, and so the
    loader, raise [KeyError] for the first field it lacks, whatever
    follows; no table is built, so nothing is dropped and nothing after
    the record is read. On the complete records before it the loop had
    appended one row each, in file order. *)
Theorem missing_field_is_fatal (before : list (gmap string json))
    (data : gmap string json) (after : list (result (gmap string json)))
    (key : string) :
  Forall (λ d, missing_field d = None) before →
  missing_field data = Some key →
  yelp_interactions ((Ok <$> before) ++ Ok data :: after)
  = Raise (KeyError key)
  ∧ (∀ to_unix_seconds args_rating_threshold,
        load_yelp_data to_unix_seconds args_rating_threshold
          ((Ok <$> before) ++ Ok data :: after)
        = Raise (KeyError key))
  ∧ yelp_interactions (Ok <$> before) = Ok (row_of <$> before)
  ∧ length (row_of <$> before) = length before.
Proof.
  intros Hbefore Hdata.
  assert (yelp_interactions ((Ok <$> before) ++ Ok data :: after)
          = Raise (KeyError key)) as Hraise.
  { induction Hbefore as [|d before Hd _ IH].
    - rewrite fmap_nil, app_nil_l.
      by rewrite yelp_interactions_cons, Hdata.
    - rewrite fmap_cons, <- app_comm_cons.
      by rewrite yelp_interactions_cons, Hd, IH. }
  split_and!.
  - done.
  - intros. unfold load_yelp_data. by rewrite Hraise.
  - by apply yelp_interactions_complete.
  - apply length_fmap.
Qed.

(** ** The combination of the three splits *)

Lemma update_lookup {V} (d other : gmap Z V) (u : Z) :
  update d other !! u
  = match other !! u with
    | Some s => Some s
    | None => d !! u
    end.
Proof.
  unfold update. rewrite lookup_union.
  by destruct (other !! u), (d !! u).
Qed.

(** A user of several splits keeps the sequence of the latest split
    only. *)
Lemma combine_lookup (train_sequences valid_sequences test_sequences
    : gmap Z (list Z)) (u : Z) :
  foldl update ∅ [train_sequences; valid_sequences; test_sequences] !! u
  = match test_sequences !! u with
    | Some s => Some s
    | None => match valid_sequences !! u with
              | Some s => Some s
              | None => train_sequences !! u
              end
    end.
Proof.
  simpl. rewrite !update_lookup, lookup_empty.
  by destruct (test_sequences !! u), (valid_sequences !! u),
    (train_sequences !! u).
Qed.

End Builder.

(** * The builder at the sample inputs *)

Section BuilderSamples.

Import preprocess_letter_data ReviewRecords.

(** C4 fails as stated: of three review records the second lacks
    ['stars']; the loop raises [KeyError] there, and so does the loader,
    where the claim has the two other records loaded. *)
Lemma malformed_record_raises :
  missing_field (Examples.review_without_stars "u2" "b1" "2019-01-02")
  = Some "stars"
  ∧ yelp_interactions Examples.review_lines = Raise (KeyError "stars")
  ∧ (∀ to_unix_seconds args_rating_threshold,
        load_yelp_data to_unix_seconds args_rating_threshold
          Examples.review_lines
        = Raise (KeyError "stars"))
  ∧ yelp_interactions [Ok (Examples.review "u1" "b1" "2019-01-01");
                       Ok (Examples.review "u3" "b2" "2019-01-03")]
    = Ok [RawInteraction (JStr "u1") (JStr "b1") (JNum 5) (JStr "2019-01-01");
          RawInteraction (JStr "u3") (JStr "b2") (JNum 5) (JStr "2019-01-03")].
Proof.
  assert (yelp_interactions Examples.review_lines = Raise (KeyError "stars"))
    as Hraise by (vm_compute; reflexivity).
  split_and!; [by vm_compute|done| |by vm_compute].
  intros. unfold load_yelp_data. by rewrite Hraise.
Qed.

(** The three review records of [review_lines]: the second one raises. *)
Lemma missing_field_is_fatal_witness :
  Forall (λ d, missing_field d = None)
         [Examples.review "u1" "b1" "2019-01-01"]
  ∧ missing_field (Examples.review_without_stars "u2" "b1" "2019-01-02")
    = Some "stars"
  ∧ yelp_interactions Examples.review_lines = Raise (KeyError "stars").
Proof.
  assert (Forall (λ d, missing_field d = None)
                 [Examples.review "u1" "b1" "2019-01-01"]) as Hbefore
    by (apply Forall_cons; split; [by vm_compute|apply Forall_nil_2]).
  assert (missing_field (Examples.review_without_stars "u2" "b1" "2019-01-02")
          = Some "stars") as Hdata by (vm_compute; reflexivity).
  split; [done|]. split; [done|].
  apply (missing_field_is_fatal
           [Examples.review "u1" "b1" "2019-01-01"]
           (Examples.review_without_stars "u2" "b1" "2019-01-02")
           [Ok (Examples.review "u3" "b2" "2019-01-03")]
           "stars" Hbefore Hdata).
Defined.

(** The split points of 25 rows, as Python computes them: [int(25 * 0.7)]
    is 17 and [int(25 * (0.7 + 0.1))] is 20. *)
Lemma split_points_25 :
  int_of_float (float_mul (float_of_int 25) float_0_7) = 17
  ∧ int_of_float (float_mul (float_of_int 25)
                            (float_add float_0_7 float_0_1)) = 20.
Proof. by vm_compute. Qed.

(** C1 on the code: five users rate the same five items, 25 interactions
    that all survive the filters. The remapped user 3 has the five items
    0..4 in timestamp order, and [create_user_sequences] on the whole table
    says so; but the rows of that user fall into the train split (items 0
    and 1) and the valid split (items 2, 3, 4), and [main] keeps the
    sequence of the later split only: [inter.json] maps user 3 to
    [2, 3, 4]. *)
Theorem main_keeps_latest_split_only :
  filter_data Examples.table25 5 5 = Examples.table25
  ∧ item_id <$> sort_values_timestamp
       (filter (λ r, user_id r = 3)
               (create_remapped_data (filter_data Examples.table25 5 5)).1.1)
    = [0; 1; 2; 3; 4]
  ∧ create_user_sequences
      (create_remapped_data (filter_data Examples.table25 5 5)).1.1 !! 3
    = Some [0; 1; 2; 3; 4]
  ∧ main Examples.table25 5 5 !! 3 = Some [2; 3; 4]
  ∧ inter_json (main Examples.table25 5 5) !! "3" = Some [2; 3; 4].
Proof. split_and!; by vm_compute. Qed.

End BuilderSamples.

(** * The sequences of one table, and their combination *)

Section Sequences.

Import preprocess_letter_data.

Implicit Types (r : interaction) (df : list interaction) (t u : Z).

Lemma insert_by_timestamp_Permutation r df :
  insert_by_timestamp r df ≡ₚ r :: df.
Proof.
  induction df as [|r' df IH]; [done|]. simpl.
  destruct (timestamp r <=? timestamp r'); [done|].
  rewrite IH. apply perm_swap.
Qed.

Lemma sort_values_timestamp_Permutation df : sort_values_timestamp df ≡ₚ df.
Proof.
  induction df as [|r df IH]; [done|]. unfold sort_values_timestamp. simpl.
  rewrite insert_by_timestamp_Permutation. by apply perm_skip.
Qed.

Lemma insert_by_timestamp_sorted r df :
  StronglySorted (λ a b, timestamp a ≤ timestamp b) df →
  StronglySorted (λ a b, timestamp a ≤ timestamp b)
                 (insert_by_timestamp r df).
Proof.
  induction 1 as [|r' df Hsorted IH Hall]; simpl.
  { apply SSorted_cons; [apply SSorted_nil|apply Forall_nil_2]. }
  destruct (timestamp r <=? timestamp r') eqn:E.
  - apply Z.leb_le in E. apply SSorted_cons.
    + by apply SSorted_cons.
    + apply Forall_cons. split; [done|].
      eapply Forall_impl; [exact Hall|]. simpl. intros x Hx. lia.
  - apply Z.leb_gt in E. apply SSorted_cons; [done|].
    rewrite insert_by_timestamp_Permutation.
    apply Forall_cons. split; [lia|done].
Qed.

Lemma sort_values_timestamp_sorted df :
  StronglySorted (λ a b, timestamp a ≤ timestamp b)
                 (sort_values_timestamp df).
Proof.
  induction df as [|r df IH]; [apply SSorted_nil|].
  by apply insert_by_timestamp_sorted.
Qed.

Lemma elem_of_sorted_unique (xs : list Z) (x : Z) :
  x ∈ sorted_unique xs ↔ x ∈ xs.
Proof.
  unfold sorted_unique. rewrite merge_sort_Permutation.
  apply elem_of_remove_dups.
Qed.

Lemma foldl_insert_lookup (f : Z → list Z) (keys : list Z)
    (acc : gmap Z (list Z)) u :
  foldl (λ (m : gmap Z (list Z)) k, <[k := f k]> m) acc keys !! u
  = if decide (u ∈ keys) then Some (f u) else acc !! u.
Proof.
  revert acc. induction keys as [|k keys IH]; intros acc; cbn [foldl].
  { case_decide as H; [by apply elem_of_nil in H|done]. }
  rewrite IH.
  destruct (decide (u ∈ keys)) as [Hin|Hin];
    destruct (decide (u ∈ k :: keys)) as [Hin'|Hin']; try done.
  - destruct Hin'. by apply list_elem_of_further.
  - apply elem_of_cons in Hin' as [->|?]; [|done].
    by rewrite lookup_insert_eq.
  - rewrite lookup_insert_ne; [done|]. intros ->. apply Hin'.
    apply list_elem_of_here.
Qed.

(** X22: on one table [create_user_sequences] is complete: a user has a
    sequence exactly when the table has a row of the user, and the
    sequence is the item ids of all the rows of that user, each row once,
    in ascending order of their timestamps. (The order of rows with equal
    timestamps is left to pandas' sort.) *)
Theorem create_user_sequences_complete df u :
  (u ∈ user_id <$> df ↔ is_Some (create_user_sequences df !! u))
  ∧ ∀ s,
      create_user_sequences df !! u = Some s →
      ∃ rows,
        s = item_id <$> rows
        ∧ rows ≡ₚ filter (λ r, user_id r = u) df
        ∧ StronglySorted (λ a b, timestamp a ≤ timestamp b) rows.
Proof.
  assert (create_user_sequences df !! u
          = if decide (u ∈ user_id <$> df)
            then Some (item_id <$> sort_values_timestamp
                         (filter (λ r, user_id r = u) df))
            else None) as Hlook.
  { unfold create_user_sequences.
    rewrite (foldl_insert_lookup
               (λ u, item_id <$> sort_values_timestamp
                       (filter (λ r, user_id r = u) df))).
    rewrite lookup_empty.
    destruct (decide (u ∈ sorted_unique (user_id <$> df))) as [H|H];
      destruct (decide (u ∈ user_id <$> df)) as [H'|H']; try done.
    + destruct H'. by apply (elem_of_sorted_unique (user_id <$> df) u).
    + destruct H. by apply elem_of_sorted_unique. }
  rewrite Hlook. split.
  - case_decide as Hu.
    + split; [eauto|done].
    + split; [done|]. intros [s Hs]. done.
  - intros s. case_decide; [|done]. intros [= <-].
    exists (sort_values_timestamp (filter (λ r, user_id r = u) df)).
    split_and!; [done| |].
    + apply sort_values_timestamp_Permutation.
    + apply sort_values_timestamp_sorted.
Qed.

(** [main] maps a user to the sequence of the latest of the three parts of
    the table (test, else valid, else train) that holds a row of the user:
    the sequences of the earlier parts are replaced, not extended. *)
Theorem main_latest_part df args_min_interactions args_min_items u :
  main df args_min_interactions args_min_items !! u
  = match create_user_sequences
            (create_absolute_timestamp_split
               (create_remapped_data
                  (filter_data df args_min_interactions args_min_items)).1.1
               float_0_7 float_0_1).2 !! u with
    | Some s => Some s
    | None =>
        match create_user_sequences
                (create_absolute_timestamp_split
                   (create_remapped_data
                      (filter_data df args_min_interactions
                                   args_min_items)).1.1
                   float_0_7 float_0_1).1.2 !! u with
        | Some s => Some s
        | None =>
            create_user_sequences
              (create_absolute_timestamp_split
                 (create_remapped_data
                    (filter_data df args_min_interactions
                                 args_min_items)).1.1
                 float_0_7 float_0_1).1.1 !! u
        end
    end.
Proof.
  unfold main.
  destruct (create_remapped_data _) as [[df' um] im].
  cbn [fst snd].
  destruct (create_absolute_timestamp_split df' float_0_7 float_0_1)
    as [[train_df valid_df] test_df].
  cbn [fst snd foldl].
  rewrite !update_lookup, lookup_empty.
  by destruct (create_user_sequences test_df !! u),
    (create_user_sequences valid_df !! u),
    (create_user_sequences train_df !! u).
Qed.

End Sequences.


(** * Further properties of the generator *)

Section GeneratorRuns.

Variable MAX : nat.
Variable inexact : Z → DataFrame → result (gmap field tensor).
Implicit Types (self_inters : list (Z * list Z)) (uid : Z) (S : list Z).

(** X1: without any item (an artifact without users included) the
    generator raises [ValueError], from [max] of the empty item set, and
    the reader is not built, whatever the ids. On ids that the tensors hold
    exactly this is the only failure: the generator raises [ValueError]
    exactly when no user has an item, and returns exactly when some user
    has one. *)
Theorem generator_raises_without_items self_inters :
  ((∀ u S, (u, S) ∈ processed self_inters → S = []) →
   _process_letter_data MAX inexact self_inters = Raise ValueError
   ∧ ∀ flag index item,
       __init__ MAX inexact flag (Artifact self_inters index item)
       = Raise ValueError)
  ∧ (exact_ids (processed self_inters) = true →
     (_process_letter_data MAX inexact self_inters = Raise ValueError
      ↔ ∀ u S, (u, S) ∈ processed self_inters → S = [])
     ∧ ((∃ out, _process_letter_data MAX inexact self_inters = Ok out)
        ↔ ∃ u S x, (u, S) ∈ processed self_inters ∧ x ∈ S)).
Proof.
  pose proof (process_no_item MAX inexact self_inters) as Hfail.
  split.
  { intros Hempty. split; [by apply Hfail|].
    intros flag index item. unfold __init__. simpl.
    by rewrite (Hfail Hempty). }
  intros Hex.
  assert ((∃ u S x, (u, S) ∈ processed self_inters ∧ x ∈ S) →
          ∃ out, _process_letter_data MAX inexact self_inters = Ok out)
    as Hok.
  { intros (u & S & x & HuS & Hx).
    destruct (process_ok MAX inexact self_inters u S x Hex HuS Hx)
      as (m & d & Hd & _).
    eauto. }
  split.
  - split; [|done]. intros Hraise u S HuS.
    destruct S as [|x S]; [done|].
    destruct Hok as [out Hout].
    { exists u, (x :: S), x. split; [done|apply list_elem_of_here]. }
    congruence.
  - split; [|done]. intros [out Hout].
    destruct (decide (Forall (λ us, us.2 = []) (processed self_inters)))
      as [Hall|Hsome].
    + rewrite Hfail in Hout; [done|]. intros u S HuS.
      by apply (proj1 (Forall_forall _ _) Hall (u, S)).
    + apply not_Forall_Exists in Hsome; [|apply _].
      apply Exists_exists in Hsome as ([u S] & HuS & Hne). simpl in Hne.
      destruct S as [|x S]; [done|].
      exists u, (x :: S), x. split; [done|apply list_elem_of_here].
Qed.

(** ** The order of the rows *)

Lemma user_column_valid (users : list (Z * list Z)) :
  row_USER_ID <$> all_of valid_of users
  = (filter (λ us, (3 ≤ length us.2)%nat) users).*1.
Proof.
  unfold all_of. induction users as [|[u S] users IH]; [done|].
  rewrite bind_cons, fmap_app, IH, filter_cons. simpl.
  destruct (decide (3 ≤ length S)%nat) as [HL|HL].
  - by destruct (valid_of_long u S HL) as (c & v & t & _ & _ & -> & _).
  - by destruct (valid_of_short u S) as [-> _]; [lia|].
Qed.

Lemma user_column_test (users : list (Z * list Z)) :
  row_USER_ID <$> all_of test_of users
  = (filter (λ us, (3 ≤ length us.2)%nat) users).*1.
Proof.
  unfold all_of. induction users as [|[u S] users IH]; [done|].
  rewrite bind_cons, fmap_app, IH, filter_cons. simpl.
  destruct (decide (3 ≤ length S)%nat) as [HL|HL].
  - by destruct (valid_of_long u S HL) as (c & v & t & _ & _ & _ & -> & _).
  - by destruct (valid_of_short u S) as [_ ->]; [lia|].
Qed.

Lemma user_column_train_of uid S :
  row_USER_ID <$> train_of uid S = replicate (length S - 3) uid.
Proof.
  rewrite <- (length_train_of uid S).
  assert (∀ rows : list row,
            (∀ r, r ∈ rows → row_USER_ID r = uid) →
            row_USER_ID <$> rows = replicate (length rows) uid) as H.
  { induction rows as [|r rows IH]; intros Hr; [done|]. csimpl.
    rewrite (Hr r) by apply list_elem_of_here.
    rewrite IH; [done|]. intros r' Hr'. by apply Hr, list_elem_of_further. }
  apply H. intros r. apply train_of_owner.
Qed.

Lemma user_column_train (users : list (Z * list Z)) :
  row_USER_ID <$> all_of train_of users
  = filter (λ us, (3 ≤ length us.2)%nat) users
    ≫= (λ us, replicate (length us.2 - 3) us.1).
Proof.
  unfold all_of. induction users as [|[u S] users IH]; [done|].
  rewrite bind_cons, fmap_app, IH, filter_cons, user_column_train_of. simpl.
  destruct (decide (3 ≤ length S)%nat) as [HL|HL]; [done|].
  by replace (length S - 3)%nat with 0%nat by lia.
Qed.

Lemma user_column_encode n (rows : list row) :
  user_id <$> (encode MAX n <$> rows) = row_USER_ID <$> rows.
Proof. by rewrite <- list_fmap_compose. Qed.

Lemma length_bind_replicate (users : list (Z * list Z)) :
  length (users ≫= (λ us, replicate (length us.2 - 3) us.1))
  = sum_list ((λ us, (length us.2 - 3)%nat) <$> users).
Proof.
  induction users as [|us users IH]; [done|].
  rewrite bind_cons, length_app, length_replicate, IH. done.
Qed.

(** X2: on ids that the tensors hold exactly, the rows of a split are in
    user-major order, the users in the order of the artifact: the valid and the test split have one row per
    user with at least three items, and the train split has the [L-3] rows
    of each such user in one block. So valid and test have as many rows as
    there are such users, and train has the sum of their [L-3]. *)
Theorem rows_in_user_order self_inters u0 S0 x0 :
  exact_ids (processed self_inters) = true →
  (u0, S0) ∈ processed self_inters → x0 ∈ S0 →
  ∃ nu ni d,
    _process_letter_data MAX inexact self_inters = Ok (nu, ni, d)
    ∧ user_id <$> split_rows d "valid"
      = (filter (λ us, (3 ≤ length us.2)%nat) (processed self_inters)).*1
    ∧ user_id <$> split_rows d "test"
      = (filter (λ us, (3 ≤ length us.2)%nat) (processed self_inters)).*1
    ∧ user_id <$> split_rows d "train"
      = filter (λ us, (3 ≤ length us.2)%nat) (processed self_inters)
        ≫= (λ us, replicate (length us.2 - 3) us.1)
    ∧ length (split_rows d "valid") = length (split_rows d "test")
    ∧ length (split_rows d "train")
      = sum_list ((λ us, (length us.2 - 3)%nat)
                    <$> filter (λ us, (3 ≤ length us.2)%nat)
                          (processed self_inters)).
Proof.
  intros Hex Hin Hx.
  destruct (process_ok MAX inexact self_inters u0 S0 x0 Hex Hin Hx)
    as (m & d & Hd & _ & _ & Htr & Hva & Hte).
  exists (Py.len (processed self_inters) + 1), (m + 2), d.
  split; [done|].
  rewrite (split_rows_lookup MAX _ _ d "train" Htr),
    (split_rows_lookup MAX _ _ d "valid" Hva),
    (split_rows_lookup MAX _ _ d "test" Hte).
  rewrite !user_column_encode, user_column_valid, user_column_test,
    user_column_train.
  split_and!; try done.
  - rewrite !length_fmap.
    rewrite <- (length_fmap row_USER_ID (all_of valid_of _)),
      <- (length_fmap row_USER_ID (all_of test_of _)).
    by rewrite user_column_valid, user_column_test.
  - rewrite <- length_bind_replicate, <- user_column_train.
    by rewrite !length_fmap.
Qed.

(** ** The shape of a table *)

Lemma length_pad_truncated (n : Z) (ctx : list Z) :
  let x := Py.slice_from ctx (- Z.of_nat MAX) in
  length (pad x (Z.of_nat MAX - Py.len x) n) = MAX.
Proof.
  destruct (decide (0 < MAX)%nat) as [HM|HM].
  - simpl. rewrite slice_from_last by done. unfold pad, Py.len.
    rewrite length_drop.
    destruct (_ <? 0) eqn:E; [apply Z.ltb_lt in E; lia|].
    rewrite length_app, length_replicate, length_drop. lia.
  - assert (MAX = 0%nat) as -> by lia. simpl. rewrite slice_from_zero.
    unfold pad, Py.len. destruct (_ <? 0) eqn:E.
    + rewrite length_drop. lia.
    + apply Z.ltb_ge in E. rewrite length_app, length_replicate. lia.
Qed.

(** X3: on ids that the tensors hold exactly, a split with at least one
    row is a table of exactly the four columns, each with one entry per row, and every padded context has
    [MAX_ITEM_SEQ_LEN] entries, whatever the constant: the contexts stack to
    a rectangular tensor. *)
Theorem nonempty_split_is_rectangular self_inters u0 S0 x0 :
  exact_ids (processed self_inters) = true →
  (u0, S0) ∈ processed self_inters → x0 ∈ S0 →
  ∃ nu ni d train valid test,
    _process_letter_data MAX inexact self_inters = Ok (nu, ni, d)
    ∧ split_users (processed self_inters) ([], [], [])
      = Ok (train, valid, test)
    ∧ ∀ name rows,
        (name, rows) ∈ splits train valid test → rows ≠ [] →
        ∃ us ts cs ls,
          d !! name
          = Some (<[ITEM_SEQ_LEN := Tensor1 ls]>
                    (<[ITEM_ID := Tensor1 ts]>
                       (<[USER_ID := Tensor1 us]>
                          (<[ITEM_SEQ := Tensor2 cs]> ∅))))
          ∧ length us = length rows ∧ length ts = length rows
          ∧ length cs = length rows ∧ length ls = length rows
          ∧ Forall (λ c, length c = MAX) cs.
Proof.
  intros Hex Hin Hx.
  destruct (generator_tables MAX inexact self_inters u0 S0 x0 Hex Hin Hx)
    as (m & d & train & valid & test & Hd & Hrun & _ & _ & Htab).
  exists (Py.len (processed self_inters) + 1), (m + 2), d, train, valid, test.
  split_and!; [done..|].
  intros name rows Hsplit Hne. destruct (Htab name rows Hsplit) as (-> & _).
  destruct rows as [|r rows]; [done|].
  unfold table_of, split_frame.
  cbn [df_USER_ID df_ITEM_ID df_ITEM_SEQ df_ITEM_SEQ_LEN].
  eexists _, _, _, _. split; [done|].
  rewrite !length_fmap. split_and!; try done.
  apply Forall_fmap, Forall_fmap, Forall_fmap, Forall_forall.
  intros r' _. apply length_pad_truncated.
Qed.

End GeneratorRuns.


(** ** Contexts and targets *)

Section ContextsAndTargets.

Implicit Types (self_inters : list (Z * list Z)) (uid : Z) (S : list Z).

Lemma train_of_chain uid S (k : nat) r r' :
  train_of uid S !! k = Some r → train_of uid S !! (k + 1)%nat = Some r' →
  row_ITEM_SEQ r' = row_ITEM_SEQ r ++ [row_ITEM_ID r].
Proof.
  unfold train_of. case_match eqn:E; [done|].
  rewrite !list_lookup_fmap.
  set (P := take (length S - 2) S).
  intros (i & Hi & ->)%fmap_Some (i' & Hi' & ->)%fmap_Some.
  apply lookup_seqZ in Hi as [-> Hk], Hi' as [-> Hk']. simpl.
  assert (P !! Z.to_nat (1 + Z.of_nat k)
          = Some (P !!! Z.to_nat (1 + Z.of_nat k))) as Hlook.
  { apply list_lookup_lookup_total_lt. unfold Py.len in Hk'. lia. }
  rewrite <- (take_S_r P _ _ Hlook). f_equal. lia.
Qed.

(** X4: in every row of a user, train, valid or test, the context followed
    by the target is a prefix of the user's sequence and the context has at
    least one item: the target is the item that follows the context, no
    later item is in the context, and the first item of a sequence is never
    a target. Within the train rows of a user each context is the previous
    context followed by the previous target. *)
Theorem context_is_history self_inters uid S :
  (uid, S) ∈ processed self_inters →
  ∃ train valid test,
    split_users (processed self_inters) ([], [], [])
    = Ok (train, valid, test)
    ∧ (∀ r, r ∈ rows_of uid train ++ rows_of uid valid ++ rows_of uid test →
            (row_ITEM_SEQ r ++ [row_ITEM_ID r]) `prefix_of` S
            ∧ (1 ≤ length (row_ITEM_SEQ r))%nat)
    ∧ ∀ (k : nat) r r',
        rows_of uid train !! k = Some r →
        rows_of uid train !! (k + 1)%nat = Some r' →
        row_ITEM_SEQ r' = row_ITEM_SEQ r ++ [row_ITEM_ID r].
Proof.
  intros Hin.
  destruct (users_rows self_inters uid S Hin)
    as (train & valid & test & Hrun & Htr & Hva & Hte).
  exists train, valid, test. rewrite Htr, Hva, Hte.
  split_and!; [done| |].
  - intros r [Hr|Hr]%elem_of_app.
    + split; [by apply (train_of_prefix uid)|by apply (train_of_row uid S)].
    + split; [by apply (held_out_prefix uid)|].
      apply elem_of_app in Hr as [Hr|Hr].
      * by apply (valid_of_row uid S).
      * by apply (test_of_row uid S).
  - apply train_of_chain.
Qed.

Lemma filter_pad_prefix (pad_item : Z) (n : nat) (real : list Z) :
  Forall (λ x, x ≠ pad_item) real →
  filter (λ x, x ≠ pad_item) (replicate n pad_item ++ real) = real.
Proof.
  intros Hreal. rewrite filter_app.
  rewrite (filter_drop (λ x, x ≠ pad_item) (replicate n pad_item)).
  - simpl. apply filter_keep. by apply Forall_forall.
  - intros x [-> _]%elem_of_replicate. tauto.
Qed.

(** X5: with a positive [MAX_ITEM_SEQ_LEN] and ids that the tensors hold
    exactly (the pad value, the greatest item id plus 1, then passes
    through a double unchanged), no real item of a context equals
    [PAD_ITEM = n_items - 1], so the padding can be undone: a padded
    context is [MAX_ITEM_SEQ_LEN - context_length] copies of [PAD_ITEM]
    followed by its entries that differ from [PAD_ITEM], and there are
    [context_length] of those. *)
Theorem padding_can_be_undone (MAX : nat)
    (inexact : Z → DataFrame → result (gmap field tensor))
    self_inters u0 S0 x0 :
  (0 < MAX)%nat → exact_ids (processed self_inters) = true →
  (u0, S0) ∈ processed self_inters → x0 ∈ S0 →
  ∃ nu ni d,
    _process_letter_data MAX inexact self_inters = Ok (nu, ni, d)
    ∧ ∀ name s,
        name ∈ ["train"; "valid"; "test"] → s ∈ split_rows d name →
        padded_context s
        = replicate (MAX - Z.to_nat (context_length s)) (ni - 1)
          ++ filter (λ x, x ≠ ni - 1) (padded_context s)
        ∧ Py.len (filter (λ x, x ≠ ni - 1) (padded_context s))
          = context_length s.
Proof.
  intros HM Hex Hin Hx.
  destruct (process_ok MAX inexact self_inters u0 S0 x0 Hex Hin Hx)
    as (m & d & Hd & _ & Hle & Htr & Hva & Hte).
  exists (Py.len (processed self_inters) + 1), (m + 2), d.
  split; [done|]. intros name s Hname Hs.
  assert (∃ r, s = encode MAX (m + 2) r
               ∧ ∀ x, x ∈ row_ITEM_SEQ r → x ≤ m) as (r & -> & Hr).
  { assert (∀ f rows,
              (∀ u S r x, r ∈ f u S → x ∈ row_ITEM_SEQ r → x ∈ S) →
              rows = all_of f (processed self_inters) →
              s ∈ encode MAX (m + 2) <$> rows →
              ∃ r, s = encode MAX (m + 2) r
                   ∧ ∀ x, x ∈ row_ITEM_SEQ r → x ≤ m) as Hone.
    { intros f rows Hf -> (r & -> & Hin_r)%list_elem_of_fmap.
      exists r. split; [done|]. intros x Hxr.
      destruct (all_of_context f _ r x Hf Hin_r Hxr) as (u & S & HuS & HxS).
      by apply (Hle u S). }
    apply elem_of_cons in Hname as [->|Hname];
      [|apply elem_of_cons in Hname as [->|Hname];
        [|apply list_elem_of_singleton in Hname as ->]].
    - rewrite (split_rows_lookup MAX _ _ d "train" Htr) in Hs.
      by apply (Hone train_of _ train_of_context eq_refl).
    - rewrite (split_rows_lookup MAX _ _ d "valid" Hva) in Hs.
      by apply (Hone valid_of _ valid_of_context eq_refl).
    - rewrite (split_rows_lookup MAX _ _ d "test" Hte) in Hs.
      by apply (Hone test_of _ test_of_context eq_refl). }
  rewrite encode_positive by done. simpl. rewrite Nat2Z.id.
  set (ctx := row_ITEM_SEQ r) in *.
  assert (Forall (λ x, x ≠ m + 2 - 1)
                 (drop (length ctx - length ctx `min` MAX) ctx)) as Hreal.
  { apply Forall_forall. intros x Hxd.
    assert (x ∈ ctx) as Hxc by (by apply (subseteq_drop _ ctx) in Hxd).
    specialize (Hr x Hxc). lia. }
  rewrite filter_pad_prefix by done. split; [done|].
  unfold Py.len. rewrite length_drop. lia.
Qed.

End ContextsAndTargets.

(** ** Users whose keys denote the same integer *)

Section MergedUsers.

Lemma elem_of_set (d : PyDict.t Z (list Z)) (k u : Z) (v S : list Z) :
  NoDup (PyDict.keys d) →
  (u, S) ∈ PyDict.set k v d
  ↔ (u = k ∧ S = v) ∨ (u ≠ k ∧ (u, S) ∈ d).
Proof.
  unfold PyDict.keys. induction d as [|[k' v'] d IH]; intros Hnd; simpl.
  { rewrite list_elem_of_singleton, elem_of_nil. split.
    - intros [= -> ->]. by left.
    - intros [[-> ->]|[_ []]]. done. }
  apply NoDup_cons in Hnd as [Hk' Hnd].
  destruct (decide (k' = k)) as [->|Hne].
  - rewrite !elem_of_cons. split.
    + intros [[= -> ->]|Hin]; [by left|]. right. split; [|by right].
      intros ->. apply Hk', list_elem_of_fmap. by exists (k, S).
    + intros [[-> ->]|[Hne [[= -> _]|Hin]]]; [by left|done|by right].
  - rewrite !elem_of_cons, IH by done. split.
    + intros [[= -> ->]|[[-> ->]|[? ?]]]; [right|by left|right].
      * split; [done|by left].
      * split; [done|by right].
    + intros [[-> ->]|[? [[= -> ->]|?]]]; [right; by left|by left|].
      right. by right.
Qed.

Lemma of_items_snoc (kvs : list (Z * list Z)) (k : Z) (v : list Z) :
  PyDict.of_items (kvs ++ [(k, v)]) = PyDict.set k v (PyDict.of_items kvs).
Proof. unfold PyDict.of_items. by rewrite foldl_snoc. Qed.

(** X6: when several entries of [inter.json] have keys that denote the
    same integer, the reader keeps one user for them, with the items of
    the last such entry: a pair is in [processed_inters] exactly when it
    is an entry of the file that no later entry with that user id
    follows. *)
Theorem merged_users_keep_last_entry (self_inters : list (Z * list Z))
    (u : Z) (S : list Z) :
  (u, S) ∈ processed self_inters
  ↔ ∃ before after,
      self_inters = before ++ (u, S) :: after ∧ u ∉ after.*1.
Proof.
  unfold processed.
  induction self_inters as [|[k v] kvs IH] using rev_ind.
  { split; [by intros ?%elem_of_nil|].
    intros (before & after & Heq & _). by destruct before. }
  rewrite of_items_snoc, elem_of_set by apply NoDup_keys_of_items.
  rewrite IH. split.
  - intros [[-> ->]|[Hne (before & after & -> & Hafter)]].
    + exists kvs, []. split; [done|]. apply not_elem_of_nil.
    + exists before, (after ++ [(k, v)]).
      split; [by rewrite <- (assoc_L (++))|].
      rewrite fmap_app, elem_of_app. csimpl.
      rewrite list_elem_of_singleton. tauto.
  - intros (before & after & Heq & Hafter).
    destruct after as [|[k' v'] after _] using rev_ind.
    + apply app_inj_tail in Heq as [-> [= -> ->]]. by left.
    + rewrite app_comm_cons, (assoc_L (++)) in Heq.
      apply app_inj_tail in Heq as [-> [= <- <-]].
      rewrite fmap_app, elem_of_app in Hafter. csimpl in Hafter.
      rewrite list_elem_of_singleton in Hafter. right. split; [tauto|].
      exists before, after. split; [done|tauto].
Qed.

End MergedUsers.

(** ** The lookups on any list of ids *)

(** X7: the token lookup depends on the queried ids as a set: the ids it
    returns are the queried ids whose string is a key of the index, and the
    lookup of two lists put together is the union of their lookups (no id,
    none returned; an id asked twice, returned once). *)
Theorem token_lookup_composes (self : reader) (ids ids' : list Z) :
  dom (get_item_tokens self ids)
  = filter (λ i, Py.str i ∈ dom (indices self)) (list_to_set ids : gset Z)
  ∧ get_item_tokens self (ids ++ ids')
    = get_item_tokens self ids ∪ get_item_tokens self ids'
  ∧ get_item_tokens self [] = ∅.
Proof.
  assert (∀ l i, get_item_tokens self l !! i
                 = if decide (i ∈ l) then indices self !! Py.str i
                   else None) as Hlook.
  { intros l i. unfold get_item_tokens. rewrite lookup_loop, lookup_empty.
    case_decide; [|done]. by destruct (indices self !! Py.str i). }
  split_and!; [| |done].
  - apply set_eq. intros i.
    rewrite elem_of_dom, Hlook, elem_of_filter, elem_of_list_to_set,
      elem_of_dom.
    case_decide; [tauto|]. split; [by intros [? ?]|tauto].
  - apply map_eq. intros i. rewrite lookup_union, !Hlook.
    destruct (decide (i ∈ ids)) as [H1|H1];
      destruct (decide (i ∈ ids')) as [H2|H2];
      destruct (decide (i ∈ ids ++ ids')) as [H3|H3];
      try (destruct H3; apply elem_of_app; tauto);
      try (apply elem_of_app in H3; tauto);
      by destruct (indices self !! Py.str i).
Qed.


(** * Further properties of the builder *)

Section Filtering.

Import preprocess_letter_data.

Implicit Types (r : interaction) (df : list interaction).

Lemma value_count_filter (col : interaction → Z) (P : interaction → Prop)
    `{∀ r, Decision (P r)} df x :
  (∀ r, r ∈ df → col r = x → P r) →
  value_count col (filter P df) x = value_count col df x.
Proof.
  intros HP. unfold value_count. f_equal.
  induction df as [|r df IH]; [done|].
  assert (filter (λ r, col r = x) (filter P df) = filter (λ r, col r = x) df)
    as IH' by (apply IH; intros r' Hr'; by apply HP, list_elem_of_further).
  rewrite (filter_cons P r). destruct (decide (P r)) as [Hr|Hr].
  - rewrite !(filter_cons (λ r, col r = x) r). by rewrite IH'.
  - rewrite (filter_cons (λ r, col r = x) r), IH'.
    destruct (decide (col r = x)) as [Hx|Hx]; [|done].
    destruct Hr. by apply HP; [apply list_elem_of_here|].
Qed.

Lemma value_count_member (col : interaction → Z) df r :
  r ∈ df → 1 ≤ value_count col df (col r).
Proof.
  intros Hr. unfold value_count, Py.len.
  assert (r ∈ filter (λ r', col r' = col r) df) as Hin
    by (by apply list_elem_of_filter).
  destruct (filter _ df); [by apply elem_of_nil in Hin|]. simpl. lia.
Qed.

(** X8: [filter_data] keeps rows in their order and drops the others;
    every item of its result has at least [min_items] rows in the result,
    and every user of its result had at least [min_interactions] rows in
    the input; thresholds of at most 1 keep every row. *)
Theorem filter_data_guarantees df (min_interactions min_items : Z) :
  filter_data df min_interactions min_items `sublist_of` df
  ∧ (∀ r, r ∈ filter_data df min_interactions min_items →
          min_items
          ≤ value_count item_id (filter_data df min_interactions min_items)
              (item_id r)
          ∧ min_interactions ≤ value_count user_id df (user_id r))
  ∧ (min_interactions ≤ 1 → min_items ≤ 1 →
     filter_data df min_interactions min_items = df).
Proof.
  unfold filter_data.
  set (users := filter (λ r, min_interactions
                             ≤ value_count user_id df (user_id r)) df).
  split_and!.
  - transitivity users; apply sublist_filter.
  - intros r [Hitem [Huser _]%list_elem_of_filter]%list_elem_of_filter.
    split; [|done].
    rewrite value_count_filter; [done|].
    intros r' _ Heq. by rewrite Heq.
  - intros Hu Hi.
    assert (users = df) as ->.
    { apply filter_keep. intros r Hr.
      pose proof (value_count_member user_id df r Hr). lia. }
    apply filter_keep. intros r Hr.
    pose proof (value_count_member item_id df r Hr). lia.
Qed.

(** X9: [filter_data] is a single pass: its result can hold a user with
    fewer than [min_interactions] rows, and filtering the result again
    then drops more rows. Here user 1 has two rows, one of them on an item
    that only this user rated. *)
Theorem filter_data_is_single_pass :
  ∃ df (min_interactions min_items : Z) r,
    r ∈ filter_data df min_interactions min_items
    ∧ value_count user_id (filter_data df min_interactions min_items)
        (user_id r) < min_interactions
    ∧ filter_data (filter_data df min_interactions min_items)
        min_interactions min_items
      ≠ filter_data df min_interactions min_items.
Proof.
  exists [Interaction 1 10 5 1; Interaction 1 11 5 2;
          Interaction 2 10 5 3; Interaction 2 10 5 4], 2, 2,
    (Interaction 1 10 5 1).
  split_and!; [vm_compute; apply list_elem_of_here|by vm_compute|].
  by vm_compute.
Qed.

End Filtering.

Section Remapping.

Import preprocess_letter_data.

Implicit Types (xs : list Z) (df : list interaction).

Lemma sorted_unique_NoDup xs : NoDup (sorted_unique xs).
Proof.
  unfold sorted_unique. rewrite merge_sort_Permutation.
  apply NoDup_remove_dups.
Qed.

Lemma sorted_unique_sorted xs : StronglySorted Z.le (sorted_unique xs).
Proof. apply StronglySorted_merge_sort; apply _. Qed.

(** Later positions of [sorted(unique)] hold greater values. *)
Lemma sorted_unique_increasing xs (i j : nat) x y :
  sorted_unique xs !! i = Some x → sorted_unique xs !! j = Some y →
  (i < j)%nat → x < y.
Proof.
  pose proof (sorted_unique_NoDup xs) as Hnd.
  pose proof (sorted_unique_sorted xs) as Hs.
  revert Hnd Hs. generalize (sorted_unique xs). intros l Hnd Hs.
  intros Hi Hj Hij.
  assert (x ≠ y) as Hne.
  { intros ->. pose proof (NoDup_lookup l i j y Hnd Hi Hj). lia. }
  enough (x ≤ y) by lia.
  rewrite <- (take_drop j l) in Hs.
  apply (StronglySorted_app_1_elem_of Z.le (take j l) (drop j l)); [done| |].
  - apply list_elem_of_lookup. exists i. by rewrite lookup_take_lt.
  - apply list_elem_of_lookup. exists 0%nat.
    by rewrite lookup_drop, Nat.add_0_r.
Qed.

Lemma enumerate_map_lookup xs x (i : Z) :
  NoDup xs →
  enumerate_map xs !! x = Some i ↔ 0 ≤ i ∧ xs !! Z.to_nat i = Some x.
Proof.
  intros Hnd. unfold enumerate_map, Py.len.
  rewrite <- elem_of_list_to_map.
  2:{ rewrite fst_zip; [done|]. rewrite length_seqZ. lia. }
  rewrite list_elem_of_lookup. split.
  - intros [k Hk]. apply lookup_zip_with_Some in Hk
      as (x' & i' & [= <- <-] & Hx & Hi).
    apply lookup_seqZ in Hi as [-> Hlt].
    split; [lia|]. by rewrite Z.add_0_l, Nat2Z.id.
  - intros [Hi Hx]. exists (Z.to_nat i).
    apply lookup_zip_with_Some. exists x, i. split_and!; [done..|].
    apply lookup_seqZ. apply lookup_lt_Some in Hx. lia.
Qed.

(** The map of [create_remapped_data] for one column. *)
Lemma enumerate_sorted_unique xs :
  let m := enumerate_map (sorted_unique xs) in
  let n := Py.len (sorted_unique xs) in
  (∀ x, x ∈ xs ↔ ∃ i, m !! x = Some i)
  ∧ (∀ x i, m !! x = Some i → 0 ≤ i < n)
  ∧ (∀ i, 0 ≤ i < n → ∃ x, x ∈ xs ∧ m !! x = Some i)
  ∧ (∀ x y i j, m !! x = Some i → m !! y = Some j → (x < y ↔ i < j)).
Proof.
  intros m n. unfold m, n, Py.len.
  pose proof (sorted_unique_NoDup xs) as Hnd.
  split_and!.
  - intros x. rewrite <- elem_of_sorted_unique, list_elem_of_lookup. split.
    + intros [k Hk]. exists (Z.of_nat k).
      apply enumerate_map_lookup; [done|]. split; [lia|].
      by rewrite Nat2Z.id.
    + intros [i [_ Hi]%enumerate_map_lookup]; [eauto|done].
  - intros x i [Hi Hx%lookup_lt_Some]%enumerate_map_lookup; [lia|done].
  - intros i Hi.
    destruct (lookup_lt_is_Some_2 (sorted_unique xs) (Z.to_nat i))
      as [x Hx]; [lia|].
    exists x. split.
    + apply elem_of_sorted_unique, list_elem_of_lookup. eauto.
    + apply enumerate_map_lookup; [done|]. split; [lia|done].
  - intros x y i j [Hi Hx]%enumerate_map_lookup [Hj Hy]%enumerate_map_lookup;
      [|done..].
    split.
    + intros Hxy.
      destruct (Z.lt_trichotomy i j) as [?|[->|Hji]];
        [done|assert (x = y) by congruence; lia|].
      pose proof (sorted_unique_increasing xs _ _ _ _ Hy Hx). lia.
    + intros Hij. apply (sorted_unique_increasing xs _ _ _ _ Hx Hy). lia.
Qed.

(** X10: [create_remapped_data] numbers the users (and the items) of the
    table densely from 0 in ascending order of their identifiers: an
    identifier has a number exactly when it occurs in the table, the
    numbers are the integers below the count of distinct identifiers, each
    one used, and a smaller identifier gets a smaller number. The table
    keeps its rows in order, with the identifiers replaced by their numbers
    and the ratings and timestamps unchanged. *)
Theorem remapping_is_dense_and_monotone df :
  let '(df', user_id_map, item_id_map) := create_remapped_data df in
  let n_users := Py.len (sorted_unique (user_id <$> df)) in
  let n_items := Py.len (sorted_unique (item_id <$> df)) in
  (∀ u, u ∈ user_id <$> df ↔ ∃ i, user_id_map !! u = Some i)
  ∧ (∀ u i, user_id_map !! u = Some i → 0 ≤ i < n_users)
  ∧ (∀ i, 0 ≤ i < n_users →
          ∃ u, u ∈ user_id <$> df ∧ user_id_map !! u = Some i)
  ∧ (∀ u u' i i', user_id_map !! u = Some i → user_id_map !! u' = Some i' →
                  (u < u' ↔ i < i'))
  ∧ (∀ x, x ∈ item_id <$> df ↔ ∃ i, item_id_map !! x = Some i)
  ∧ (∀ x i, item_id_map !! x = Some i → 0 ≤ i < n_items)
  ∧ (∀ i, 0 ≤ i < n_items →
          ∃ x, x ∈ item_id <$> df ∧ item_id_map !! x = Some i)
  ∧ (∀ x x' i i', item_id_map !! x = Some i → item_id_map !! x' = Some i' →
                  (x < x' ↔ i < i'))
  ∧ length df' = length df
  ∧ ∀ (k : nat) r,
      df !! k = Some r →
      ∃ r', df' !! k = Some r'
            ∧ user_id_map !! user_id r = Some (user_id r')
            ∧ item_id_map !! item_id r = Some (item_id r')
            ∧ rating r' = rating r ∧ timestamp r' = timestamp r.
Proof.
  unfold create_remapped_data.
  destruct (enumerate_sorted_unique (user_id <$> df)) as (U1 & U2 & U3 & U4).
  destruct (enumerate_sorted_unique (item_id <$> df)) as (I1 & I2 & I3 & I4).
  split_and!; try done.
  - by rewrite length_fmap.
  - intros k r Hr. eexists. rewrite list_lookup_fmap, Hr. simpl.
    split; [done|].
    assert (r ∈ df) as Hin by (apply list_elem_of_lookup; eauto).
    destruct (proj1 (U1 (user_id r))) as [i Hi].
    { apply list_elem_of_fmap. eauto. }
    destruct (proj1 (I1 (item_id r))) as [j Hj].
    { apply list_elem_of_fmap. eauto. }
    rewrite !lookup_total_alt, Hi, Hj. done.
Qed.

End Remapping.


Section Splitting.

Import preprocess_letter_data.

Implicit Types (r : interaction) (df : list interaction) (u : Z).

(** ** The split points are not negative *)

Lemma int_of_float_round_nonneg (mx ex : Z) (lx : location) :
  0 ≤ int_of_float (binary_round_aux 53 1024 false mx ex lx).
Proof.
  unfold binary_round_aux.
  destruct (shr_fexp 53 1024 mx ex lx) as [mrs' e'].
  destruct (shr_fexp 53 1024 _ e' loc_Exact) as [mrs'' e''].
  destruct (shr_m mrs'') as [|m|m]; simpl; [done| |done].
  destruct (e'' <=? 1024 - 53); simpl; [|done].
  apply Z.shiftl_nonneg. lia.
Qed.

Lemma int_of_float_mul_nonneg (n : Z) (my : positive) (ey : Z) :
  0 ≤ n →
  0 ≤ int_of_float (float_mul (float_of_int n) (S754_finite false my ey)).
Proof.
  intros Hn. unfold float_mul, float_of_int, binary_normalize.
  destruct n as [|m|m]; [done| |lia].
  unfold binary_round.
  destruct (shl_align m 0 _) as [mz ez].
  destruct (binary_round_aux 53 1024 false (Z.pos mz) ez loc_Exact)
    as [s|s| |s mm em] eqn:E; try done.
  assert (s = false) as ->.
  { revert E. unfold binary_round_aux.
    destruct (shr_fexp 53 1024 (Z.pos mz) ez loc_Exact) as [mrs' e'].
    destruct (shr_fexp 53 1024 _ e' loc_Exact) as [mrs'' e''].
    destruct (shr_m mrs''); [done| |done].
    by destruct (e'' <=? 1024 - 53); intros [= <-]. }
  simpl. apply int_of_float_round_nonneg.
Qed.

Lemma split_points_nonneg (n : Z) :
  0 ≤ n →
  0 ≤ (split_points n float_0_7 float_0_1).1
  ∧ 0 ≤ (split_points n float_0_7 float_0_1).2.
Proof.
  intros Hn. unfold split_points. cbn [fst snd]. split.
  - by apply int_of_float_mul_nonneg.
  - assert (float_add float_0_7 float_0_1
            = S754_finite false 7205759403792793 (-53)) as ->
      by (vm_compute; reflexivity).
    by apply int_of_float_mul_nonneg.
Qed.

(** ** The three parts as slices of the sorted table *)

Lemma length_sort_values_timestamp df :
  length (sort_values_timestamp df) = length df.
Proof. by rewrite sort_values_timestamp_Permutation. Qed.

Lemma split_slices df :
  let T := sort_values_timestamp df in
  let a := Z.to_nat (split_points (Py.len df) float_0_7 float_0_1).1 in
  let b := Z.to_nat (split_points (Py.len df) float_0_7 float_0_1).2 in
  create_absolute_timestamp_split df float_0_7 float_0_1
  = (take a T, take (b - a) (drop a T), drop b T).
Proof.
  intros T a b. subst T a b.
  unfold create_absolute_timestamp_split, iloc, split_points, Py.len.
  cbn [fst snd]. rewrite !length_sort_values_timestamp.
  destruct (split_points_nonneg (Z.of_nat (length df))) as [Ha Hb]; [lia|].
  unfold split_points in Ha, Hb. cbn [fst snd] in Ha, Hb.
  f_equal; [f_equal|].
  - by rewrite Z.sub_0_r.
  - f_equal. lia.
  - unfold Py.slice_from, Py.from_end.
    destruct (_ <? 0) eqn:E; [apply Z.ltb_lt in E; lia|done].
Qed.

Lemma slices_partition {A} (T : list A) (a b : nat) :
  (a ≤ b)%nat → take a T ++ take (b - a) (drop a T) ++ drop b T = T.
Proof.
  intros Hab.
  replace (drop b T) with (drop (b - a) (drop a T))
    by (rewrite drop_drop; f_equal; lia).
  by rewrite take_drop, take_drop.
Qed.

Lemma slices_cover {A} (T : list A) (a b : nat) x :
  x ∈ T → x ∈ take a T ++ take (b - a) (drop a T) ++ drop b T.
Proof.
  intros Hx. destruct (decide (a ≤ b)%nat) as [Hab|Hab].
  { by rewrite slices_partition. }
  rewrite <- (take_drop a T) in Hx.
  apply elem_of_app in Hx as [Hx|Hx]; [apply elem_of_app; by left|].
  apply elem_of_app. right. apply elem_of_app. right.
  replace (drop a T) with (drop (a - b) (drop b T)) in Hx
    by (rewrite drop_drop; f_equal; lia).
  by apply subseteq_drop in Hx.
Qed.

Lemma sorted_take_drop (T : list interaction) (n : nat) :
  StronglySorted (λ a b, timestamp a ≤ timestamp b) T →
  StronglySorted (λ a b, timestamp a ≤ timestamp b) (take n T)
  ∧ StronglySorted (λ a b, timestamp a ≤ timestamp b) (drop n T).
Proof.
  intros HT. rewrite <- (take_drop n T) in HT.
  split; [by apply StronglySorted_app_1_l in HT
         |by apply StronglySorted_app_1_r in HT].
Qed.

(** X11: [create_absolute_timestamp_split] with the ratios of [main] never
    loses a row: both split points are at least 0, each part is a slice of
    the table sorted by timestamp, hence sorted itself, and every row of
    the table is in some part. *)
Theorem split_covers_every_row df :
  let '(train_df, valid_df, test_df) :=
    create_absolute_timestamp_split df float_0_7 float_0_1 in
  0 ≤ (split_points (Py.len df) float_0_7 float_0_1).1
  ∧ 0 ≤ (split_points (Py.len df) float_0_7 float_0_1).2
  ∧ (∀ r, r ∈ df ↔ r ∈ train_df ++ valid_df ++ test_df)
  ∧ Forall (λ part, part `sublist_of` sort_values_timestamp df
                    ∧ StronglySorted (λ a b, timestamp a ≤ timestamp b) part)
           [train_df; valid_df; test_df].
Proof.
  rewrite split_slices.
  set (T := sort_values_timestamp df).
  set (a := Z.to_nat _). set (b := Z.to_nat _).
  pose proof (sort_values_timestamp_sorted df) as HT. fold T in HT.
  destruct (split_points_nonneg (Py.len df)) as [Ha Hb];
    [unfold Py.len; lia|].
  split_and!; [done..| |].
  - intros r. split.
    + intros Hr. apply slices_cover. unfold T.
      by rewrite sort_values_timestamp_Permutation.
    + intros Hr.
      assert (r ∈ T) as HrT.
      { apply elem_of_app in Hr as [Hr|Hr];
          [by apply subseteq_take in Hr|].
        apply elem_of_app in Hr as [Hr|Hr].
        - by apply subseteq_take, subseteq_drop in Hr.
        - by apply subseteq_drop in Hr. }
      unfold T in HrT. by rewrite sort_values_timestamp_Permutation in HrT.
  - repeat apply Forall_cons_2; [| | |apply Forall_nil_2].
    + split; [apply sublist_take|by apply sorted_take_drop].
    + split.
      * transitivity (drop a T); [apply sublist_take|apply sublist_drop].
      * apply sorted_take_drop. by apply sorted_take_drop.
    + split; [apply sublist_drop|by apply sorted_take_drop].
Qed.

(** X12: when the first split point is not after the second, the three
    parts cut the table sorted by timestamp in three: train, then valid,
    then test make up the sorted table, so no row of an earlier part is
    later than a row of a later part, and the parts have [train_end],
    [valid_end - train_end] and the remaining rows (as far as there are
    rows). *)
Theorem split_is_chronological_partition df :
  (split_points (Py.len df) float_0_7 float_0_1).1
  ≤ (split_points (Py.len df) float_0_7 float_0_1).2 →
  let '(train_df, valid_df, test_df) :=
    create_absolute_timestamp_split df float_0_7 float_0_1 in
  train_df ++ valid_df ++ test_df = sort_values_timestamp df
  ∧ (∀ r r', r ∈ train_df → r' ∈ valid_df ++ test_df →
             timestamp r ≤ timestamp r')
  ∧ (∀ r r', r ∈ valid_df → r' ∈ test_df → timestamp r ≤ timestamp r')
  ∧ Py.len train_df
    = Z.min (split_points (Py.len df) float_0_7 float_0_1).1 (Py.len df)
  ∧ Py.len train_df + Py.len valid_df
    = Z.min (split_points (Py.len df) float_0_7 float_0_1).2 (Py.len df)
  ∧ Py.len train_df + Py.len valid_df + Py.len test_df = Py.len df.
Proof.
  intros Hab. rewrite split_slices.
  set (T := sort_values_timestamp df).
  destruct (split_points_nonneg (Py.len df)) as [Ha Hb];
    [unfold Py.len; lia|].
  revert Hab Ha Hb.
  generalize (split_points (Py.len df) float_0_7 float_0_1).1.
  generalize (split_points (Py.len df) float_0_7 float_0_1).2.
  intros b a Hab Ha Hb.
  assert (Z.to_nat a ≤ Z.to_nat b)%nat as Hnat by lia.
  pose proof (slices_partition T (Z.to_nat a) (Z.to_nat b) Hnat) as Hpart.
  pose proof (sort_values_timestamp_sorted df) as HT. fold T in HT.
  assert (length T = length df) as HlenT
    by apply length_sort_values_timestamp.
  split_and!.
  - done.
  - intros r r' Hr Hr'. rewrite <- Hpart in HT.
    by apply (StronglySorted_app_1_elem_of _ _ _ r r' HT).
  - intros r r' Hr Hr'. rewrite <- Hpart in HT.
    apply StronglySorted_app_1_r in HT.
    by apply (StronglySorted_app_1_elem_of _ _ _ r r' HT).
  - unfold Py.len. rewrite length_take. lia.
  - unfold Py.len. rewrite !length_take, length_drop. lia.
  - unfold Py.len. rewrite !length_take, !length_drop. lia.
Qed.

End Splitting.


Section MainSequences.

Import preprocess_letter_data.

Implicit Types (r : interaction) (df : list interaction) (u : Z).

Lemma filter_sublist {A} (P : A → Prop) `{∀ x, Decision (P x)}
    (l k : list A) :
  l `sublist_of` k → filter P l `sublist_of` filter P k.
Proof.
  induction 1 as [|x l k _ IH|x l k _ IH]; [done| |].
  - rewrite !filter_cons. destruct (decide (P x)); [by constructor|done].
  - rewrite (filter_cons P x k).
    destruct (decide (P x)); [by constructor|done].
Qed.

Lemma create_user_sequences_lookup df u :
  create_user_sequences df !! u
  = if decide (u ∈ user_id <$> df)
    then Some (item_id <$> sort_values_timestamp
                 (filter (λ r, user_id r = u) df))
    else None.
Proof.
  unfold create_user_sequences.
  rewrite (foldl_insert_lookup
             (λ u, item_id <$> sort_values_timestamp
                     (filter (λ r, user_id r = u) df))).
  rewrite lookup_empty.
  destruct (decide (u ∈ sorted_unique (user_id <$> df))) as [H|H];
    destruct (decide (u ∈ user_id <$> df)) as [H'|H']; try done.
  - destruct H'. by apply (elem_of_sorted_unique (user_id <$> df) u).
  - destruct H. by apply elem_of_sorted_unique.
Qed.

(** The sequence that one part of the table gives a user. *)
Lemma part_sequence (part : list interaction) u s :
  create_user_sequences part !! u = Some s →
  u ∈ user_id <$> part
  ∧ s ≠ []
  ∧ ∃ rows,
      s = item_id <$> rows
      ∧ rows ≡ₚ filter (λ r, user_id r = u) part
      ∧ StronglySorted (λ a b, timestamp a ≤ timestamp b) rows.
Proof.
  rewrite create_user_sequences_lookup.
  case_decide as Hu; [|done]. intros [= <-].
  pose proof (sort_values_timestamp_Permutation
                (filter (λ r, user_id r = u) part)) as Hperm.
  split_and!; [done| |].
  - apply list_elem_of_fmap in Hu as (r & -> & Hr).
    assert (r ∈ sort_values_timestamp
                  (filter (λ r', user_id r' = user_id r) part)) as Hin
      by (rewrite Hperm; by apply list_elem_of_filter).
    destruct (sort_values_timestamp _); [by apply elem_of_nil in Hin|done].
  - eexists. split_and!; [done|done|apply sort_values_timestamp_sorted].
Qed.

Lemma slice_of_sorted (T part : list interaction) (a b : nat) :
  StronglySorted (λ a b, timestamp a ≤ timestamp b) T →
  part ∈ [drop b T; take (b - a) (drop a T); take a T] →
  part `sublist_of` T
  ∧ StronglySorted (λ a b, timestamp a ≤ timestamp b) part.
Proof.
  intros HT Hin.
  apply elem_of_cons in Hin as [->|Hin];
    [|apply elem_of_cons in Hin as [->|Hin];
      [|apply list_elem_of_singleton in Hin as ->]].
  - split; [apply sublist_drop|by apply sorted_take_drop].
  - split.
    + transitivity (drop a T); [apply sublist_take|apply sublist_drop].
    + apply sorted_take_drop. by apply sorted_take_drop.
  - split; [apply sublist_take|by apply sorted_take_drop].
Qed.

(** A sequence of [all_sequences] is the sequence that one part of the
    sorted table gives the user. *)
Lemma main_sequence_part df (args_min_interactions args_min_items : Z) u s :
  main df args_min_interactions args_min_items !! u = Some s →
  ∃ part,
    part `sublist_of`
      sort_values_timestamp
        (create_remapped_data
           (filter_data df args_min_interactions args_min_items)).1.1
    ∧ StronglySorted (λ a b, timestamp a ≤ timestamp b) part
    ∧ create_user_sequences part !! u = Some s.
Proof.
  rewrite main_latest_part.
  set (table := (create_remapped_data _).1.1).
  rewrite split_slices. cbn [fst snd].
  set (T := sort_values_timestamp table).
  set (a := Z.to_nat (split_points (Py.len table) float_0_7 float_0_1).1).
  set (b := Z.to_nat (split_points (Py.len table) float_0_7 float_0_1).2).
  pose proof (sort_values_timestamp_sorted table) as HT. fold T in HT.
  intros Hs.
  destruct (create_user_sequences (drop b T) !! u) as [s3|] eqn:E3.
  { injection Hs as <-. exists (drop b T).
    destruct (slice_of_sorted T (drop b T) a b HT);
      [apply list_elem_of_here|done]. }
  destruct (create_user_sequences (take (b - a) (drop a T)) !! u)
    as [s2|] eqn:E2.
  { injection Hs as <-. exists (take (b - a) (drop a T)).
    destruct (slice_of_sorted T (take (b - a) (drop a T)) a b HT);
      [apply list_elem_of_further, list_elem_of_here|done]. }
  exists (take a T).
  destruct (slice_of_sorted T (take a T) a b HT); [|done].
  do 2 apply list_elem_of_further. apply list_elem_of_here.
Qed.

(** X13: [main] keeps every user of the filtered table and invents
    nothing: a user has a sequence in [all_sequences] exactly when the
    remapped table has a row of the user; the sequence is not empty and is
    the item ids of rows of that user, each row at most once, in
    ascending order of their timestamps. *)
Theorem main_keeps_every_user df (args_min_interactions args_min_items : Z)
    u :
  (u ∈ user_id <$> (create_remapped_data
                      (filter_data df args_min_interactions
                                   args_min_items)).1.1
   ↔ is_Some (main df args_min_interactions args_min_items !! u))
  ∧ ∀ s,
      main df args_min_interactions args_min_items !! u = Some s →
      s ≠ []
      ∧ ∃ rows,
          s = item_id <$> rows
          ∧ rows ⊆+ filter (λ r, user_id r = u)
                      (create_remapped_data
                         (filter_data df args_min_interactions
                                      args_min_items)).1.1
          ∧ StronglySorted (λ a b, timestamp a ≤ timestamp b) rows.
Proof.
  set (table := (create_remapped_data _).1.1).
  assert (∀ s, main df args_min_interactions args_min_items !! u = Some s →
               u ∈ user_id <$> table
               ∧ s ≠ []
               ∧ ∃ rows,
                   s = item_id <$> rows
                   ∧ rows ⊆+ filter (λ r, user_id r = u) table
                   ∧ StronglySorted (λ a b, timestamp a ≤ timestamp b) rows)
    as Hseq.
  { intros s Hs.
    destruct (main_sequence_part _ _ _ u s Hs) as (part & Hsub & Hsorted & Hp).
    fold table in Hsub.
    destruct (part_sequence part u s Hp)
      as (Hu & Hne & rows & Hitems & Hperm & Hrows).
    split_and!; [|done|].
    - apply list_elem_of_fmap in Hu as (r & -> & Hr).
      apply list_elem_of_fmap. exists r. split; [done|].
      apply (elem_of_sublist _ _ _ Hr) in Hsub.
      by rewrite sort_values_timestamp_Permutation in Hsub.
    - exists rows. split_and!; [done| |done].
      rewrite Hperm, <- (sort_values_timestamp_Permutation table).
      apply sublist_submseteq. by apply filter_sublist. }
  split; [|intros s Hs; by apply Hseq].
  split; [|intros [s Hs]; by apply (Hseq s)].
  intros (r & -> & Hr)%list_elem_of_fmap.
  rewrite main_latest_part. fold table.
  rewrite split_slices. cbn [fst snd].
  set (T := sort_values_timestamp table).
  set (a := Z.to_nat (split_points (Py.len table) float_0_7 float_0_1).1).
  set (b := Z.to_nat (split_points (Py.len table) float_0_7 float_0_1).2).
  assert (r ∈ take a T ++ take (b - a) (drop a T) ++ drop b T) as Hcov.
  { apply slices_cover. unfold T.
    by rewrite sort_values_timestamp_Permutation. }
  assert (∀ part, r ∈ part →
            is_Some (create_user_sequences part !! user_id r)) as Hsome.
  { intros part Hrp. rewrite create_user_sequences_lookup.
    rewrite decide_True; [done|].
    apply list_elem_of_fmap. eauto. }
  apply elem_of_app in Hcov as [Hc|Hc];
    [|apply elem_of_app in Hc as [Hc|Hc]].
  - destruct (create_user_sequences (drop b T) !! user_id r);
      [simpl; eauto|].
    destruct (create_user_sequences (take (b - a) (drop a T))
                !! user_id r); [simpl; eauto|].
    by apply Hsome.
  - destruct (create_user_sequences (drop b T) !! user_id r);
      [simpl; eauto|].
    destruct (Hsome _ Hc) as [s ->]. simpl; eauto.
  - destruct (Hsome _ Hc) as [s ->]. simpl; eauto.
Qed.

End MainSequences.


Section Saving.

Import preprocess_letter_data.

Implicit Types (seqs : gmap Z (list Z)) (u : Z) (S : list Z).

#[local] Instance str_inj : Inj (=) (=) Py.str.
Proof. unfold Py.str. apply _. Qed.

(** ** The greatest item id *)

Lemma for_each_max_spec (l : list (list Z)) :
  Forall (λ S, S ≠ []) l →
  ∃ maxes,
    for_each Py.max l = Ok maxes
    ∧ length maxes = length l
    ∧ (∀ m, m ∈ maxes → ∃ S, S ∈ l ∧ m ∈ S)
    ∧ (∀ S x, S ∈ l → x ∈ S → ∃ m, m ∈ maxes ∧ x ≤ m).
Proof.
  induction 1 as [|S l HS _ (maxes & Hrun & Hlen & Hin & Hle)].
  { exists []. split_and!; [done..| |].
    - by intros ? ?%elem_of_nil.
    - by intros ? ? ?%elem_of_nil. }
  destruct S as [|x S]; [done|].
  destruct (max_spec (x :: S) x) as (m & Hm & Hmin & Hmle);
    [apply list_elem_of_here|].
  exists (m :: maxes). cbn [for_each]. rewrite Hm, Hrun.
  split_and!; [done|simpl; by rewrite Hlen| |].
  - intros m' [->|Hm']%elem_of_cons.
    + exists (x :: S). split; [apply list_elem_of_here|done].
    + destruct (Hin m' Hm') as (S' & HS' & HmS').
      exists S'. split; [by apply list_elem_of_further|done].
  - intros S' y [->|HS']%elem_of_cons Hy.
    + exists m. split; [apply list_elem_of_here|by apply Hmle].
    + destruct (Hle S' y HS' Hy) as (m' & Hm' & Hym').
      exists m'. split; [by apply list_elem_of_further|done].
Qed.

Lemma for_each_max_raise (l : list (list Z)) :
  [] ∈ l → for_each Py.max l = Raise ValueError.
Proof.
  induction l as [|S l IH]; [by intros ?%elem_of_nil|].
  intros [<-|Hin]%elem_of_cons; [done|].
  cbn [for_each]. destruct (Py.max S) as [m|e] eqn:E.
  - simpl. by rewrite IH.
  - destruct S; [|done]. by injection E as <-.
Qed.

Lemma max_item_id_ok seqs :
  seqs ≠ ∅ → (∀ u S, seqs !! u = Some S → S ≠ []) →
  ∃ m, max_item_id seqs = Ok m
       ∧ (∃ u S, seqs !! u = Some S ∧ m ∈ S)
       ∧ (∀ u S x, seqs !! u = Some S → x ∈ S → x ≤ m).
Proof.
  intros Hne Hall. unfold max_item_id. rewrite decide_False by done.
  destruct (for_each_max_spec (map_to_list seqs).*2)
    as (maxes & -> & Hlen & Hin & Hle).
  { apply Forall_forall. intros S ([u S'] & -> & HuS)%list_elem_of_fmap.
    apply elem_of_map_to_list in HuS. by apply (Hall u). }
  simpl.
  destruct maxes as [|m0 maxes].
  { destruct (map_to_list seqs) eqn:E; [|done].
    by apply map_to_list_empty_iff in E. }
  destruct (max_spec (m0 :: maxes) m0) as (m & Hm & Hmin & Hmle);
    [apply list_elem_of_here|].
  exists m. split; [done|]. split.
  - destruct (Hin m Hmin) as (S & ([u S'] & -> & HuS)%list_elem_of_fmap & HmS).
    exists u, S'. split; [by apply elem_of_map_to_list|done].
  - intros u S x HuS Hx.
    destruct (Hle S x) as (m' & Hm' & Hxm'); [|done|].
    + apply list_elem_of_fmap. exists (u, S). split; [done|].
      by apply elem_of_map_to_list.
    + specialize (Hmle m' Hm'). lia.
Qed.

(** ** The index and the features *)

Lemma range_map_lookup {V} (f : Z → V) (l : list Z) (acc : gmap string V)
    (i : Z) :
  foldl (λ (m : gmap string V) j, <[Py.str j := f j]> m) acc l !! Py.str i
  = if decide (i ∈ l) then Some (f i) else acc !! Py.str i.
Proof.
  revert acc. induction l as [|j l IH]; intros acc; cbn [foldl].
  { case_decide as H; [by apply elem_of_nil in H|done]. }
  rewrite IH.
  destruct (decide (i ∈ l)) as [Hin|Hin];
    destruct (decide (i ∈ j :: l)) as [Hin'|Hin']; try done.
  - destruct Hin'. by apply list_elem_of_further.
  - apply elem_of_cons in Hin' as [->|?]; [|done].
    by rewrite lookup_insert_eq.
  - rewrite lookup_insert_ne; [done|]. intros Heq%(inj Py.str).
    subst. apply Hin', list_elem_of_here.
Qed.

Lemma range_map_keys {V} (f : Z → V) (l : list Z) (acc : gmap string V)
    (k : string) :
  is_Some (foldl (λ (m : gmap string V) j, <[Py.str j := f j]> m) acc l
             !! k) →
  is_Some (acc !! k) ∨ ∃ i, i ∈ l ∧ k = Py.str i.
Proof.
  revert acc. induction l as [|j l IH]; intros acc; cbn [foldl].
  { by left. }
  intros [Hacc|(i & Hi & ->)]%IH.
  - destruct (decide (Py.str j = k)) as [<-|Hne].
    + right. exists j. split; [apply list_elem_of_here|done].
    + rewrite lookup_insert_ne in Hacc by done. by left.
  - right. exists i. split; [by apply list_elem_of_further|done].
Qed.

Lemma elem_of_range (i m : Z) : i ∈ Py.range 0 (m + 1) ↔ 0 ≤ i ≤ m.
Proof. unfold Py.range. rewrite elem_of_seqZ. lia. Qed.

Lemma saved_files_lookup (randint : nat → Z) (m : Z) :
  (∀ i, 0 ≤ i ≤ m →
        tokenized_indices randint m !! Py.str i
        = Some (item_tokens randint i)
        ∧ item_features m !! Py.str i
          = Some (LETTERReader.Feature
                    ("Item " +:+ Py.str i)
                    ("Description for item " +:+ Py.str i)))
  ∧ (∀ k, is_Some (tokenized_indices randint m !! k)
          ↔ ∃ i, 0 ≤ i ≤ m ∧ k = Py.str i)
  ∧ (∀ k, is_Some (item_features m !! k) ↔ ∃ i, 0 ≤ i ≤ m ∧ k = Py.str i)
  ∧ (∀ k t, tokenized_indices randint m !! k = Some t → length t = 4%nat).
Proof.
  unfold tokenized_indices, item_features.
  assert (∀ i, 0 ≤ i ≤ m →
               tokenized_indices randint m !! Py.str i
               = Some (item_tokens randint i)) as Htok.
  { intros i Hi. unfold tokenized_indices.
    rewrite (range_map_lookup (item_tokens randint)).
    rewrite decide_True; [done|by apply elem_of_range]. }
  assert (∀ k, is_Some (tokenized_indices randint m !! k) →
               ∃ i, 0 ≤ i ≤ m ∧ k = Py.str i) as Hkeys.
  { intros k [Hacc|(i & Hi & ->)]%range_map_keys.
    - rewrite lookup_empty in Hacc. by destruct Hacc.
    - exists i. split; [by apply elem_of_range|done]. }
  unfold tokenized_indices in Htok, Hkeys.
  split_and!.
  - intros i Hi. split; [by apply Htok|].
    rewrite (range_map_lookup
               (λ i, LETTERReader.Feature
                       ("Item " +:+ Py.str i)
                       ("Description for item " +:+ Py.str i))).
    rewrite decide_True; [done|by apply elem_of_range].
  - intros k. split; [apply Hkeys|].
    intros (i & Hi & ->). rewrite Htok by done. eauto.
  - intros k. split.
    + intros [Hacc|(i & Hi & ->)]%range_map_keys.
      * rewrite lookup_empty in Hacc. by destruct Hacc.
      * exists i. split; [by apply elem_of_range|done].
    + intros (i & Hi & ->).
      rewrite (range_map_lookup
                 (λ i, LETTERReader.Feature
                         ("Item " +:+ Py.str i)
                         ("Description for item " +:+ Py.str i))).
      rewrite decide_True; [eauto|by apply elem_of_range].
  - intros k t Hk.
    destruct (Hkeys k) as (i & Hi & ->); [eauto|].
    rewrite Htok in Hk by done. by injection Hk as <-.
Qed.


(** X15: the two edges of [save_letter_format]. Without any user it
    still writes one item, ["0"], to [index.json] and [item.json]. With a
    user whose sequence is empty it raises [ValueError] (from [max] of the
    empty list) after [inter.json] has been written and before the two
    other files are. *)
Theorem save_letter_format_edges (randint : nat → Z) :
  save_letter_format randint ∅
  = ([InterFile ∅;
      IndexFile {["0" := item_tokens randint 0]};
      ItemFile {["0" := LETTERReader.Feature "Item 0"
                          "Description for item 0"]}], Ok ())
  ∧ ∀ seqs u,
      seqs !! u = Some [] →
      save_letter_format randint seqs
      = ([InterFile (inter_json seqs)], Raise ValueError).
Proof.
  split; [done|]. intros seqs u Hu. unfold save_letter_format, max_item_id.
  rewrite decide_False.
  2:{ intros ->. by rewrite lookup_empty in Hu. }
  rewrite for_each_max_raise; [done|].
  apply list_elem_of_fmap. exists (u, []). split; [done|].
  by apply elem_of_map_to_list.
Qed.

End Saving.


Section BuilderToReader.

Import preprocess_letter_data.

Implicit Types (seqs : gmap Z (list Z)) (u : Z) (S : list Z).

Lemma remapped_ids_nonneg (df : list interaction) (r : interaction) :
  r ∈ (create_remapped_data df).1.1 → 0 ≤ user_id r ∧ 0 ≤ item_id r.
Proof.
  unfold create_remapped_data. cbn [fst snd].
  intros (r0 & -> & Hr0)%list_elem_of_fmap. simpl.
  destruct (enumerate_sorted_unique (user_id <$> df)) as (U1 & U2 & _).
  destruct (enumerate_sorted_unique (item_id <$> df)) as (I1 & I2 & _).
  destruct (proj1 (U1 (user_id r0))) as [i Hi].
  { apply list_elem_of_fmap. eauto. }
  destruct (proj1 (I1 (item_id r0))) as [j Hj].
  { apply list_elem_of_fmap. eauto. }
  rewrite !lookup_total_alt, Hi, Hj. simpl.
  pose proof (U2 _ _ Hi). pose proof (I2 _ _ Hj). lia.
Qed.

Lemma main_sequence_items (df : list interaction)
    (args_min_interactions args_min_items : Z) u s :
  main df args_min_interactions args_min_items !! u = Some s →
  s ≠ [] ∧ ∀ x, x ∈ s → 0 ≤ x.
Proof.
  intros Hs.
  destruct (main_sequence_part _ _ _ u s Hs) as (part & Hsub & Hsorted & Hp).
  destruct (part_sequence part u s Hp)
    as (_ & Hne & rows & -> & Hperm & _).
  split; [done|].
  intros x (r & -> & Hr)%list_elem_of_fmap.
  rewrite Hperm in Hr. apply list_elem_of_filter in Hr as [_ Hr].
  apply (elem_of_sublist _ _ _ Hr) in Hsub.
  rewrite sort_values_timestamp_Permutation in Hsub.
  by apply remapped_ids_nonneg in Hsub as [_ ?].
Qed.

(** X16: whatever the loaded table, [save_letter_format] on the
    [all_sequences] of [main] writes the three files and returns (no
    sequence of [main] is empty), and every item of every saved sequence
    has its token list in [index.json] and its record in [item.json]. *)
Theorem builder_output_is_saved (randint : nat → Z) (df : list interaction)
    (args_min_interactions args_min_items : Z) :
  ∃ index item,
    save_letter_format randint
      (main df args_min_interactions args_min_items)
    = ([InterFile (inter_json
                     (main df args_min_interactions args_min_items));
        IndexFile index; ItemFile item], Ok ())
    ∧ ∀ u s x,
        main df args_min_interactions args_min_items !! u = Some s →
        x ∈ s →
        index !! Py.str x = Some (item_tokens randint x)
        ∧ is_Some (item !! Py.str x).
Proof.
  set (seqs := main df args_min_interactions args_min_items).
  assert (∀ u S, seqs !! u = Some S → S ≠ []) as Hall.
  { intros u S HuS. by apply (main_sequence_items df args_min_interactions
                 args_min_items u S). }
  unfold save_letter_format.
  destruct (decide (seqs = ∅)) as [Hempty|Hne].
  - exists (tokenized_indices randint 0), (item_features 0).
    unfold max_item_id. rewrite decide_True by done. split; [done|].
    intros u s x Hs. rewrite Hempty in Hs. by rewrite lookup_empty in Hs.
  - destruct (max_item_id_ok seqs Hne Hall) as (m & -> & _ & Hle).
    exists (tokenized_indices randint m), (item_features m).
    split; [done|]. intros u s x Hs Hx.
    destruct (saved_files_lookup randint m) as (Hlook & _).
    destruct (Hlook x) as [-> ->]; [|eauto].
    split; [|by apply (Hle u s)].
    by apply (main_sequence_items df args_min_interactions
                 args_min_items u s Hs).
Qed.

Lemma entries_of_sequences seqs (inters : list (Z * list Z)) :
  inters ≡ₚ map_to_list seqs →
  LETTERReader.processed inters = inters
  ∧ (∀ u S, (u, S) ∈ inters ↔ seqs !! u = Some S)
  ∧ length inters = size seqs.
Proof.
  intros Hperm. split_and!.
  - apply (of_items_NoDup inters). rewrite Hperm.
    apply NoDup_fst_map_to_list.
  - intros u S. rewrite Hperm. apply elem_of_map_to_list.
  - rewrite Hperm. apply length_map_to_list.
Qed.

(** X17: the reader on what the builder saved. For sequences none of
    which is empty, at least one, with ids that the tensors hold exactly,
    read back in any order of the entries of [inter.json]: the reader is built, [n_users] is the number of sequences
    plus 1, [n_items] is the greatest item id of [save_letter_format] plus
    2, and the token lookup finds the tokens written for every
    non-negative item of every sequence. *)
Theorem reader_on_saved_artifact (MAX : nat)
    (inexact : Z → LETTERReader.DataFrame
               → result (gmap LETTERReader.field LETTERReader.tensor))
    (flag : bool) (randint : nat → Z) seqs (inters : list (Z * list Z)) :
  seqs ≠ ∅ → (∀ u S, seqs !! u = Some S → S ≠ []) →
  inters ≡ₚ map_to_list seqs → exact_ids inters = true →
  ∃ m index item self,
    save_letter_format randint seqs
    = ([InterFile (inter_json seqs); IndexFile index; ItemFile item], Ok ())
    ∧ max_item_id seqs = Ok m
    ∧ LETTERReader.__init__ MAX inexact flag
        (LETTERReader.Artifact inters index item)
      = Ok self
    ∧ LETTERReader.n_users self = Z.of_nat (size seqs) + 1
    ∧ LETTERReader.n_items self = m + 2
    ∧ ∀ u S x, seqs !! u = Some S → x ∈ S → 0 ≤ x →
               LETTERReader.get_item_tokens self [x] !! x
               = Some (item_tokens randint x).
Proof.
  intros Hne Hall Hperm Hex.
  destruct (entries_of_sequences seqs inters Hperm) as (Hproc & Hin & Hlen).
  destruct (max_item_id_ok seqs Hne Hall) as (m & Hm & (um & Sm & HSm & HmS) & Hle).
  assert (Sm ≠ []) as HSne by (by apply (Hall um)).
  destruct Sm as [|x0 Sm]; [done|].
  destruct (process_ok MAX inexact inters um (x0 :: Sm) x0)
    as (m' & d & Hd & (u' & S' & HS' & Hm'S') & Hle' & _).
  { by rewrite Hproc. }
  { rewrite Hproc. by apply Hin. }
  { apply list_elem_of_here. }
  rewrite Hproc in Hd, HS', Hle'.
  assert (m' = m) as ->.
  { apply Hin in HS'.
    pose proof (Hle u' S' m' HS' Hm'S').
    pose proof (Hle' um (x0 :: Sm) m (proj2 (Hin _ _) HSm) HmS). lia. }
  exists m, (tokenized_indices randint m), (item_features m).
  unfold LETTERReader.__init__. cbn [LETTERReader.inter_json]. rewrite Hd.
  eexists. unfold save_letter_format. rewrite Hm.
  split_and!; [done..| | |].
  - simpl. unfold Py.len. by rewrite Hlen.
  - done.
  - intros u S x HuS Hx Hx0. unfold LETTERReader.get_item_tokens. simpl.
    destruct (saved_files_lookup randint m) as (Hlook & _).
    destruct (Hlook x) as [-> _]; [|by rewrite lookup_insert_eq].
    split; [done|by apply (Hle u S)].
Qed.

End BuilderToReader.


Section Loaders.

Import preprocess_letter_data TableColumns ReviewRecords.

Implicit Types (df : gmap string (list json)) (name : string).

(** ** The column names of an Amazon table *)

Lemma rename_step_same df (col : string) : rename_step df (col, col) = df.
Proof. unfold rename_step. by destruct (df !! col). Qed.

Lemma rename_step_lookup_eq df (old_col new_col : string) :
  rename_step df (old_col, new_col) !! new_col
  = match df !! new_col with
    | Some col => Some col
    | None => df !! old_col
    end.
Proof.
  unfold rename_step.
  destruct (df !! old_col) as [col|] eqn:Eold;
    destruct (df !! new_col) as [col'|] eqn:Enew; try done.
  by rewrite lookup_insert_eq.
Qed.

Lemma rename_step_lookup_ne df (old_col new_col name : string) :
  name ≠ new_col → rename_step df (old_col, new_col) !! name = df !! name.
Proof.
  intros Hne. unfold rename_step.
  destruct (df !! old_col) as [col|]; destruct (df !! new_col) as [col'|];
    try done.
  by rewrite lookup_insert_ne.
Qed.

Lemma standardize_columns_lookup df name :
  standardize_columns df !! name
  = match alias_of name with
    | Some alias =>
        match df !! name with
        | Some col => Some col
        | None => df !! alias
        end
    | None => df !! name
    end.
Proof.
  unfold standardize_columns, column_mapping. cbn [foldl].
  rewrite !rename_step_same. unfold alias_of.
  destruct (decide (name = "user_id")) as [->|H1];
    [|destruct (decide (name = "item_id")) as [->|H2];
      [|destruct (decide (name = "rating")) as [->|H3];
        [|destruct (decide (name = "timestamp")) as [->|H4]]]];
    repeat (first [rewrite rename_step_lookup_eq
                  |rewrite rename_step_lookup_ne by done]);
    done.
Qed.

Lemma alias_of_alias name alias :
  alias_of name = Some alias → alias_of alias = None.
Proof.
  unfold alias_of. repeat case_decide; intros; by simplify_eq.
Qed.

(** X18: after the renaming loop of [load_amazon_data] a canonical column
    ([user_id], [item_id], [rating], [timestamp]) is the column of that
    name when the file has one, and else the column of its alias
    ([reviewerID], [asin], [overall], [unixReviewTime]) when the file has
    that; a canonical column is never overwritten by its alias, every
    column of the file is kept as it is, and running the loop a second
    time changes nothing. *)
Theorem standardize_columns_spec df :
  (∀ name,
      standardize_columns df !! name
      = match alias_of name with
        | Some alias =>
            match df !! name with
            | Some col => Some col
            | None => df !! alias
            end
        | None => df !! name
        end)
  ∧ df ⊆ standardize_columns df
  ∧ standardize_columns (standardize_columns df) = standardize_columns df.
Proof.
  split; [apply standardize_columns_lookup|]. split.
  - apply map_subseteq_spec. intros name col Hcol.
    rewrite standardize_columns_lookup, Hcol. by destruct (alias_of name).
  - apply map_eq. intros name.
    rewrite (standardize_columns_lookup (standardize_columns df)).
    destruct (alias_of name) as [alias|] eqn:Ealias; [|done].
    rewrite !standardize_columns_lookup, Ealias, (alias_of_alias _ _ Ealias).
    by destruct (df !! name), (df !! alias).
Qed.

(** ** The rating filter of the Amazon loader *)

Lemma select_rows_numeric threshold (qs : list Q) :
  select_rows ((λ q, negb (Qle_bool q threshold)) <$> qs) (JNum <$> qs)
  = JNum <$> filter (above threshold) qs.
Proof.
  induction qs as [|q qs IH]; [done|].
  rewrite !fmap_cons. cbn [select_rows]. rewrite IH.
  unfold above at 2.
  destruct (Qle_bool q threshold) eqn:E; cbn [negb].
  - rewrite filter_cons_False; [done|]. unfold above. by rewrite E.
  - rewrite filter_cons_True; [done|]. done.
Qed.

Lemma above_spec threshold q : above threshold q ↔ (threshold < q)%Q.
Proof.
  unfold above. split.
  - intros E. apply Qnot_le_lt. intros Hle.
    apply Qle_bool_iff in Hle. congruence.
  - intros Hlt. destruct (Qle_bool q threshold) eqn:E; [|done].
    apply Qle_bool_iff in E. by apply Qlt_not_le in Hlt.
Qed.

Lemma for_each_above_threshold_error threshold col e :
  for_each (above_threshold threshold) col = Raise e → e = TypeError.
Proof.
  revert e. induction col as [|cell col IH]; intros e; [done|].
  cbn [for_each].
  destruct cell as [|b|q|s]; cbn;
    try (intros; by simplify_eq);
    destruct (for_each (above_threshold threshold) col) eqn:E; cbn;
    intros; simplify_eq; by eapply IH.
Qed.

(** X19: the Amazon loader raises [KeyError] for ['rating'] exactly when
    the file has neither a [rating] nor an [overall] column. When the
    rating column holds numbers, the loader returns a table with the same
    columns, whose rating column keeps, in order, the ratings strictly
    greater than the threshold: a rating equal to the threshold is
    dropped. *)
Theorem amazon_rating_filter threshold df :
  (amazon_table threshold df = Raise (KeyError "rating")
   ↔ df !! "rating" = None ∧ df !! "overall" = None)
  ∧ (∀ qs : list Q,
        standardize_columns df !! "rating" = Some (JNum <$> qs) →
        ∃ table,
          amazon_table threshold df = Ok table
          ∧ dom table = dom (standardize_columns df)
          ∧ table !! "rating" = Some (JNum <$> filter (above threshold) qs)
          ∧ Forall (λ q, (threshold < q)%Q) (filter (above threshold) qs)
          ∧ (∀ q, q ∈ qs → (q <= threshold)%Q →
                   q ∉ filter (above threshold) qs)).
Proof.
  split.
  - unfold amazon_table.
    pose proof (standardize_columns_lookup df "rating") as Hr.
    change (alias_of "rating") with (Some "overall") in Hr.
    remember (standardize_columns df) as sdf eqn:Hsdf. clear Hsdf.
    destruct (sdf !! "rating") as [col|] eqn:E.
    + split.
      * cbn. destruct (for_each (above_threshold threshold) col) eqn:Ef;
          cbn; [done|].
        intros [= ->]. by apply for_each_above_threshold_error in Ef.
      * intros [H1 H2]. by rewrite H1, H2 in Hr.
    + split; [|done]. intros _.
      destruct (df !! "rating"); [done|]. by destruct (df !! "overall").
  - intros qs Hqs. unfold amazon_table.
    remember (standardize_columns df) as sdf eqn:Hsdf. clear Hsdf.
    rewrite Hqs. cbn.
    rewrite (for_each_fmap _ (λ cell, negb (Qle_bool (number_of cell)
                                                     threshold)))
      by (intros cell (q & -> & _)%list_elem_of_fmap; done).
    cbn. eexists. split; [done|].
    split; [by rewrite dom_fmap_L|].
    split.
    { rewrite lookup_fmap, Hqs. cbn. f_equal.
      rewrite <- list_fmap_compose.
      rewrite <- select_rows_numeric. f_equal. }
    split.
    { apply Forall_forall. intros q [Hq _]%list_elem_of_filter.
      by apply above_spec. }
    intros q _ Hle [Hq _]%list_elem_of_filter.
    apply above_spec in Hq. by apply Qlt_not_le in Hq.
Qed.

(** ** The file that the Amazon loader reads *)

(** X20: the Amazon loader reads the first file that exists among
    [<dataset>.csv], [<dataset>_5.csv] and [<dataset>_interactions.csv]
    of the input directory, in that order; when none exists it raises
    [FileNotFoundError] and reads nothing. *)
Theorem amazon_file_fallback
    (path_exists : string → bool) (path_join : string → string → string)
    (read_csv : string → result (gmap string (list json)))
    (threshold : Q) (input_path dataset : string) :
  load_amazon_data path_exists path_join read_csv threshold
    input_path dataset
  = match list_find (λ file, path_exists file = true)
            (path_join input_path
               <$> [dataset +:+ ".csv"; dataset +:+ "_5.csv";
                    dataset +:+ "_interactions.csv"]) with
    | Some (_, inter_file) =>
        Located (read_csv inter_file ≫= amazon_table threshold)
    | None =>
        FileNotFoundError
          ("Could not find interaction file for " +:+ dataset)
    end.
Proof.
  unfold load_amazon_data, amazon_inter_file. cbn [first_existing].
  rewrite !fmap_cons, fmap_nil. cbn [list_find].
  repeat (rewrite decide_bool_decide; unfold bool_decide).
  repeat
    match goal with
    | |- context [path_exists ?file] =>
        destruct (path_exists file) eqn:?; cbn
    end; done.
Qed.

(** ** The rating filter of the Yelp loader *)

Lemma rating_filter_numeric threshold (rows : list raw_interaction) :
  Forall (λ r, ∃ q, raw_rating r = JNum q) rows →
  rating_filter threshold rows
  = Ok (filter (λ r, above threshold (number_of (raw_rating r))) rows).
Proof.
  induction 1 as [|r rows [q Hq] _ IH]; [done|].
  cbn [rating_filter]. rewrite IH. unfold above_threshold. rewrite Hq.
  destruct (decide (above threshold (number_of (raw_rating r)))) as [Ha|Ha].
  - rewrite filter_cons_True by done.
    unfold above in Ha. rewrite Hq in Ha. cbn [number_of] in Ha.
    by rewrite Ha.
  - rewrite filter_cons_False by done.
    unfold above in Ha. rewrite Hq in Ha. cbn [number_of] in Ha.
    apply not_false_is_true in Ha. by rewrite Ha.
Qed.

Lemma zip_with_unix_timestamp_numeric (records : list (gmap string json))
    (ts : list Z) :
  Forall (λ data, ∃ q, data !! "stars" = Some (JNum q)) records →
  Forall (λ r, ∃ q, raw_rating r = JNum q)
         (zip_with with_unix_timestamp (row_of <$> records) ts).
Proof.
  intros Hstars. revert ts.
  induction Hstars as [|data records [q Hq] _ IH]; intros [|t ts];
    try by constructor.
  rewrite fmap_cons. cbn [zip_with]. constructor; [|apply IH].
  exists q. unfold row_of. cbn. by rewrite Hq.
Qed.

(** X21: on a review file without records the Yelp loader raises
    [KeyError] for ['timestamp'], since the table then has no column. On a
    non-empty file whose records all have the four fields and whose stars
    are numbers, when pandas converts the column of dates to one integer
    per row, the loader returns, in the order of the file, the rows whose
    rating is strictly greater than the threshold, each with its date
    replaced by the integer of its row; a rating equal to the threshold
    is dropped. *)
Theorem yelp_rows_above_threshold
    (to_unix_seconds : list json → result (list Z))
    (threshold : Q) (records : list (gmap string json)) (ts : list Z) :
  load_yelp_data to_unix_seconds threshold [] = Raise (KeyError "timestamp")
  ∧ (records ≠ [] →
     Forall (λ data, missing_field data = None) records →
     Forall (λ data, ∃ q, data !! "stars" = Some (JNum q)) records →
     to_unix_seconds (raw_timestamp <$> (row_of <$> records)) = Ok ts →
     length ts = length records →
     ∃ rows,
       load_yelp_data to_unix_seconds threshold (Ok <$> records) = Ok rows
       ∧ rows = filter (λ r, above threshold (number_of (raw_rating r)))
                  (zip_with with_unix_timestamp (row_of <$> records) ts)
       ∧ Forall (λ r, ∃ q, raw_rating r = JNum q ∧ (threshold < q)%Q) rows
       ∧ rows `sublist_of`
           zip_with with_unix_timestamp (row_of <$> records) ts
       ∧ length (zip_with with_unix_timestamp (row_of <$> records) ts)
         = length records).
Proof.
  split; [done|].
  intros Hne Hfields Hstars Hdates Hlen. eexists.
  pose proof (zip_with_unix_timestamp_numeric records ts Hstars) as Hnum.
  split_and!; [|done| | |].
  - unfold load_yelp_data.
    rewrite (yelp_interactions_complete _ Hfields). cbn [mbind result_bind].
    destruct records as [|data records]; [done|].
    rewrite fmap_cons. rewrite fmap_cons in Hdates.
    rewrite Hdates. cbn [mbind result_bind].
    by apply rating_filter_numeric.
  - apply Forall_forall. intros r [Habove Hr]%list_elem_of_filter.
    apply (proj1 (Forall_forall _ _) Hnum) in Hr as [q Hq].
    exists q. split; [done|]. rewrite Hq in Habove. by apply above_spec.
  - apply sublist_filter.
  - rewrite length_zip_with, length_fmap. lia.
Qed.

End Loaders.

(** * The further properties at sample inputs *)

(** The user columns of [six_items]. *)
Lemma rows_in_user_order_witness :
  exact_ids (processed Examples.six_items) = true
  ∧ (0, [0; 1; 2; 3; 4; 5]) ∈ processed Examples.six_items
  ∧ 0 ∈ [0; 1; 2; 3; 4; 5]
  ∧ ∃ nu ni d,
      _process_letter_data 4 Examples.raising Examples.six_items
      = Ok (nu, ni, d)
      ∧ user_id <$> split_rows d "valid"
        = (filter (λ us, (3 ≤ length us.2)%nat)
             (processed Examples.six_items)).*1
      ∧ length (split_rows d "valid") = length (split_rows d "test").
Proof.
  split; [apply six_items_exact|].
  split; [apply six_items_user|]. split; [apply list_elem_of_here|].
  destruct (rows_in_user_order 4 Examples.raising Examples.six_items
              0 [0; 1; 2; 3; 4; 5] 0)
    as (nu & ni & d & Hd & Hva & _ & _ & Hlen & _);
    [apply six_items_exact|apply six_items_user|apply list_elem_of_here|].
  by exists nu, ni, d.
Defined.

(** The tables of [six_items] are built. *)
Lemma nonempty_split_is_rectangular_witness :
  exact_ids (processed Examples.six_items) = true
  ∧ (0, [0; 1; 2; 3; 4; 5]) ∈ processed Examples.six_items
  ∧ 0 ∈ [0; 1; 2; 3; 4; 5]
  ∧ ∃ nu ni d train valid test,
      _process_letter_data 4 Examples.raising Examples.six_items
      = Ok (nu, ni, d)
      ∧ split_users (processed Examples.six_items) ([], [], [])
        = Ok (train, valid, test).
Proof.
  split; [apply six_items_exact|].
  split; [apply six_items_user|]. split; [apply list_elem_of_here|].
  destruct (nonempty_split_is_rectangular 4 Examples.raising
              Examples.six_items 0 [0; 1; 2; 3; 4; 5] 0)
    as (nu & ni & d & train & valid & test & Hd & Hsplit & _);
    [apply six_items_exact|apply six_items_user|apply list_elem_of_here|].
  by exists nu, ni, d, train, valid, test.
Defined.

(** The contexts of [six_items] are prefixes of the sequence. *)
Lemma context_is_history_witness :
  (0, [0; 1; 2; 3; 4; 5]) ∈ processed Examples.six_items
  ∧ ∃ train valid test,
      split_users (processed Examples.six_items) ([], [], [])
      = Ok (train, valid, test)
      ∧ ∀ r, r ∈ rows_of 0 train ++ rows_of 0 valid ++ rows_of 0 test →
             (row_ITEM_SEQ r ++ [row_ITEM_ID r])
               `prefix_of` [0; 1; 2; 3; 4; 5].
Proof.
  split; [apply six_items_user|].
  destruct (context_is_history Examples.six_items 0 [0; 1; 2; 3; 4; 5])
    as (train & valid & test & Hsplit & Hrows & _);
    [apply six_items_user|].
  exists train, valid, test. split; [done|].
  intros r Hr. by destruct (Hrows r Hr).
Defined.

(** The padded contexts of [six_items] with four positions. *)
Lemma padding_can_be_undone_witness :
  (0 < 4)%nat
  ∧ exact_ids (processed Examples.six_items) = true
  ∧ (0, [0; 1; 2; 3; 4; 5]) ∈ processed Examples.six_items
  ∧ 0 ∈ [0; 1; 2; 3; 4; 5]
  ∧ ∃ nu ni d,
      _process_letter_data 4 Examples.raising Examples.six_items
      = Ok (nu, ni, d)
      ∧ ∀ name s,
          name ∈ ["train"; "valid"; "test"] → s ∈ split_rows d name →
          Py.len (filter (λ x, x ≠ ni - 1) (padded_context s))
          = context_length s.
Proof.
  split; [lia|]. split; [apply six_items_exact|].
  split; [apply six_items_user|].
  split; [apply list_elem_of_here|].
  destruct (padding_can_be_undone 4 Examples.raising Examples.six_items 0
              [0; 1; 2; 3; 4; 5] 0)
    as (nu & ni & d & Hd & Hpad);
    [lia|apply six_items_exact|apply six_items_user
    |apply list_elem_of_here|].
  exists nu, ni, d. split; [done|].
  intros name s Hname Hs. by destruct (Hpad name s Hname Hs).
Defined.

(** The 25 rows of [table25] are cut at 17 and 20. *)
Lemma split_is_chronological_partition_witness :
  (preprocess_letter_data.split_points (Py.len Examples.table25)
     preprocess_letter_data.float_0_7 preprocess_letter_data.float_0_1).1
  ≤ (preprocess_letter_data.split_points (Py.len Examples.table25)
       preprocess_letter_data.float_0_7 preprocess_letter_data.float_0_1).2
  ∧ ∃ train_df valid_df test_df,
      preprocess_letter_data.create_absolute_timestamp_split
        Examples.table25
        preprocess_letter_data.float_0_7 preprocess_letter_data.float_0_1
      = (train_df, valid_df, test_df)
      ∧ train_df ++ valid_df ++ test_df
        = preprocess_letter_data.sort_values_timestamp Examples.table25.
Proof.
  assert ((preprocess_letter_data.split_points (Py.len Examples.table25)
             preprocess_letter_data.float_0_7
             preprocess_letter_data.float_0_1).1
          ≤ (preprocess_letter_data.split_points (Py.len Examples.table25)
               preprocess_letter_data.float_0_7
               preprocess_letter_data.float_0_1).2) as Hpoints.
  { vm_compute. discriminate. }
  split; [exact Hpoints|].
  pose proof (split_is_chronological_partition Examples.table25 Hpoints)
    as Hsplit.
  destruct (preprocess_letter_data.create_absolute_timestamp_split
              Examples.table25 preprocess_letter_data.float_0_7
              preprocess_letter_data.float_0_1)
    as [[train_df valid_df] test_df].
  exists train_df, valid_df, test_df. split; [done|].
  by destruct Hsplit.
Defined.


(** The reader on the files of one user with the items 0, 1 and 2. *)
Lemma reader_on_saved_artifact_witness :
  (<[0 := [0; 1; 2]]> ∅ : gmap Z (list Z)) ≠ ∅
  ∧ (∀ u S, (<[0 := [0; 1; 2]]> ∅ : gmap Z (list Z)) !! u = Some S → S ≠ [])
  ∧ [(0, [0; 1; 2])] ≡ₚ map_to_list (<[0 := [0; 1; 2]]> ∅ : gmap Z (list Z))
  ∧ exact_ids [(0, [0; 1; 2])] = true
  ∧ ∃ m index item self,
      preprocess_letter_data.max_item_id (<[0 := [0; 1; 2]]> ∅) = Ok m
      ∧ LETTERReader.__init__ 4 Examples.raising true
          (LETTERReader.Artifact [(0, [0; 1; 2])] index item)
        = Ok self
      ∧ LETTERReader.n_items self = m + 2.
Proof.
  assert ((<[0 := [0; 1; 2]]> ∅ : gmap Z (list Z)) ≠ ∅) as Hne
    by apply insert_non_empty.
  assert (∀ u S, (<[0 := [0; 1; 2]]> ∅ : gmap Z (list Z)) !! u = Some S
                 → S ≠ []) as Hseqs.
  { intros u S [[_ <-]|[_ HS]]%lookup_insert_Some; [done|].
    by rewrite lookup_empty in HS. }
  assert ([(0, [0; 1; 2])]
          ≡ₚ map_to_list (<[0 := [0; 1; 2]]> ∅ : gmap Z (list Z))) as Hperm.
  { rewrite insert_empty. by rewrite map_to_list_singleton. }
  split; [exact Hne|]. split; [exact Hseqs|]. split; [exact Hperm|].
  split; [reflexivity|].
  destruct (reader_on_saved_artifact 4 Examples.raising true (λ _, 7)
              (<[0 := [0; 1; 2]]> ∅) [(0, [0; 1; 2])] Hne Hseqs Hperm
              eq_refl)
    as (m & index & item & self & _ & Hm & Hinit & _ & Hni & _).
  by exists m, index, item, self.
Defined.

(** One review with five stars against the threshold 3, for a conversion
    that numbers the rows. *)
Lemma yelp_rows_above_threshold_witness :
  [Examples.review "u1" "b1" "2019-01-01"] ≠ []
  ∧ Forall (λ data, ReviewRecords.missing_field data = None)
           [Examples.review "u1" "b1" "2019-01-01"]
  ∧ ∃ rows,
      preprocess_letter_data.load_yelp_data
        (λ col, Ok (seqZ 0 (Py.len col))) 3
        [Ok (Examples.review "u1" "b1" "2019-01-01")]
      = Ok rows
      ∧ Forall (λ r, ∃ q, preprocess_letter_data.raw_rating r
                          = preprocess_letter_data.JNum q ∧ (3 < q)%Q) rows.
Proof.
  assert (Forall (λ data, ReviewRecords.missing_field data = None)
                 [Examples.review "u1" "b1" "2019-01-01"]) as Hfields.
  { constructor; [|constructor]. vm_compute. reflexivity. }
  split; [done|]. split; [exact Hfields|].
  destruct (yelp_rows_above_threshold (λ col, Ok (seqZ 0 (Py.len col))) 3
              [Examples.review "u1" "b1" "2019-01-01"] [0])
    as [_ Hload].
  destruct Hload as (rows & Hload & _ & Hrows & _);
    [done|exact Hfields| |reflexivity|reflexivity|].
  { constructor; [|constructor]. exists 5%Q. vm_compute. reflexivity. }
  by exists rows.
Defined.
